(** * Cross Access wallet: Wallet Registry and Session Bridge

    A shallow embedding of [src/services/WalletService.ts] (the
    [WalletService] singleton) and of the dApp bridge of the browser
    screen ([handleSessionProposal], [handleSessionRequest],
    [handleEthereumRequest]), with the properties the specification states
    about them.

    The code is asynchronous glue over ethers.js, the Alchemy SDK,
    AsyncStorage, WalletConnect and React Native's [Alert].  The embedding
    threads one [World] through every method with a state-and-error monad;
    whatever a library decides (is this key well formed, does this write
    fail, what does the node answer) is read from a record of external
    collaborators [Ext], over which every theorem quantifies.  Each call
    that leaves the process is appended to [trace], so that "no external
    call", "exactly one call" and "only after a tap" are statements about
    that list. *)

From Stdlib Require Import ZArith Lia Ascii.
From stdpp Require Import base option list strings gmap.

Local Open Scope Z_scope.
Local Open Scope string_scope.
Local Open Scope list_scope.

(** ** Data model (WalletService.ts, lines 6-54) *)

Inductive ChainType := ETHEREUM | POLYGON | SOLANA | BINANCE.

#[global] Instance ChainType_eq_dec : EqDecision ChainType.
Proof. solve_decision. Defined.

(** The string value of each enum member. *)
Definition chainName (c : ChainType) : string :=
  match c with
  | ETHEREUM => "ethereum"
  | POLYGON => "polygon"
  | SOLANA => "solana"
  | BINANCE => "binance"
  end.

(** [Object.values(ChainType)], in declaration order. *)
Definition ChainType_values : list ChainType :=
  [ETHEREUM; POLYGON; SOLANA; BINANCE].

(** [Network] is the enum of the Alchemy SDK; at run time a member is its
    string value, and the code only ever interpolates it into a table key. *)
Definition Network := string.
Definition ETH_MAINNET : Network := "eth-mainnet".
Definition ETH_GOERLI : Network := "eth-goerli".
Definition MATIC_MAINNET : Network := "polygon-mainnet".
Definition MATIC_MUMBAI : Network := "polygon-mumbai".

Record NetworkDescriptor := { nd_name : string; nd_network : Network }.

(** [CHAIN_NETWORKS]: only ethereum and polygon have an entry. *)
Definition CHAIN_NETWORKS (c : ChainType) : list NetworkDescriptor :=
  match c with
  | ETHEREUM => [ {| nd_name := "Ethereum"; nd_network := ETH_MAINNET |};
                  {| nd_name := "Goerli"; nd_network := ETH_GOERLI |} ]
  | POLYGON => [ {| nd_name := "Polygon"; nd_network := MATIC_MAINNET |};
                 {| nd_name := "Mumbai"; nd_network := MATIC_MUMBAI |} ]
  | _ => []
  end.

Record Token := {
  symbol : string;
  name : string;
  decimals : Z;
  address : string;
  tk_chainType : ChainType;
  logoURI : option string
}.

Record TokenBalance := { token : Token; balance : string; value : string }.

Inductive TxStatus := pending | confirmed | failed.

(** A value as JavaScript hands it over when the type is [any]: the
    parameters of a JSON-RPC request are passed on unchecked. *)
Inductive JsVal :=
| JsUndefined
| JsString (s : string)
| JsObject (to_field value_field : option string).

Record Transaction := {
  hash : string;
  from : string;
  to : JsVal;
  tx_value : JsVal;
  timestamp : Z;
  status : TxStatus;
  chainType : ChainType;
  network : Network
}.

(** An [ethers.Wallet]: the key and the address derived from it. *)
Record Wallet := { privateKey : string; wallet_address : string }.

(** The two kinds of provider [setupProviders] builds. *)
Inductive Provider :=
| DefaultProvider (net : string)
| JsonRpcProvider (url : string).

Record Alchemy := { apiKey : string; alchemy_network : Network }.

(** What the Alchemy SDK returns. *)
Record RawTokenBalance :=
  { contractAddress : string; tokenBalance : option string }.

Record TokenMetadata := {
  md_symbol : option string;
  md_name : option string;
  md_decimals : option Z;
  md_logo : option string
}.

Record AssetTransfer := {
  tr_hash : string;
  tr_from : string;
  tr_to : string;
  tr_value : option string;
  (** [metadata] is present only when the query asked for it; inside it the
      block timestamp may be missing. *)
  tr_metadata : option (option string)
}.

(** ** The dApp bridge: protocol payloads *)

Record RequiredNamespace := {
  ns_chains : list string;
  ns_methods : list string;
  ns_events : list string
}.

Record ApprovedNamespace := {
  accounts : list string;
  methods : list string;
  events : list string
}.

Record Proposal := {
  prop_id : Z;
  proposer_name : string;
  requiredNamespaces : gmap string RequiredNamespace
}.

Record RequestEvent := {
  req_id : Z;
  req_topic : string;
  req_method : string;
  methodParams : list JsVal
}.

(** A message posted by the embedded page: [{id, method, params}]. *)
Record PageRequest := { data_id : Z; data_method : string }.

Record Reason := { code : Z; message : string }.

(** The [{id, jsonrpc: "2.0", result | error}] object sent back into the
    page. *)
Inductive PageResponse :=
| PageResult (id : Z) (result : list string)
| PageError (id : Z) (error : Reason).

(** The [onPress] closures of the dialogs, one constructor per closure with
    the variables it captures. *)
Inductive Action :=
| ProposalCreateWallet (proposal : Proposal)
| RequestReject (id : Z)
| TransactionApprove (id : Z) (topic : string) (p0 : JsVal)
| SignApprove (id : Z) (topic : string) (p0 : JsVal)
| AccountsCreateWallet (id : Z).

Record Button := { text : string; onPress : option Action }.

Record Dialog := { title : string; body : string; buttons : list Button }.

(** ** Errors and the trace of observable calls *)

Inductive Error :=
| WalletNotFound
| InvalidPrivateKey
| InvalidMnemonic
| ProviderNotFound (c : ChainType) (n : Network)
| AlchemyNotFound (c : ChainType) (n : Network)
| TypeError
| ExternalFailure (what : string).

(** The [message] of the [Error] the code throws. *)
Definition errorMessage (e : Error) : string :=
  match e with
  | WalletNotFound => "Wallet not found"
  | InvalidPrivateKey => "Invalid private key"
  | InvalidMnemonic => "Invalid mnemonic phrase"
  | ProviderNotFound c n =>
      "Provider not found for " +:+ chainName c +:+ " " +:+ n
  | AlchemyNotFound c n =>
      "Alchemy instance not found for " +:+ chainName c +:+ " " +:+ n
  | TypeError => "TypeError"
  | ExternalFailure what => what
  end.

(** The public methods of [WalletService], as invoked. *)
Inductive RegistryCall :=
| CallInitialize
| CallCreateWallet (c : ChainType)
| CallImportWallet (c : ChainType) (key : string)
| CallImportWalletFromMnemonic (c : ChainType) (mnemonic : string)
| CallGetWalletAddress (c : ChainType)
| CallHasWallet (c : ChainType)
| CallGetBalance (c : ChainType) (n : Network)
| CallGetTokenBalances (c : ChainType) (n : Network)
| CallSendTransaction (c : ChainType) (n : Network) (to amount : JsVal)
| CallSignMessage (c : ChainType) (msg : JsVal)
| CallGetTransactionHistory (c : ChainType) (n : Network).

Inductive Event :=
(* the registry being entered *)
| Registry (call : RegistryCall)
(* [console.error] *)
| ConsoleError (what : string)
(* AsyncStorage *)
| StorageGetItem (key : string)
| StorageSetItem (key value : string)
(* chain clients and the signer *)
| ProviderGetBalance (p : Provider) (addr : string)
| ProviderSendTransaction (p : Provider) (sender : string) (to amount : JsVal)
| SignerSignMessage (signer : string) (msg : JsVal)
| AlchemyGetTokenBalances (a : Alchemy) (addr : string)
| AlchemyGetTokenMetadata (a : Alchemy) (contract : string)
| AlchemyGetAssetTransfers (a : Alchemy) (addr : string)
(* the user interface *)
| AlertShown (d : Dialog)
| Tapped (d : Dialog) (label : string)
(* WalletConnect, towards the remote peer *)
| ApproveSession (id : Z) (namespaces : gmap string ApprovedNamespace)
| RejectSession (id : Z) (reason : Reason)
| RespondSessionRequest (topic : string) (id : Z) (result : string)
(* the embedded page *)
| InjectJavaScript (response : PageResponse).

(** ** The state every method runs in *)

Record World := {
  (* WalletService *)
  wallets : ChainType -> option Wallet;
  providers : gmap string Provider;
  alchemyInstances : gmap string Alchemy;
  (* AsyncStorage *)
  storage : gmap string string;
  (* BrowserScreen *)
  isConnecting : bool;
  connectedDapp : option string;
  dialogs : list Dialog;
  (* number of external calls made so far, and what was observed *)
  clock : nat;
  trace : list Event
}.

(** The singleton as [getInstance] first builds it, on an empty store. *)
Definition initialWorld : World := {|
  wallets := fun _ => None;
  providers := ∅;
  alchemyInstances := ∅;
  storage := ∅;
  isConnecting := false;
  connectedDapp := None;
  dialogs := [];
  clock := 0%nat;
  trace := []
|}.

Definition set_wallets (f : ChainType -> option Wallet) (w : World) : World :=
  {| wallets := f; providers := providers w;
     alchemyInstances := alchemyInstances w; storage := storage w;
     isConnecting := isConnecting w; connectedDapp := connectedDapp w;
     dialogs := dialogs w; clock := clock w; trace := trace w |}.

Definition set_providers (p : gmap string Provider) (w : World) : World :=
  {| wallets := wallets w; providers := p;
     alchemyInstances := alchemyInstances w; storage := storage w;
     isConnecting := isConnecting w; connectedDapp := connectedDapp w;
     dialogs := dialogs w; clock := clock w; trace := trace w |}.

Definition set_alchemyInstances (a : gmap string Alchemy) (w : World) : World :=
  {| wallets := wallets w; providers := providers w;
     alchemyInstances := a; storage := storage w;
     isConnecting := isConnecting w; connectedDapp := connectedDapp w;
     dialogs := dialogs w; clock := clock w; trace := trace w |}.

Definition set_storage (s : gmap string string) (w : World) : World :=
  {| wallets := wallets w; providers := providers w;
     alchemyInstances := alchemyInstances w; storage := s;
     isConnecting := isConnecting w; connectedDapp := connectedDapp w;
     dialogs := dialogs w; clock := clock w; trace := trace w |}.

Definition set_isConnecting (b : bool) (w : World) : World :=
  {| wallets := wallets w; providers := providers w;
     alchemyInstances := alchemyInstances w; storage := storage w;
     isConnecting := b; connectedDapp := connectedDapp w;
     dialogs := dialogs w; clock := clock w; trace := trace w |}.

Definition set_connectedDapp (d : option string) (w : World) : World :=
  {| wallets := wallets w; providers := providers w;
     alchemyInstances := alchemyInstances w; storage := storage w;
     isConnecting := isConnecting w; connectedDapp := d;
     dialogs := dialogs w; clock := clock w; trace := trace w |}.

Definition set_dialogs (d : list Dialog) (w : World) : World :=
  {| wallets := wallets w; providers := providers w;
     alchemyInstances := alchemyInstances w; storage := storage w;
     isConnecting := isConnecting w; connectedDapp := connectedDapp w;
     dialogs := d; clock := clock w; trace := trace w |}.

Definition set_clock (n : nat) (w : World) : World :=
  {| wallets := wallets w; providers := providers w;
     alchemyInstances := alchemyInstances w; storage := storage w;
     isConnecting := isConnecting w; connectedDapp := connectedDapp w;
     dialogs := dialogs w; clock := n; trace := trace w |}.

Definition set_trace (t : list Event) (w : World) : World :=
  {| wallets := wallets w; providers := providers w;
     alchemyInstances := alchemyInstances w; storage := storage w;
     isConnecting := isConnecting w; connectedDapp := connectedDapp w;
     dialogs := dialogs w; clock := clock w; trace := t |}.

(** [this.wallets[chainType] = wallet] *)
Definition assign (c : ChainType) (wl : Wallet)
    (f : ChainType -> option Wallet) : ChainType -> option Wallet :=
  fun c' => if decide (c' = c) then Some wl else f c'.

(** ** The monad: state, and exceptions as a result *)

Inductive Result (A : Type) :=
| Ok (a : A)
| Err (e : Error).
Arguments Ok {A} a.
Arguments Err {A} e.

Definition M (A : Type) : Type := World -> Result A * World.

Definition ret {A} (a : A) : M A := fun w => (Ok a, w).

Definition throw {A} (e : Error) : M A := fun w => (Err e, w).

Definition bind {A B} (m : M A) (k : A -> M B) : M B :=
  fun w =>
    match m w with
    | (Ok a, w') => k a w'
    | (Err e, w') => (Err e, w')
    end.

(** [try { m } catch (error) { h error }] *)
Definition try_catch {A} (m : M A) (h : Error -> M A) : M A :=
  fun w =>
    match m w with
    | (Ok a, w') => (Ok a, w')
    | (Err e, w') => h e w'
    end.

(** [try { m } finally { f }], for an [f] that does not throw. *)
Definition try_finally {A} (m : M A) (f : World -> World) : M A :=
  fun w => let '(r, w') := m w in (r, f w').

Definition update (f : World -> World) : M unit := fun w => (Ok tt, f w).

Definition read {A} (f : World -> A) : M A := fun w => (Ok (f w), w).

Definition emit (e : Event) : M unit :=
  update (fun w => set_trace (app (trace w) [e]) w).

(** An external call: recorded, and the clock advances. *)
Definition external (e : Event) : M nat :=
  fun w => (Ok (clock w),
            set_clock (S (clock w)) (set_trace (app (trace w) [e]) w)).

Definition lift {A} (what : string) (o : option A) : M A :=
  match o with
  | Some a => ret a
  | None => throw (ExternalFailure what)
  end.

Notation "'let*' x ':=' c 'in' k" := (bind c (fun x => k))
  (at level 10, x name, c at level 100, k at level 200).
Notation "c ';;;' k" := (bind c (fun _ => k))
  (at level 100, k at level 200, right associativity).

Definition run {A} (m : M A) (w : World) : World := snd (m w).
Definition result {A} (m : M A) (w : World) : Result A := fst (m w).

(** ** External collaborators

    Everything the repository delegates to a library.  A [nat] argument is
    the [clock] at the time of the call, so that the same call may be
    answered differently later; [None] and [true] for a failure mean that
    the library throws or that the promise rejects. *)

Record Ext := {
  (* ethers.js *)
  createRandom : nat -> Wallet;
  newWallet : string -> option Wallet;
  fromMnemonic : string -> option Wallet;
  formatEther : string -> option string;
  parseEther : JsVal -> option string;
  providerGetBalance : nat -> Provider -> string -> option string;
  signerSendTransaction :
    nat -> Provider -> Wallet -> JsVal -> string -> option string;
  walletSignMessage : nat -> Wallet -> JsVal -> option string;
  (* AsyncStorage *)
  getItemFails : nat -> string -> bool;
  setItemFails : nat -> string -> string -> bool;
  (* Alchemy *)
  coreGetTokenBalances : nat -> Alchemy -> string -> option (list RawTokenBalance);
  coreGetTokenMetadata : nat -> Alchemy -> string -> option TokenMetadata;
  coreGetAssetTransfers : nat -> Alchemy -> string -> option (list AssetTransfer);
  (* Date *)
  dateNow : nat -> Z;
  dateGetTime : string -> Z;
  (* WalletConnect *)
  approveSessionFails : nat -> Z -> gmap string ApprovedNamespace -> bool;
  respondSessionRequestFails : nat -> string -> Z -> string -> bool
}.

(** The table key [`${chainType}_${network}`]. *)
Definition clientKey (c : ChainType) (n : Network) : string :=
  chainName c +:+ "_" +:+ n.

(** The storage key [`wallet_${chainType}`]. *)
Definition walletKey (c : ChainType) : string := "wallet_" +:+ chainName c.

(** [a || b] on an optional string: null, undefined and the empty string
    are falsy. *)
Definition orElse (a : option string) (b : string) : string :=
  match a with
  | Some s => if decide (s = "") then b else s
  | None => b
  end.

Definition truthy (a : option string) : bool :=
  match a with
  | Some s => if decide (s = "") then false else true
  | None => false
  end.

(** A loop whose body may throw and which threads a local accumulator. *)
Fixpoint foldM {A B} (body : B -> A -> M B) (acc : B) (l : list A) : M B :=
  match l with
  | [] => ret acc
  | x :: l' => let* acc' := body acc x in foldM body acc' l'
  end.

Section WalletService.

Variable X : Ext.

(** *** Private methods (lines 250-317) *)

Definition loadWallets : M unit :=
  try_catch
    (foldM (fun (_ : unit) chainType =>
              let* t := external (StorageGetItem (walletKey chainType)) in
              if getItemFails X t (walletKey chainType)
              then throw (ExternalFailure "AsyncStorage.getItem")
              else
                let* privateKey := read (fun w => storage w !! walletKey chainType) in
                match privateKey with
                | Some pk =>
                    if decide (pk = "") then ret tt
                    else
                      let* wallet := lift "new ethers.Wallet" (newWallet X pk) in
                      update (fun w => set_wallets (assign chainType wallet (wallets w)) w)
                | None => ret tt
                end)
           tt ChainType_values)
    (fun error => emit (ConsoleError "Failed to load wallets:")).

Definition saveWallet (chainType : ChainType) (privateKey : string) : M unit :=
  try_catch
    (let* t := external (StorageSetItem (walletKey chainType) privateKey) in
     if setItemFails X t (walletKey chainType) privateKey
     then throw (ExternalFailure "AsyncStorage.setItem")
     else update (fun w =>
            set_storage (<[walletKey chainType := privateKey]> (storage w)) w))
    (fun error => emit (ConsoleError "Failed to save wallet:")).

Definition YOUR_ALCHEMY_API_KEY : string := "YOUR_ALCHEMY_API_KEY".

Definition setupProviders : M unit :=
  update (fun w => set_providers
    (<[clientKey POLYGON MATIC_MUMBAI :=
         JsonRpcProvider "https://rpc-mumbai.maticvigil.com"]>
     (<[clientKey POLYGON MATIC_MAINNET :=
         JsonRpcProvider "https://polygon-rpc.com"]>
     (<[clientKey ETHEREUM ETH_GOERLI := DefaultProvider "goerli"]>
     (<[clientKey ETHEREUM ETH_MAINNET := DefaultProvider "mainnet"]>
        (providers w))))) w) ;;;
  update (fun w => set_alchemyInstances
    (<[clientKey POLYGON MATIC_MUMBAI :=
         {| apiKey := YOUR_ALCHEMY_API_KEY; alchemy_network := MATIC_MUMBAI |}]>
     (<[clientKey POLYGON MATIC_MAINNET :=
         {| apiKey := YOUR_ALCHEMY_API_KEY; alchemy_network := MATIC_MAINNET |}]>
     (<[clientKey ETHEREUM ETH_GOERLI :=
         {| apiKey := YOUR_ALCHEMY_API_KEY; alchemy_network := ETH_GOERLI |}]>
     (<[clientKey ETHEREUM ETH_MAINNET :=
         {| apiKey := YOUR_ALCHEMY_API_KEY; alchemy_network := ETH_MAINNET |}]>
        (alchemyInstances w))))) w).

Definition getProvider (chainType : ChainType) (network : Network) : M Provider :=
  let* found := read (fun w => providers w !! clientKey chainType network) in
  match found with
  | None => throw (ProviderNotFound chainType network)
  | Some p => ret p
  end.

Definition getAlchemyInstance (chainType : ChainType) (network : Network)
    : M Alchemy :=
  let* found := read (fun w => alchemyInstances w !! clientKey chainType network) in
  match found with
  | None => throw (AlchemyNotFound chainType network)
  | Some a => ret a
  end.

(** *** Public methods (lines 78-248) *)

Definition initialize : M unit :=
  emit (Registry CallInitialize) ;;;
  loadWallets ;;;
  setupProviders.

Definition createWallet (chainType : ChainType) : M string :=
  emit (Registry (CallCreateWallet chainType)) ;;;
  let* t := read clock in
  update (fun w => set_clock (S t) w) ;;;
  let wallet := createRandom X t in
  update (fun w => set_wallets (assign chainType wallet (wallets w)) w) ;;;
  saveWallet chainType (privateKey wallet) ;;;
  ret (wallet_address wallet).

Definition importWallet (chainType : ChainType) (privateKey : string) : M string :=
  emit (Registry (CallImportWallet chainType privateKey)) ;;;
  try_catch
    (let* wallet := lift "new ethers.Wallet" (newWallet X privateKey) in
     update (fun w => set_wallets (assign chainType wallet (wallets w)) w) ;;;
     saveWallet chainType privateKey ;;;
     ret (wallet_address wallet))
    (fun error =>
       emit (ConsoleError "Failed to import wallet:") ;;;
       throw InvalidPrivateKey).

Definition importWalletFromMnemonic (chainType : ChainType) (mnemonic : string)
    : M string :=
  emit (Registry (CallImportWalletFromMnemonic chainType mnemonic)) ;;;
  try_catch
    (let* wallet := lift "ethers.Wallet.fromMnemonic" (fromMnemonic X mnemonic) in
     update (fun w => set_wallets (assign chainType wallet (wallets w)) w) ;;;
     saveWallet chainType (privateKey wallet) ;;;
     ret (wallet_address wallet))
    (fun error =>
       emit (ConsoleError "Failed to import wallet from mnemonic:") ;;;
       throw InvalidMnemonic).

(** [this.wallets[chainType]?.address || null] *)
Definition getWalletAddress (chainType : ChainType) : M (option string) :=
  emit (Registry (CallGetWalletAddress chainType)) ;;;
  let* wallet := read (fun w => wallets w chainType) in
  match wallet with
  | Some wl =>
      if decide (wallet_address wl = "") then ret None
      else ret (Some (wallet_address wl))
  | None => ret None
  end.

(** [this.wallets[chainType] !== null] *)
Definition hasWallet (chainType : ChainType) : M bool :=
  emit (Registry (CallHasWallet chainType)) ;;;
  let* wallet := read (fun w => wallets w chainType) in
  match wallet with
  | Some _ => ret true
  | None => ret false
  end.

Definition getBalance (chainType : ChainType) (network : Network) : M string :=
  emit (Registry (CallGetBalance chainType network)) ;;;
  let* wallet := read (fun w => wallets w chainType) in
  match wallet with
  | None => throw WalletNotFound
  | Some wallet =>
      let* provider := getProvider chainType network in
      let* t := external (ProviderGetBalance provider (wallet_address wallet)) in
      let* balance := lift "provider.getBalance"
                        (providerGetBalance X t provider (wallet_address wallet)) in
      lift "formatEther" (formatEther X balance)
  end.

Definition tokenOf (chainType : ChainType) (tb : RawTokenBalance)
    (metadata : TokenMetadata) : Token :=
  {| symbol := orElse (md_symbol metadata) "Unknown";
     name := orElse (md_name metadata) "Unknown Token";
     decimals := match md_decimals metadata with
                 | Some d => if decide (d = 0) then 18 else d
                 | None => 18
                 end;
     address := contractAddress tb;
     tk_chainType := chainType;
     logoURI := md_logo metadata |}.

Definition getTokenBalances (chainType : ChainType) (network : Network)
    : M (list TokenBalance) :=
  emit (Registry (CallGetTokenBalances chainType network)) ;;;
  let* wallet := read (fun w => wallets w chainType) in
  match wallet with
  | None => throw WalletNotFound
  | Some wallet =>
      if decide (chainType = ETHEREUM \/ chainType = POLYGON) then
        let* alchemy := getAlchemyInstance chainType network in
        let* t := external (AlchemyGetTokenBalances alchemy (wallet_address wallet)) in
        let* tokenBalances := lift "alchemy.core.getTokenBalances"
                     (coreGetTokenBalances X t alchemy (wallet_address wallet)) in
        foldM (fun balances tb =>
                 if truthy (tokenBalance tb) then
                   let* t := external (AlchemyGetTokenMetadata alchemy
                                         (contractAddress tb)) in
                   let* metadata := lift "alchemy.core.getTokenMetadata"
                        (coreGetTokenMetadata X t alchemy (contractAddress tb)) in
                   let* formatted := lift "formatEther"
                        (formatEther X (default "" (tokenBalance tb))) in
                   ret (app balances [ {| token := tokenOf chainType tb metadata;
                                           balance := formatted;
                                           value := "0.00" |} ])
                 else ret balances)
              [] tokenBalances
      else ret []
  end.

Definition sendTransaction (chainType : ChainType) (network : Network)
    (to amount : JsVal) : M Transaction :=
  emit (Registry (CallSendTransaction chainType network to amount)) ;;;
  let* wallet := read (fun w => wallets w chainType) in
  match wallet with
  | None => throw WalletNotFound
  | Some wallet =>
      let* provider := getProvider chainType network in
      let* wei := lift "ethers.utils.parseEther" (parseEther X amount) in
      let* t := external (ProviderSendTransaction provider
                            (wallet_address wallet) to amount) in
      let* txHash := lift "connectedWallet.sendTransaction"
                       (signerSendTransaction X t provider wallet to wei) in
      let* now := read clock in
      ret {| hash := txHash; from := wallet_address wallet; to := to;
             tx_value := amount; timestamp := dateNow X now; status := pending;
             chainType := chainType; network := network |}
  end.

Definition signMessage (chainType : ChainType) (message : JsVal) : M string :=
  emit (Registry (CallSignMessage chainType message)) ;;;
  let* wallet := read (fun w => wallets w chainType) in
  match wallet with
  | None => throw WalletNotFound
  | Some wallet =>
      let* t := external (SignerSignMessage (wallet_address wallet) message) in
      lift "wallet.signMessage" (walletSignMessage X t wallet message)
  end.

Definition transactionOf (chainType : ChainType) (network : Network) (now : Z)
    (transfer : AssetTransfer) : option Transaction :=
  match tr_metadata transfer with
  | None => None
  | Some blockTimestamp =>
      Some {| hash := tr_hash transfer; from := tr_from transfer;
              to := JsString (tr_to transfer);
              tx_value := JsString (default "0" (tr_value transfer));
              timestamp := match blockTimestamp with
                           | Some ts =>
                               if decide (ts = "") then now else dateGetTime X ts
                           | None => now
                           end;
              status := confirmed; chainType := chainType; network := network |}
  end.

Definition getTransactionHistory (chainType : ChainType) (network : Network)
    : M (list Transaction) :=
  emit (Registry (CallGetTransactionHistory chainType network)) ;;;
  let* wallet := read (fun w => wallets w chainType) in
  match wallet with
  | None => throw WalletNotFound
  | Some wallet =>
      if decide (chainType = ETHEREUM \/ chainType = POLYGON) then
        let* alchemy := getAlchemyInstance chainType network in
        let* t := external (AlchemyGetAssetTransfers alchemy (wallet_address wallet)) in
        let* history := lift "alchemy.core.getAssetTransfers"
                     (coreGetAssetTransfers X t alchemy (wallet_address wallet)) in
        let* now := read clock in
        foldM (fun acc transfer =>
                 match transactionOf chainType network (dateNow X now) transfer with
                 | Some tx => ret (app acc [tx])
                 | None => throw TypeError
                 end)
              [] history
      else ret []
  end.

End WalletService.

(** ** The Session Bridge (browser screen) *)

(** *** The JavaScript that the handlers rely on *)

(** [methodParams[0]]: past the end of an array the read gives undefined. *)
Definition index0 (l : list JsVal) : JsVal := default JsUndefined (l !! 0%nat).

Definition fieldOf (f : option string) : JsVal :=
  match f with
  | Some s => JsString s
  | None => JsUndefined
  end.

(** [v.to] and [v.value]; [None] is the TypeError of reading a property of
    undefined. *)
Definition prop_to (v : JsVal) : option JsVal :=
  match v with
  | JsUndefined => None
  | JsString _ => Some JsUndefined
  | JsObject t _ => Some (fieldOf t)
  end.

Definition prop_value (v : JsVal) : option JsVal :=
  match v with
  | JsUndefined => None
  | JsString _ => Some JsUndefined
  | JsObject _ v => Some (fieldOf v)
  end.

(** [`${v}`] *)
Definition template (v : JsVal) : string :=
  match v with
  | JsUndefined => "undefined"
  | JsString s => s
  | JsObject _ _ => "[object Object]"
  end.

Definition newline : string := String "010"%char "".

(** The text of the transaction dialog. *)
Definition transactionPrompt (to value : string) : string :=
  "Do you want to send this transaction?" +:+ newline +:+ newline
  +:+ "To: " +:+ to +:+ newline +:+ "Value: " +:+ value.

Definition js {A} (o : option A) : M A :=
  match o with
  | Some a => ret a
  | None => throw TypeError
  end.

(** [Alert.alert(title, message, buttons)]: the dialog opens and stays open
    until one of its buttons is tapped. *)
Definition alert (d : Dialog) : M unit :=
  emit (AlertShown d) ;;;
  update (fun w => set_dialogs (app (dialogs w) [d]) w).

(** A dialog given no buttons gets a single one that only closes it. *)
Definition okButton : list Button := [ {| text := "OK"; onPress := None |} ].

(** The [Web3Wallet] instance, when the handler's closure holds one. *)
Inductive Web3Wallet := web3wallet.

(** The object assigned to [namespaces[key]] (lines 451-455). *)
Definition approvedNamespace (address : string) (namespace : RequiredNamespace)
    : ApprovedNamespace :=
  {| accounts := ["eip155:1:" +:+ address];
     methods := ns_methods namespace;
     events := ns_events namespace |}.

(** *** The dialogs the bridge opens *)

Definition USER_REJECTED : Reason := {| code := 4001; message := "User rejected" |}.

(** Lines 408-427. *)
Definition walletRequiredDialog (proposal : Proposal) : Dialog :=
  {| title := "Wallet Required";
     body := "You need to create or import a wallet before connecting to dApps.";
     buttons :=
       [ {| text := "Cancel"; onPress := None |};
         {| text := "Create Wallet";
            onPress := Some (ProposalCreateWallet proposal) |} ] |}.

Definition addressNotFoundDialog : Dialog :=
  {| title := "Error"; body := "Wallet address not found"; buttons := okButton |}.

Definition connectedDialog (dapp : string) : Dialog :=
  {| title := "Connected"; body := "Connected to " +:+ dapp; buttons := okButton |}.

Definition connectionErrorDialog : Dialog :=
  {| title := "Connection Error"; body := "Failed to connect to dApp";
     buttons := okButton |}.

(** Lines 483-516; [to] and [value] are the two values interpolated in the
    text, [p0] is [methodParams[0]] as the Approve closure holds it. *)
Definition transactionDialog (id : Z) (topic : string) (p0 to value : JsVal)
    : Dialog :=
  {| title := "Transaction Request";
     body := transactionPrompt (template to) (template value);
     buttons :=
       [ {| text := "Reject"; onPress := Some (RequestReject id) |};
         {| text := "Approve";
            onPress := Some (TransactionApprove id topic p0) |} ] |}.

(** Lines 522-550. *)
Definition signatureDialog (id : Z) (topic : string) (p0 : JsVal) : Dialog :=
  {| title := "Signature Request";
     body := "Do you want to sign this message?";
     buttons :=
       [ {| text := "Reject"; onPress := Some (RequestReject id) |};
         {| text := "Sign"; onPress := Some (SignApprove id topic p0) |} ] |}.

(** Lines 594-620. *)
Definition accountsWalletRequiredDialog (id : Z) : Dialog :=
  {| title := "Wallet Required";
     body := "You need to create or import a wallet before connecting.";
     buttons :=
       [ {| text := "Cancel"; onPress := None |};
         {| text := "Create Wallet";
            onPress := Some (AccountsCreateWallet id) |} ] |}.

Definition createWalletFailedDialog : Dialog :=
  {| title := "Error"; body := "Failed to create wallet"; buttons := okButton |}.

Section SessionBridge.

Variable X : Ext.

(** [walletClient] as captured by the handlers: React state, null until
    [Web3Wallet.init] has resolved and the component has rendered again. *)
Variable walletClient : option Web3Wallet.

(** [await walletClient?.approveSession({id, namespaces})] *)
Definition approveSession (id : Z) (namespaces : gmap string ApprovedNamespace)
    : M unit :=
  match walletClient with
  | None => ret tt
  | Some _ =>
      let* t := external (ApproveSession id namespaces) in
      if approveSessionFails X t id namespaces
      then throw (ExternalFailure "approveSession")
      else ret tt
  end.

(** [walletClient?.rejectSession({id, reason})], never awaited. *)
Definition rejectSession (id : Z) (reason : Reason) : M unit :=
  match walletClient with
  | None => ret tt
  | Some _ => external (RejectSession id reason) ;;; ret tt
  end.

(** [await walletClient?.respondSessionRequest({topic, response})] *)
Definition respondSessionRequest (topic : string) (id : Z) (result : string)
    : M unit :=
  match walletClient with
  | None => ret tt
  | Some _ =>
      let* t := external (RespondSessionRequest topic id result) in
      if respondSessionRequestFails X t topic id result
      then throw (ExternalFailure "respondSessionRequest")
      else ret tt
  end.

(** [webViewRef.current?.injectJavaScript(...)]; the page that posted the
    message is mounted. *)
Definition injectJavaScript (response : PageResponse) : M unit :=
  external (InjectJavaScript response) ;;; ret tt.

(** The loop over [Object.keys(requiredNamespaces)] (lines 448-456). *)
Definition buildNamespaces (address : string)
    (requiredNamespaces : gmap string RequiredNamespace)
    : gmap string ApprovedNamespace :=
  foldl (fun namespaces key =>
           match requiredNamespaces !! key with
           | Some namespace =>
               <[key := approvedNamespace address namespace]> namespaces
           | None => namespaces
           end)
        ∅ (map fst (map_to_list requiredNamespaces)).

(** Lines 402-470. *)
Definition handleSessionProposal (proposal : Proposal) : M unit :=
  try_finally
    (try_catch
       (update (set_isConnecting true) ;;;
        let* has := hasWallet ETHEREUM in
        if negb has then
          alert (walletRequiredDialog proposal) ;;;
          update (set_isConnecting false)
        else
          let* address := getWalletAddress ETHEREUM in
          match address with
          | None =>
              alert addressNotFoundDialog ;;;
              update (set_isConnecting false)
          | Some address =>
              update (set_connectedDapp (Some (proposer_name proposal))) ;;;
              approveSession (prop_id proposal)
                (buildNamespaces address (requiredNamespaces proposal)) ;;;
              alert (connectedDialog (proposer_name proposal))
          end)
       (fun error =>
          emit (ConsoleError "Failed to approve session:") ;;;
          alert connectionErrorDialog))
    (set_isConnecting false).

(** Lines 473-560. *)
Definition handleSessionRequest (requestEvent : RequestEvent) : M unit :=
  try_catch
    (let id := req_id requestEvent in
     let topic := req_topic requestEvent in
     let method := req_method requestEvent in
     let methodParams := methodParams requestEvent in
     if decide (method = "eth_sendTransaction") then
       let* to := js (prop_to (index0 methodParams)) in
       let* value := js (prop_value (index0 methodParams)) in
       alert (transactionDialog id topic (index0 methodParams) to value)
     else if decide (method = "eth_sign" \/ method = "personal_sign") then
       alert (signatureDialog id topic (index0 methodParams))
     else
       rejectSession id {| code := 4001; message := "Method not supported" |})
    (fun error => emit (ConsoleError "Failed to handle session request:")).

(** Lines 587-651. *)
Definition handleEthereumRequest (data : PageRequest) : M unit :=
  if decide (data_method data = "eth_requestAccounts") then
    let* has := hasWallet ETHEREUM in
    if negb has then
      alert (accountsWalletRequiredDialog (data_id data))
    else
      let* address := getWalletAddress ETHEREUM in
      match address with
      | Some address => injectJavaScript (PageResult (data_id data) [address])
      | None => ret tt
      end
  else
    injectJavaScript
      (PageError (data_id data) {| code := 4200; message := "Method not supported" |}).

(** The body of each [onPress] closure. *)
Definition press (a : Action) : M unit :=
  match a with
  | ProposalCreateWallet proposal =>
      try_catch
        (createWallet X ETHEREUM ;;;
         handleSessionProposal proposal)
        (fun error =>
           emit (ConsoleError "Failed to create wallet:") ;;;
           alert createWalletFailedDialog)
  | RequestReject id => rejectSession id USER_REJECTED
  | TransactionApprove id topic p0 =>
      try_catch
        (let* net := js (nd_network <$> CHAIN_NETWORKS ETHEREUM !! 0%nat) in
         let* to := js (prop_to p0) in
         let* value := js (prop_value p0) in
         let* tx := sendTransaction X ETHEREUM net to value in
         respondSessionRequest topic id (hash tx))
        (fun error =>
           emit (ConsoleError "Transaction failed:") ;;;
           rejectSession id {| code := 4001; message := "Transaction failed" |})
  | SignApprove id topic p0 =>
      try_catch
        (let* signature := signMessage X ETHEREUM p0 in
         respondSessionRequest topic id signature)
        (fun error =>
           emit (ConsoleError "Signing failed:") ;;;
           rejectSession id {| code := 4001; message := "Signing failed" |})
  | AccountsCreateWallet id =>
      try_catch
        (let* address := createWallet X ETHEREUM in
         injectJavaScript (PageResult id [address]))
        (fun error =>
           emit (ConsoleError "Failed to create wallet:") ;;;
           alert createWalletFailedDialog)
  end.

(** The user taps the button labelled [label] of the [n]-th open dialog:
    the dialog closes and the button's closure, if it has one, runs.  A tap
    on nothing does nothing. *)
Definition tap (n : nat) (label : string) : M unit :=
  let* open := read dialogs in
  match open !! n with
  | None => ret tt
  | Some d =>
      match List.find (fun b => bool_decide (text b = label)) (buttons d) with
      | None => ret tt
      | Some b =>
          update (set_dialogs (delete n open)) ;;;
          emit (Tapped d label) ;;;
          match onPress b with
          | Some a => press a
          | None => ret tt
          end
      end
  end.

(** What can happen to the bridge: the two WalletConnect events it listens
    to, a call from the embedded page, and the user tapping a button. *)
Inductive Input :=
| SessionProposalEvent (proposal : Proposal)
| SessionRequestEvent (requestEvent : RequestEvent)
| PageMessage (data : PageRequest)
| Tap (n : nat) (label : string).

Definition handle (i : Input) : M unit :=
  match i with
  | SessionProposalEvent proposal => handleSessionProposal proposal
  | SessionRequestEvent requestEvent => handleSessionRequest requestEvent
  | PageMessage data => handleEthereumRequest data
  | Tap n label => tap n label
  end.

Definition step (w : World) (i : Input) : World := run (handle i) w.

Definition steps (w : World) (inputs : list Input) : World :=
  foldl step w inputs.

End SessionBridge.

(** ** Reading a trace *)

(** A call to a chain client, to the indexer or through the signer. *)
Definition isClientCall (e : Event) : bool :=
  match e with
  | ProviderGetBalance _ _ | ProviderSendTransaction _ _ _ _
  | SignerSignMessage _ _ | AlchemyGetTokenBalances _ _
  | AlchemyGetTokenMetadata _ _ | AlchemyGetAssetTransfers _ _ => true
  | _ => false
  end.

Definition clientCalls (tr : list Event) : list Event := List.filter isClientCall tr.



(** Moving funds or signing: the two registry methods that use the key. *)
Definition isKeyUse (e : Event) : bool :=
  match e with
  | Registry (CallSendTransaction _ _ _ _) | Registry (CallSignMessage _ _) => true
  | _ => false
  end.

Definition keyUses (tr : list Event) : list Event := List.filter isKeyUse tr.

Definition isRegistry (e : Event) : bool :=
  match e with
  | Registry _ => true
  | _ => false
  end.

Definition registryCalls (tr : list Event) : list Event := List.filter isRegistry tr.

(** What the remote peer gets to see. *)
Definition isPeerReply (e : Event) : bool :=
  match e with
  | ApproveSession _ _ | RejectSession _ _ | RespondSessionRequest _ _ _ => true
  | _ => false
  end.

Definition peerReplies (tr : list Event) : list Event := List.filter isPeerReply tr.

(** An account leaving the wallet, or the key being used. *)
Definition isDisclosure (e : Event) : bool :=
  match e with
  | ApproveSession _ _ | InjectJavaScript (PageResult _ _) => true
  | _ => isKeyUse e
  end.

(** The events a step added. *)
Definition added (w w' : World) : list Event := drop (length (trace w)) (trace w').

(** ** Concrete collaborators and worlds, for the examples *)

Definition sampleWallet : Wallet :=
  {| privateKey := "0x0123"; wallet_address := "0xABC" |}.

Definition sampleExt : Ext := {|
  createRandom := fun _ => sampleWallet;
  newWallet := fun key => if decide (key = "0x0123") then Some sampleWallet else None;
  fromMnemonic := fun phrase =>
    if decide (phrase = "test test junk") then Some sampleWallet else None;
  formatEther := fun s => Some s;
  parseEther := fun v => match v with JsString s => Some s | _ => None end;
  providerGetBalance := fun _ _ _ => Some "0";
  signerSendTransaction := fun _ _ _ _ _ => Some "0xhash";
  walletSignMessage := fun _ _ _ => Some "0xsignature";
  getItemFails := fun _ _ => false;
  setItemFails := fun _ _ _ => false;
  coreGetTokenBalances := fun _ _ _ => Some [];
  coreGetTokenMetadata := fun _ _ _ => None;
  coreGetAssetTransfers := fun _ _ _ => Some [];
  dateNow := fun _ => 0;
  dateGetTime := fun _ => 0;
  approveSessionFails := fun _ _ _ => false;
  respondSessionRequestFails := fun _ _ _ _ => false
|}.

(** The same collaborators over a store that rejects every write. *)
Definition readOnlyExt : Ext := {|
  createRandom := createRandom sampleExt;
  newWallet := newWallet sampleExt;
  fromMnemonic := fromMnemonic sampleExt;
  formatEther := formatEther sampleExt;
  parseEther := parseEther sampleExt;
  providerGetBalance := providerGetBalance sampleExt;
  signerSendTransaction := signerSendTransaction sampleExt;
  walletSignMessage := walletSignMessage sampleExt;
  getItemFails := getItemFails sampleExt;
  setItemFails := fun _ _ _ => true;
  coreGetTokenBalances := coreGetTokenBalances sampleExt;
  coreGetTokenMetadata := coreGetTokenMetadata sampleExt;
  coreGetAssetTransfers := coreGetAssetTransfers sampleExt;
  dateNow := dateNow sampleExt;
  dateGetTime := dateGetTime sampleExt;
  approveSessionFails := approveSessionFails sampleExt;
  respondSessionRequestFails := respondSessionRequestFails sampleExt
|}.

(** After [initialize] on an empty store: clients registered, no wallet. *)
Definition startedWorld : World := run (initialize sampleExt) initialWorld.

(** ... and after the user created an ethereum wallet. *)
Definition walletWorld : World := run (createWallet sampleExt ETHEREUM) startedWorld.

(** ... and a solana one. *)
Definition solanaWorld : World := run (createWallet sampleExt SOLANA) startedWorld.

Definition mainnetProposal : Proposal := {|
  prop_id := 7;
  proposer_name := "Uniswap";
  requiredNamespaces :=
    {[ "eip155:1" := {| ns_chains := ["eip155:1"];
                        ns_methods := ["eth_sendTransaction"; "personal_sign"];
                        ns_events := ["chainChanged"] |} ]}
|}.

Definition polygonProposal : Proposal := {|
  prop_id := 8;
  proposer_name := "QuickSwap";
  requiredNamespaces :=
    {[ "eip155:137" := {| ns_chains := ["eip155:137"];
                          ns_methods := ["eth_sendTransaction"];
                          ns_events := [] |} ]}
|}.

Definition transferRequest : RequestEvent := {|
  req_id := 9;
  req_topic := "topic";
  req_method := "eth_sendTransaction";
  methodParams := [JsObject (Some "0xdead") (Some "1.5")]
|}.

Definition chainIdRequest : RequestEvent := {|
  req_id := 10;
  req_topic := "topic";
  req_method := "eth_chainId";
  methodParams := []
|}.

(** ** The vocabulary of the statements

    Relations between the world before and after a computation, the
    operations of a run, and the predicates the theorems are stated with. *)

(** [holds R m]: running [m] takes every world to one related to it by
    [R], whether [m] returns or throws. *)
Definition holds (R : relation World) {A} (m : M A) : Prop :=
  forall w, R w (snd (m w)).

(** An observation of the world that stays the same. *)
Definition unchanged {O : Type} (obs : World -> O) : relation World :=
  fun w w' => obs w' = obs w.

(** [keeps obs m]: running [m] never changes the observation [obs]. *)
Abbreviation keeps obs := (holds (unchanged obs)).

(** The trace only gains events, all of them of one sort. *)
Definition grows (Q : Event -> Prop) : relation World :=
  fun w w' => exists d, trace w' = trace w ++ d /\ Forall Q d.

(** The two client tables. *)
Definition tables (w : World) : gmap string Provider * gmap string Alchemy :=
  (providers w, alchemyInstances w).

(** The pairs [setupProviders] registers (lines 274-300). *)
Definition registeredPairs : list (ChainType * Network) :=
  [ (ETHEREUM, ETH_MAINNET); (ETHEREUM, ETH_GOERLI);
    (POLYGON, MATIC_MAINNET); (POLYGON, MATIC_MUMBAI) ].

(** Everything that can be asked of the running application: a public
    method of the registry, or an input of the bridge. *)
Inductive Operation :=
| Initialize
| CreateWallet (c : ChainType)
| ImportWallet (c : ChainType) (key : string)
| ImportWalletFromMnemonic (c : ChainType) (mnemonic : string)
| GetWalletAddress (c : ChainType)
| HasWallet (c : ChainType)
| GetBalance (c : ChainType) (n : Network)
| GetTokenBalances (c : ChainType) (n : Network)
| SendTransaction (c : ChainType) (n : Network) (to amount : JsVal)
| SignMessage (c : ChainType) (msg : JsVal)
| GetTransactionHistory (c : ChainType) (n : Network)
| Bridge (i : Input).

Definition perform (X : Ext) (walletClient : option Web3Wallet)
    (w : World) (o : Operation) : World :=
  match o with
  | Initialize => run (initialize X) w
  | CreateWallet c => run (createWallet X c) w
  | ImportWallet c key => run (importWallet X c key) w
  | ImportWalletFromMnemonic c mnemonic => run (importWalletFromMnemonic X c mnemonic) w
  | GetWalletAddress c => run (getWalletAddress c) w
  | HasWallet c => run (hasWallet c) w
  | GetBalance c n => run (getBalance X c n) w
  | GetTokenBalances c n => run (getTokenBalances X c n) w
  | SendTransaction c n to amount => run (sendTransaction X c n to amount) w
  | SignMessage c msg => run (signMessage X c msg) w
  | GetTransactionHistory c n => run (getTransactionHistory X c n) w
  | Bridge i => step X walletClient w i
  end.

(** The tables [initialize] leaves on a fresh singleton. *)
Definition tablesAfterSetup : gmap string Provider * gmap string Alchemy :=
  tables (run setupProviders initialWorld).


(** Events that stay inside the application and do not use a key. *)
Definition isLocal (e : Event) : bool :=
  match e with
  | Registry (CallSendTransaction _ _ _ _) | Registry (CallSignMessage _ _) => false
  | Registry _ | ConsoleError _ | StorageGetItem _ | StorageSetItem _ _
  | AlertShown _ | Tapped _ _ => true
  | _ => false
  end.

(** What handling a proposal may add to the trace: local events, and an
    approval only of this proposal, built from the address of the wallet
    [held] for ethereum. *)
Definition approvalOf (p : Proposal) (held : option Wallet) (e : Event) : Prop :=
  match e with
  | ApproveSession id namespaces =>
      exists wl, held = Some wl /\ id = prop_id p
                 /\ namespaces
                    = buildNamespaces (wallet_address wl) (requiredNamespaces p)
  | _ => isLocal e = true
  end.

(** A dialog is guarded when its closures that use the key sit under the
    buttons meant for them: the one that sends under Approve in a
    Transaction Request showing the [to] and [value] it will send, the one
    that signs under Sign in a Signature Request. *)
Definition guardedDialog (d : Dialog) : Prop :=
  forall b, b ∈ buttons d ->
    match onPress b with
    | Some (TransactionApprove _ _ p0) =>
        title d = "Transaction Request" /\ text b = "Approve"
        /\ exists to value,
             prop_to p0 = Some to /\ prop_value p0 = Some value
             /\ body d = transactionPrompt (template to) (template value)
    | Some (SignApprove _ _ _) =>
        title d = "Signature Request" /\ text b = "Sign"
    | _ => True
    end.

(** Every dialog that opens satisfies [P]. *)
Definition opens (P : Dialog -> Prop) : relation World :=
  fun w w' => Forall P (dialogs w) -> Forall P (dialogs w').

(** Stated from the specification: the chain type that a CAIP-2 chain
    identifier names.  [eip155:1] and [eip155:5] are the two ethereum
    networks of [CHAIN_NETWORKS], [eip155:137] and [eip155:80001] the two
    polygon ones. *)
Definition specChainOfNamespace (key : string) : option ChainType :=
  if decide (key = "eip155:1" \/ key = "eip155:5") then Some ETHEREUM
  else if decide (key = "eip155:137" \/ key = "eip155:80001") then Some POLYGON
  else if decide (key = "eip155:56") then Some BINANCE
  else if decide (key = "solana:5eykt4UsFv8P8NJdTREpY1vzqKqZKvdp") then Some SOLANA
  else None.

(** Stated from the specification: every account of the approved namespace
    ends in an address that the registry holds for the chain the namespace
    requests. *)
Definition specAccountsHeld (w : World) (key : string) (approved : ApprovedNamespace)
    : Prop :=
  forall account, account ∈ accounts approved ->
    exists c wl prefix,
      specChainOfNamespace key = Some c
      /\ wallets w c = Some wl
      /\ account = prefix +:+ wallet_address wl.

(** Stated from the specification: every event that discloses an account
    or uses the key comes after some tap of the user. *)
Definition specApprovalGated (tr : list Event) : Prop :=
  forall i e, tr !! i = Some e -> isDisclosure e = true ->
    exists j d label, (j < i)%nat /\ tr !! j = Some (Tapped d label).

(** ** A new process on the same store

    What remains of a world when the application is started again: the
    registry and the client tables are those of a fresh singleton, no
    dialog is open, and AsyncStorage holds what it held. *)
Definition restart (w : World) : World :=
  set_storage (storage w) initialWorld.

(** The wallet [loadWallets] leaves for a chain when every read succeeds
    and every stored key decodes: the stored one if there is one, else the
    one already in memory. *)
Definition loadedWallet (X : Ext) (store : gmap string string)
    (held : ChainType -> option Wallet) (c : ChainType) : option Wallet :=
  match store !! walletKey c with
  | Some pk =>
      if decide (pk = "") then held c
      else match newWallet X pk with
           | Some wl => Some wl
           | None => held c
           end
  | None => held c
  end.

(** Nothing is taken out of the registry or of the store, and the store is
    written only under the keys [wallet_<chainType>]. *)
Definition registryGrows : relation World :=
  fun w w' =>
    (forall c, is_Some (wallets w c) -> is_Some (wallets w' c))
    /\ (forall k, is_Some (storage w !! k) -> is_Some (storage w' !! k))
    /\ (forall k, (forall c, k <> walletKey c) -> storage w' !! k = storage w !! k).

(** The operations that may write the registry or the store. *)
Definition writesRegistry (o : Operation) : bool :=
  match o with
  | Initialize | CreateWallet _ | ImportWallet _ _
  | ImportWalletFromMnemonic _ _ | Bridge (Tap _ _) => true
  | _ => false
  end.

(** The registry and the store, together. *)
Definition registryAndStore (w : World)
    : (ChainType -> option Wallet) * gmap string string :=
  (wallets w, storage w).

(** One turn of the loop of [loadWallets] (lines 254-257), named so that the
    loop can be followed turn by turn; [loadWallets_loop] shows it is the
    body the method runs. *)
Definition loadOne (X : Ext) (chainType : ChainType) : M unit :=
  let* t := external (StorageGetItem (walletKey chainType)) in
  if getItemFails X t (walletKey chainType)
  then throw (ExternalFailure "AsyncStorage.getItem")
  else
    let* privateKey := read (fun w => storage w !! walletKey chainType) in
    match privateKey with
    | Some pk =>
        if decide (pk = "") then ret tt
        else
          let* wallet := lift "new ethers.Wallet" (newWallet X pk) in
          update (fun w => set_wallets (assign chainType wallet (wallets w)) w)
    | None => ret tt
    end.

(** The chains that come after [c] in a list of chains. *)
Fixpoint chainsAfter (c : ChainType) (l : list ChainType) : list ChainType :=
  match l with
  | [] => []
  | x :: l' => if decide (x = c) then l' else chainsAfter c l'
  end.

(** A store whose ethereum entry does not decode while its polygon entry
    does, for the examples. *)
Definition corruptStoreWorld : World :=
  set_storage (<[walletKey ETHEREUM := "not a key"]>
                 (<[walletKey POLYGON := "0x0123"]> ∅)) initialWorld.

(** Collaborators whose indexer has something to report: one token with a
    balance and sparse metadata, one without a balance, and one transfer
    that carries no metadata. *)
Definition indexerExt : Ext := {|
  createRandom := createRandom sampleExt;
  newWallet := newWallet sampleExt;
  fromMnemonic := fromMnemonic sampleExt;
  formatEther := formatEther sampleExt;
  parseEther := parseEther sampleExt;
  providerGetBalance := providerGetBalance sampleExt;
  signerSendTransaction := signerSendTransaction sampleExt;
  walletSignMessage := walletSignMessage sampleExt;
  getItemFails := getItemFails sampleExt;
  setItemFails := setItemFails sampleExt;
  coreGetTokenBalances := fun _ _ _ =>
    Some [ {| contractAddress := "0xTOKEN"; tokenBalance := Some "5" |};
           {| contractAddress := "0xEMPTY"; tokenBalance := None |} ];
  coreGetTokenMetadata := fun _ _ _ =>
    Some {| md_symbol := None; md_name := Some "Token";
            md_decimals := Some 0; md_logo := None |};
  coreGetAssetTransfers := fun _ _ _ =>
    Some [ {| tr_hash := "0xT1"; tr_from := "0xABC"; tr_to := "0xDEF";
              tr_value := Some "1"; tr_metadata := None |} ];
  dateNow := dateNow sampleExt;
  dateGetTime := dateGetTime sampleExt;
  approveSessionFails := approveSessionFails sampleExt;
  respondSessionRequestFails := respondSessionRequestFails sampleExt
|}.

(** What the browser screen shows of its own state: the two React states
    and the open dialogs. *)
Definition screenState (w : World) : bool * option string * list Dialog :=
  (isConnecting w, connectedDapp w, dialogs w).

(** The "Connecting to dApp..." overlay, if it was not showing, is not
    showing afterwards. *)
Definition overlayStaysOff : relation World :=
  fun w w' => isConnecting w = false -> isConnecting w' = false.

(** The operations that are calls of a registry method. *)
Definition isRegistryCall (o : Operation) : bool :=
  match o with
  | Bridge _ => false
  | _ => true
  end.

(** ** The rest of the browser screen (BrowserScreen, lines 333-733)

    The screen keeps, beside [isConnecting] and [connectedDapp], the two
    addresses of the URL bar, the WalletConnect client once it is built and
    two flags; the state of the registry and of the bridge is the [World]
    inside it. *)

Definition DEFAULT_URL : string := "https://app.uniswap.org".

#[global] Instance Web3Wallet_eq_dec : EqDecision Web3Wallet.
Proof. solve_decision. Defined.

(** What the screen asks of the WalletConnect SDK and of the WebView,
    beside the calls the bridge makes.  [On event captured] is
    [web3wallet.on(event, handler)] for a handler whose closure holds
    [captured] as its [walletClient]; [Off] is [walletClient.off]. *)
Inductive ScreenCall :=
| SignClientInit
| Web3WalletInit
| On (event : string) (captured : option Web3Wallet)
| Off (event : string) (captured : option Web3Wallet)
| Pair (uri : string)
| GetActiveSessions
| DisconnectSession (topic : string) (reason : Reason)
| InjectScript (script : string).

(** The answers of the SDK; the [nat] is the clock, [true] and [None] mean
    that the call throws or that its promise rejects.
    [getActiveSessions] gives the topics, in the order of
    [Object.entries]. *)
Record SdkExt := {
  signClientInitFails : nat -> bool;
  web3WalletInitFails : nat -> bool;
  pairFails : nat -> string -> bool;
  getActiveSessions : nat -> option (list string);
  disconnectSessionFails : nat -> string -> bool
}.

Record Screen := {
  world : World;
  currentUrl : string;
  inputUrl : string;
  walletClient : option Web3Wallet;
  isLoading : bool;
  isWalletInitialized : bool;
  (* the handlers registered on the client, with what they captured *)
  listeners : list (string * option Web3Wallet);
  calls : list ScreenCall
}.

(** The screen at its first render (lines 334-343). *)
Definition initialScreen (w : World) : Screen := {|
  world := w;
  currentUrl := DEFAULT_URL;
  inputUrl := DEFAULT_URL;
  walletClient := None;
  isLoading := false;
  isWalletInitialized := false;
  listeners := [];
  calls := []
|}.

Definition set_world (w : World) (s : Screen) : Screen :=
  {| world := w; currentUrl := currentUrl s; inputUrl := inputUrl s;
     walletClient := walletClient s; isLoading := isLoading s;
     isWalletInitialized := isWalletInitialized s;
     listeners := listeners s; calls := calls s |}.



Definition set_walletClient (c : option Web3Wallet) (s : Screen) : Screen :=
  {| world := world s; currentUrl := currentUrl s; inputUrl := inputUrl s;
     walletClient := c; isLoading := isLoading s;
     isWalletInitialized := isWalletInitialized s;
     listeners := listeners s; calls := calls s |}.

Definition set_isLoading (b : bool) (s : Screen) : Screen :=
  {| world := world s; currentUrl := currentUrl s; inputUrl := inputUrl s;
     walletClient := walletClient s; isLoading := b;
     isWalletInitialized := isWalletInitialized s;
     listeners := listeners s; calls := calls s |}.

Definition set_isWalletInitialized (b : bool) (s : Screen) : Screen :=
  {| world := world s; currentUrl := currentUrl s; inputUrl := inputUrl s;
     walletClient := walletClient s; isLoading := isLoading s;
     isWalletInitialized := b;
     listeners := listeners s; calls := calls s |}.

Definition set_listeners (l : list (string * option Web3Wallet)) (s : Screen)
    : Screen :=
  {| world := world s; currentUrl := currentUrl s; inputUrl := inputUrl s;
     walletClient := walletClient s; isLoading := isLoading s;
     isWalletInitialized := isWalletInitialized s;
     listeners := l; calls := calls s |}.

Definition set_calls (l : list ScreenCall) (s : Screen) : Screen :=
  {| world := world s; currentUrl := currentUrl s; inputUrl := inputUrl s;
     walletClient := walletClient s; isLoading := isLoading s;
     isWalletInitialized := isWalletInitialized s;
     listeners := listeners s; calls := l |}.

(** *** The same monad, over the screen *)

Definition MS (A : Type) : Type := Screen -> Result A * Screen.

Definition sret {A} (a : A) : MS A := fun s => (Ok a, s).

Definition sthrow {A} (e : Error) : MS A := fun s => (Err e, s).

Definition sbind {A B} (m : MS A) (k : A -> MS B) : MS B :=
  fun s =>
    match m s with
    | (Ok a, s') => k a s'
    | (Err e, s') => (Err e, s')
    end.

Definition stry_catch {A} (m : MS A) (h : Error -> MS A) : MS A :=
  fun s =>
    match m s with
    | (Ok a, s') => (Ok a, s')
    | (Err e, s') => h e s'
    end.

Definition stry_finally {A} (m : MS A) (f : Screen -> Screen) : MS A :=
  fun s => let '(r, s') := m s in (r, f s').

Definition supdate (f : Screen -> Screen) : MS unit := fun s => (Ok tt, f s).

Definition sread {A} (f : Screen -> A) : MS A := fun s => (Ok (f s), s).

(** A computation of the registry or of the bridge, run on the world of
    the screen. *)
Definition inWorld {A} (m : M A) : MS A :=
  fun s => let '(r, w') := m (world s) in (r, set_world w' s).

(** A call to the SDK or to the WebView: recorded, and the clock
    advances. *)
Definition call (c : ScreenCall) : MS nat :=
  fun s => (Ok (clock (world s)),
            set_calls (app (calls s) [c])
              (set_world (set_clock (S (clock (world s))) (world s)) s)).

(** A call that is not awaited: it runs, and the caller does not see how it
    ends. *)
Definition detached {A} (m : MS A) : MS unit :=
  fun s => let '(_, s') := m s in (Ok tt, s').

Notation "'let+' x ':=' c 'in' k" := (sbind c (fun x => k))
  (at level 10, x name, c at level 100, k at level 200).
Notation "c ';;+' k" := (sbind c (fun _ => k))
  (at level 100, k at level 200, right associativity).

Fixpoint sfoldM {A B} (body : B -> A -> MS B) (acc : B) (l : list A) : MS B :=
  match l with
  | [] => sret acc
  | x :: l' => let+ acc' := body acc x in sfoldM body acc' l'
  end.

Definition srun {A} (m : MS A) (s : Screen) : Screen := snd (m s).
Definition sresult {A} (m : MS A) (s : Screen) : Result A := fst (m s).

(** *** Navigation (lines 654-666) *)

(** [url.startsWith(prefix)] *)
Definition startsWith (url prefix : string) : bool := String.prefix prefix url.





(** *** Messages of the page, start-up and disconnection *)

(** [JSON.parse(event.nativeEvent.data)] as far as the handlers read it:
    the [uri] and the [method], strings when they are there, and the
    [id].  The two messages the injected script posts are of this form. *)
Record WebViewData := {
  msg_uri : option string;
  msg_method : option string;
  msg_id : Z
}.

Definition initializationErrorDialog : Dialog :=
  {| title := "Initialization Error";
     body := "Failed to initialize wallet services."; buttons := okButton |}.

Definition walletNotInitializedDialog : Dialog :=
  {| title := "Error"; body := "Wallet not initialized"; buttons := okButton |}.

Definition disconnectedDialog : Dialog :=
  {| title := "Disconnected"; body := "Disconnected from all dApps";
     buttons := okButton |}.

Definition disconnectFailedDialog : Dialog :=
  {| title := "Error"; body := "Failed to disconnect from dApp";
     buttons := okButton |}.

Definition USER_DISCONNECTED : Reason :=
  {| code := 6000; message := "User disconnected" |}.

Section BrowserScreen.

Variable X : Ext.
Variable Y : SdkExt.

(** [web3wallet.on(event, handler)] *)
Definition on (event : string) (captured : option Web3Wallet) : MS unit :=
  call (On event captured) ;;+
  supdate (fun s => set_listeners (app (listeners s) [(event, captured)]) s).

(** [walletClient.off(event, handler)] *)
Definition off (event : string) (captured : option Web3Wallet) : MS unit :=
  call (Off event captured) ;;+
  supdate (fun s =>
    set_listeners
      (List.filter (fun l => negb (bool_decide (l = (event, captured))))
         (listeners s)) s).

(** The effect of lines 348-399.  Its dependency list is empty, so it runs
    once, after the first render, and the [handleSessionProposal] and
    [handleSessionRequest] it registers are the callbacks of that render:
    the [walletClient] in their closures is the state as that render saw
    it. *)
Definition initializeEffect : MS unit :=
  let+ captured := sread walletClient in
  supdate (set_isLoading true) ;;+
  stry_finally
    (stry_catch
       (inWorld (initialize X) ;;+
        let+ t := call SignClientInit in
        if signClientInitFails Y t
        then sthrow (ExternalFailure "SignClient.init")
        else
          let+ t := call Web3WalletInit in
          if web3WalletInitFails Y t
          then sthrow (ExternalFailure "Web3Wallet.init")
          else
            supdate (set_walletClient (Some web3wallet)) ;;+
            supdate (set_isWalletInitialized true) ;;+
            on "session_proposal" captured ;;+
            on "session_request" captured)
       (fun error =>
          inWorld (emit (ConsoleError "Failed to initialize:")) ;;+
          inWorld (alert initializationErrorDialog)))
    (set_isLoading false).

(** The clean-up the effect returns (lines 393-398), run when the screen
    goes away; its closure is that of the effect. *)
Definition cleanup (captured : option Web3Wallet) : MS unit :=
  match captured with
  | Some _ =>
      off "session_proposal" captured ;;+
      off "session_request" captured
  | None => sret tt
  end.

(** The client emits an event: the handlers registered for it run, each
    with the client its closure holds. *)
Definition emitted (event : string) (handler : option Web3Wallet -> M unit)
    : MS unit :=
  let+ registered := sread listeners in
  sfoldM (fun (_ : unit) (l : string * option Web3Wallet) =>
            if decide (fst l = event) then detached (inWorld (handler (snd l)))
            else sret tt)
         tt registered.

Definition sessionProposal (proposal : Proposal) : MS unit :=
  emitted "session_proposal" (fun captured => handleSessionProposal X captured proposal).

Definition sessionRequest (requestEvent : RequestEvent) : MS unit :=
  emitted "session_request" (fun captured => handleSessionRequest captured requestEvent).

(** Lines 563-584; [parsed] is [None] when [JSON.parse] throws.  The call of
    [handleEthereumRequest] is not awaited, but nothing in it suspends. *)
Definition handleWalletConnectRequest (parsed : option WebViewData) : MS unit :=
  stry_catch
    (let+ data := inWorld (lift "JSON.parse" parsed) in
     if truthy (msg_uri data) && startsWith (default "" (msg_uri data)) "wc:" then
       let+ client := sread walletClient in
       let+ initialized := sread isWalletInitialized in
       if bool_decide (is_Some client) && initialized then
         let+ t := call (Pair (default "" (msg_uri data))) in
         if pairFails Y t (default "" (msg_uri data))
         then sthrow (ExternalFailure "walletClient.pair")
         else sret tt
       else inWorld (alert walletNotInitializedDialog)
     else if truthy (msg_method data) then
       detached
         (inWorld (handleEthereumRequest
                     {| data_id := msg_id data;
                        data_method := default "" (msg_method data) |}))
     else sret tt)
    (fun error =>
       inWorld (emit (ConsoleError "Failed to handle WebView message:"))).

(** Lines 669-690. *)
Definition disconnectFromDapp : MS unit :=
  let+ client := sread walletClient in
  match client with
  | None => sret tt
  | Some _ =>
      stry_catch
        (let+ t := call GetActiveSessions in
         let+ sessions := inWorld (lift "getActiveSessions"
                                     (getActiveSessions Y t)) in
         sfoldM (fun (_ : unit) topic =>
                   let+ t := call (DisconnectSession topic USER_DISCONNECTED) in
                   if disconnectSessionFails Y t topic
                   then sthrow (ExternalFailure "disconnectSession")
                   else sret tt)
                tt sessions ;;+
         inWorld (update (set_connectedDapp None)) ;;+
         inWorld (alert disconnectedDialog))
        (fun error =>
           inWorld (emit (ConsoleError "Failed to disconnect:")) ;;+
           inWorld (alert disconnectFailedDialog))
  end.

End BrowserScreen.

(** One turn of the loop of [disconnectFromDapp] (lines 676-681), named so
    that the loop can be followed turn by turn. *)
Definition closeSession (Y : SdkExt) (_ : unit) (topic : string) : MS unit :=
  let+ t := call (DisconnectSession topic USER_DISCONNECTED) in
  if disconnectSessionFails Y t topic
  then sthrow (ExternalFailure "disconnectSession")
  else sret tt.

(** The calls that close the sessions of [topics]. *)
Definition closing (topics : list string) : list ScreenCall :=
  map (fun topic => DisconnectSession topic USER_DISCONNECTED) topics.

(** What closing sessions leaves alone. *)
Definition besideCalls (s : Screen) :=
  (screenState (world s), registryAndStore (world s), trace (world s),
   walletClient s).

(** An SDK that answers every call. *)
Definition sampleSdk : SdkExt := {|
  signClientInitFails := fun _ => false;
  web3WalletInitFails := fun _ => false;
  pairFails := fun _ _ => false;
  getActiveSessions := fun _ => Some ["topic-1"; "topic-2"];
  disconnectSessionFails := fun _ _ => false
|}.

(** ... and one whose second session refuses to close. *)
Definition stubbornSdk : SdkExt := {|
  signClientInitFails := fun _ => false;
  web3WalletInitFails := fun _ => false;
  pairFails := fun _ _ => false;
  getActiveSessions := fun _ => Some ["topic-1"; "topic-2"; "topic-3"];
  disconnectSessionFails := fun _ topic => bool_decide (topic = "topic-2")
|}.

(** *** The provider injected into the page (lines 693-733) *)

(** [n++] on a JavaScript number that holds an integer: exact below 2^53;
    at 2^53 the sum is not a double and rounds back to 2^53. *)
Definition increment (n : Z) : Z := if decide (n < 2 ^ 53) then n + 1 else n.

(** A promise returned by [request]; [resolve(undefined)] gives
    [Resolved None]. *)
Inductive Promise :=
| Pending
| Resolved (value : option (list string))
| Rejected (reason : Reason).

(** [window.ethereum] and what surrounds it: [_callbacks] maps an id to the
    promise whose [resolve] and [reject] it holds (the promises are numbered
    in the order [request] made them), [posted] is what went through
    [ReactNativeWebView.postMessage]. *)
Record Page := {
  _callbacks : gmap Z nat;
  _nextId : Z;
  promises : list Promise;
  posted : list WebViewData
}.

(** The page once the script has run. *)
Definition injectedPage : Page :=
  {| _callbacks := ∅; _nextId := 1; promises := []; posted := [] |}.

(** [request({method, params})] (lines 709-722): gives the promise it
    returns.  [msg_id] is read by the screen only when the message names a
    method. *)
Definition request (method : option string) (pg : Page) : nat * Page :=
  let id := _nextId pg in
  let promise := length (promises pg) in
  (promise,
   {| _callbacks := <[id := promise]> (_callbacks pg);
      _nextId := increment id;
      promises := app (promises pg) [Pending];
      posted := app (posted pg)
                  [ {| msg_uri := None; msg_method := method; msg_id := id |} ] |}).

Definition response_id (response : PageResponse) : Z :=
  match response with
  | PageResult id _ | PageError id _ => id
  end.

(** [response.result]: an error response has none. *)
Definition response_result (response : PageResponse) : option (list string) :=
  match response with
  | PageResult _ result => Some result
  | PageError _ _ => None
  end.

(** [resolve(value)]: a promise that is already settled stays as it is. *)
Definition resolve (promise : nat) (value : option (list string))
    (l : list Promise) : list Promise :=
  match l !! promise with
  | Some Pending => <[promise := Resolved value]> l
  | _ => l
  end.

(** [sendResponse(response)] (lines 700-706). *)
Definition sendResponse (response : PageResponse) (pg : Page) : Page :=
  match _callbacks pg !! response_id response with
  | Some promise =>
      {| _callbacks := delete (response_id response) (_callbacks pg);
         _nextId := _nextId pg;
         promises := resolve promise (response_result response) (promises pg);
         posted := posted pg |}
  | None => pg
  end.

(** The click listener (lines 726-732), on an element with this tag name
    and this [href]. *)
Definition onClick (tagName : string) (href : option string) (pg : Page) : Page :=
  if bool_decide (tagName = "A") && truthy href
     && startsWith (default "" href) "wc:"
  then {| _callbacks := _callbacks pg; _nextId := _nextId pg;
          promises := promises pg;
          posted := app (posted pg)
                      [ {| msg_uri := href; msg_method := None; msg_id := 0 |} ] |}
  else pg.

(** *** The page and the screen together *)

Record Browser := { screen : Screen; page : Page }.

(** The responses the bridge has injected between two worlds. *)
Definition injected (w w' : World) : list PageResponse :=
  omap (fun e => match e with
                 | InjectJavaScript response => Some response
                 | _ => None
                 end) (added w w').

(** The WebView: every script injected while the screen went from [s] to
    [s'] runs in the page, where it calls [sendResponse]. *)
Definition deliver (s s' : Screen) (pg : Page) : Page :=
  foldl (fun pg response => sendResponse response pg) pg
        (injected (world s) (world s')).

(** The page calls [window.ethereum.request]: the message it posts comes
    back from [JSON.parse] as it was and goes to [onMessage]. *)
Definition pageRequests (Y : SdkExt) (method : option string) (b : Browser)
    : nat * Browser :=
  let '(promise, pg) := request method (page b) in
  let s' := srun (handleWalletConnectRequest Y (last (posted pg))) (screen b) in
  (promise, {| screen := s'; page := deliver (screen b) s' pg |}).

(** The user taps a button of a dialog. *)
Definition userTaps (X : Ext) (captured : option Web3Wallet) (n : nat)
    (label : string) (b : Browser) : Browser :=
  let s' := srun (inWorld (tap X captured n label)) (screen b) in
  {| screen := s'; page := deliver (screen b) s' (page b) |}.

(** The ids of the pending requests are below the next id, which is at
    least 1, and each leads to a promise that is still pending. *)
Definition pageOk (pg : Page) : Prop :=
  1 <= _nextId pg
  /\ forall id promise,
       _callbacks pg !! id = Some promise ->
       id < _nextId pg /\ promises pg !! promise = Some Pending.

(** The responses among some events. *)
Definition responsesIn (events : list Event) : list PageResponse :=
  omap (fun e => match e with
                 | InjectJavaScript response => Some response
                 | _ => None
                 end) events.

Definition isResponse (e : Event) : bool :=
  match e with
  | InjectJavaScript _ => true
  | _ => false
  end.

(** A browser that has just loaded a page, on a registry without wallet. *)
Definition freshBrowser : Browser :=
  {| screen := initialScreen startedWorld; page := injectedPage |}.

(** ** The wallet screen (WalletScreen)

    The screen shows the wallet of one chain on one network.  Its handlers
    are the closures of a render: they read the state as that render saw
    it, the [snapshot], while what they set goes to the state that the
    next render will see.  A handler is followed to its end before the
    next input is taken; [loadPortfolio], which its callers do not await,
    is followed to its end where it is called.  (On a connected screen
    [switchChain] starts a load for the chain it leaves, and the effect
    that follows starts one for the chain it enters; which of the two ends
    last is not fixed by the code.  The embedding lets them end in the
    order in which they start, and nothing below is said about the
    portfolio after such a switch.) *)

(** The [TokenBalance] of the screen (lines 10-16). *)
Record PortfolioEntry := {
  e_symbol : string;
  e_name : string;
  e_balance : string;
  e_value : string;
  e_logoURI : option string
}.

(** JavaScript numbers, as far as the total is computed with them. *)
Record JsNumber := {
  Num : Type;
  num_zero : Num;
  num_plus : Num -> Num -> Num;
  parseFloat : string -> Num;
  toFixed : Num -> nat -> string
}.

Record WalletScreen := {
  ws_world : World;
  selectedChain : ChainType;
  selectedNetwork : Network;
  portfolio : list PortfolioEntry;
  totalValue : string;
  isConnected : bool;
  ws_isLoading : bool;
  walletAddress : option string
}.

(** The screen at its first render (lines 19-25). *)
Definition initialWalletScreen (w : World) : WalletScreen := {|
  ws_world := w;
  selectedChain := ETHEREUM;
  selectedNetwork := ETH_MAINNET;
  portfolio := [];
  totalValue := "0.00";
  isConnected := false;
  ws_isLoading := false;
  walletAddress := None
|}.

Definition set_ws_world (w : World) (s : WalletScreen) : WalletScreen :=
  {| ws_world := w; selectedChain := selectedChain s;
     selectedNetwork := selectedNetwork s; portfolio := portfolio s;
     totalValue := totalValue s; isConnected := isConnected s;
     ws_isLoading := ws_isLoading s; walletAddress := walletAddress s |}.

Definition set_selectedChain (c : ChainType) (s : WalletScreen) : WalletScreen :=
  {| ws_world := ws_world s; selectedChain := c;
     selectedNetwork := selectedNetwork s; portfolio := portfolio s;
     totalValue := totalValue s; isConnected := isConnected s;
     ws_isLoading := ws_isLoading s; walletAddress := walletAddress s |}.

Definition set_selectedNetwork (n : Network) (s : WalletScreen) : WalletScreen :=
  {| ws_world := ws_world s; selectedChain := selectedChain s;
     selectedNetwork := n; portfolio := portfolio s;
     totalValue := totalValue s; isConnected := isConnected s;
     ws_isLoading := ws_isLoading s; walletAddress := walletAddress s |}.

Definition set_portfolio (p : list PortfolioEntry) (s : WalletScreen)
    : WalletScreen :=
  {| ws_world := ws_world s; selectedChain := selectedChain s;
     selectedNetwork := selectedNetwork s; portfolio := p;
     totalValue := totalValue s; isConnected := isConnected s;
     ws_isLoading := ws_isLoading s; walletAddress := walletAddress s |}.

Definition set_totalValue (v : string) (s : WalletScreen) : WalletScreen :=
  {| ws_world := ws_world s; selectedChain := selectedChain s;
     selectedNetwork := selectedNetwork s; portfolio := portfolio s;
     totalValue := v; isConnected := isConnected s;
     ws_isLoading := ws_isLoading s; walletAddress := walletAddress s |}.

Definition set_isConnected (b : bool) (s : WalletScreen) : WalletScreen :=
  {| ws_world := ws_world s; selectedChain := selectedChain s;
     selectedNetwork := selectedNetwork s; portfolio := portfolio s;
     totalValue := totalValue s; isConnected := b;
     ws_isLoading := ws_isLoading s; walletAddress := walletAddress s |}.

Definition set_ws_isLoading (b : bool) (s : WalletScreen) : WalletScreen :=
  {| ws_world := ws_world s; selectedChain := selectedChain s;
     selectedNetwork := selectedNetwork s; portfolio := portfolio s;
     totalValue := totalValue s; isConnected := isConnected s;
     ws_isLoading := b; walletAddress := walletAddress s |}.

Definition set_walletAddress (a : option string) (s : WalletScreen)
    : WalletScreen :=
  {| ws_world := ws_world s; selectedChain := selectedChain s;
     selectedNetwork := selectedNetwork s; portfolio := portfolio s;
     totalValue := totalValue s; isConnected := isConnected s;
     ws_isLoading := ws_isLoading s; walletAddress := a |}.

(** [chains] (lines 30-34): the chains that have a button. *)
Definition chains : list (string * ChainType) :=
  [ ("Ethereum", ETHEREUM); ("Polygon", POLYGON) ].

(** The symbol and the name of the native token (lines 88-104). *)
Definition nativeToken (c : ChainType) : string * string :=
  match c with
  | ETHEREUM => ("ETH", "Ethereum")
  | POLYGON => ("MATIC", "Polygon")
  | SOLANA => ("SOL", "Solana")
  | BINANCE => ("BNB", "Binance")
  end.

Definition entryOf (t : TokenBalance) : PortfolioEntry :=
  {| e_symbol := symbol (token t); e_name := name (token t);
     e_balance := balance t; e_value := value t;
     e_logoURI := logoURI (token t) |}.

Definition loadPortfolioFailedDialog : Dialog :=
  {| title := "Error"; body := "Failed to load portfolio. Please try again.";
     buttons := okButton |}.

Definition connectWalletFailedDialog : Dialog :=
  {| title := "Error"; body := "Failed to connect wallet. Please try again.";
     buttons := okButton |}.

Section WalletScreen.

Variable X : Ext.
Variable J : JsNumber.

(** Lines 67-127. *)
Definition loadPortfolio (snapshot : WalletScreen) (s : WalletScreen)
    : WalletScreen :=
  if negb (isConnected snapshot) then s
  else
    let s := set_ws_isLoading true s in
    let queries :=
      let* tokenBalances :=
        getTokenBalances X (selectedChain snapshot) (selectedNetwork snapshot) in
      let* nativeBalance :=
        getBalance X (selectedChain snapshot) (selectedNetwork snapshot) in
      ret (tokenBalances, nativeBalance) in
    let s :=
      match queries (ws_world s) with
      | (Ok (tokenBalances, nativeBalance), w) =>
          let portfolioData :=
            {| e_symbol := fst (nativeToken (selectedChain snapshot));
               e_name := snd (nativeToken (selectedChain snapshot));
               e_balance := nativeBalance; e_value := "0.00";
               e_logoURI := None |}
            :: map entryOf tokenBalances in
          let total :=
            foldl (fun sum token =>
                     num_plus J sum (parseFloat J (orElse (Some (e_value token)) "0")))
                  (num_zero J) portfolioData in
          set_totalValue (toFixed J total 2)
            (set_portfolio portfolioData (set_ws_world w s))
      | (Err error, w) =>
          set_ws_world
            (run (emit (ConsoleError "Failed to load portfolio:") ;;;
                  alert loadPortfolioFailedDialog) w) s
      end in
    set_ws_isLoading false s.

(** The effect of lines 39-58, run once after the first render. *)
Definition initWallet (snapshot : WalletScreen) (s : WalletScreen)
    : WalletScreen :=
  let start :=
    initialize X ;;;
    hasWallet (selectedChain snapshot) in
  match start (ws_world s) with
  | (Ok has, w) =>
      let s := set_isConnected has (set_ws_world w s) in
      if has then
        match getWalletAddress (selectedChain snapshot) (ws_world s) with
        | (Ok address, w) =>
            loadPortfolio snapshot (set_walletAddress address (set_ws_world w s))
        | (Err error, w) =>
            set_ws_world
              (run (emit (ConsoleError "Failed to initialize wallet:")) w) s
        end
      else s
  | (Err error, w) =>
      set_ws_world (run (emit (ConsoleError "Failed to initialize wallet:")) w) s
  end.

(** The effect of lines 61-65, run after a render in which one of
    [selectedNetwork], [selectedChain] and [isConnected] has changed. *)
Definition portfolioEffect (rendered : WalletScreen) : WalletScreen :=
  if isConnected rendered then loadPortfolio rendered rendered else rendered.

(** Lines 129-143. *)
Definition connectWallet (snapshot : WalletScreen) (s : WalletScreen)
    : WalletScreen :=
  let s := set_ws_isLoading true s in
  let s :=
    match createWallet X (selectedChain snapshot) (ws_world s) with
    | (Ok address, w) =>
        loadPortfolio snapshot
          (set_isConnected true
             (set_walletAddress (Some address) (set_ws_world w s)))
    | (Err error, w) =>
        set_ws_world
          (run (emit (ConsoleError "Failed to connect wallet:") ;;;
                alert connectWalletFailedDialog) w) s
    end in
  set_ws_isLoading false s.

(** Lines 145-150. *)
Definition disconnectWallet (s : WalletScreen) : WalletScreen :=
  set_totalValue "0.00"
    (set_portfolio [] (set_walletAddress None (set_isConnected false s))).

(** Lines 152-173. *)
Definition switchChain (chainType : ChainType) (snapshot : WalletScreen)
    (s : WalletScreen) : WalletScreen :=
  let s := set_selectedChain chainType s in
  let s := match CHAIN_NETWORKS chainType with
           | first :: _ => set_selectedNetwork (nd_network first) s
           | [] => s
           end in
  match hasWallet chainType (ws_world s) with
  | (Ok has, w) =>
      let s := set_isConnected has (set_ws_world w s) in
      if has then
        match getWalletAddress chainType (ws_world s) with
        | (Ok address, w) =>
            loadPortfolio snapshot (set_walletAddress address (set_ws_world w s))
        | (Err error, w) => set_ws_world w s
        end
      else
        set_totalValue "0.00" (set_portfolio [] (set_walletAddress None s))
  | (Err error, w) => set_ws_world w s
  end.

(** Lines 175-178. *)
Definition switchNetwork (network : Network) (s : WalletScreen) : WalletScreen :=
  set_selectedNetwork network s.

(** What the user can do on the screen: each button exists, and is
    enabled, only in some states (lines 191-194, 209-216, 233-240 and
    284-287). *)
Inductive WalletInput :=
| Mounted
| ConnectButton
| ChainButton (c : ChainType)
| NetworkButton (n : Network)
| RefreshButton.

Definition respond (i : WalletInput) (s : WalletScreen) : WalletScreen :=
  match i with
  | Mounted => initWallet s s
  | ConnectButton =>
      if ws_isLoading s then s
      else if isConnected s then disconnectWallet s
      else connectWallet s s
  | ChainButton c =>
      if bool_decide (c ∈ map snd chains) then switchChain c s s else s
  | NetworkButton n =>
      if bool_decide (n ∈ map nd_network (CHAIN_NETWORKS (selectedChain s)))
      then switchNetwork n s
      else s
  | RefreshButton =>
      if negb (ws_isLoading s) && isConnected s
         && bool_decide (portfolio s = [])
      then loadPortfolio s s
      else s
  end.

(** What the second effect depends on. *)
Definition dependencies (s : WalletScreen) : Network * ChainType * bool :=
  (selectedNetwork s, selectedChain s, isConnected s).

(** An input, the render that follows it and the effect of that render. *)
Definition walletStep (s : WalletScreen) (i : WalletInput) : WalletScreen :=
  let s' := respond i s in
  if decide (dependencies s' = dependencies s) then s' else portfolioEffect s'.

End WalletScreen.

(** Numbers in which every value parses to zero, which is all the screen
    ever adds up. *)
Definition zeroNumbers : JsNumber := {|
  Num := Z;
  num_zero := 0;
  num_plus := Z.add;
  parseFloat := fun _ => 0;
  toFixed := fun _ _ => "0.00"
|}.

(** What [loadPortfolio] does not set. *)
Definition besidePortfolio (s : WalletScreen) :=
  (registryAndStore (ws_world s), tables (ws_world s),
   selectedChain s, selectedNetwork s, isConnected s, walletAddress s).


(** Collaborators whose next random wallet is not the sample one. *)
Definition otherWallet : Wallet :=
  {| privateKey := "0x4567"; wallet_address := "0xDEF" |}.

Definition otherExt : Ext := {|
  createRandom := fun _ => otherWallet;
  newWallet := newWallet sampleExt;
  fromMnemonic := fromMnemonic sampleExt;
  formatEther := formatEther sampleExt;
  parseEther := parseEther sampleExt;
  providerGetBalance := providerGetBalance sampleExt;
  signerSendTransaction := signerSendTransaction sampleExt;
  walletSignMessage := walletSignMessage sampleExt;
  getItemFails := getItemFails sampleExt;
  setItemFails := setItemFails sampleExt;
  coreGetTokenBalances := coreGetTokenBalances sampleExt;
  coreGetTokenMetadata := coreGetTokenMetadata sampleExt;
  coreGetAssetTransfers := coreGetAssetTransfers sampleExt;
  dateNow := dateNow sampleExt;
  dateGetTime := dateGetTime sampleExt;
  approveSessionFails := approveSessionFails sampleExt;
  respondSessionRequestFails := respondSessionRequestFails sampleExt
|}.

(** The wallet screen showing the sample wallet. *)
Definition connectedWalletScreen : WalletScreen :=
  set_isConnected true
    (set_walletAddress (Some "0xABC") (initialWalletScreen walletWorld)).

(** * Properties *)

(** ** The wallet gate of the registry *)

Lemma hasWallet_false (c : ChainType) (w : World) :
  result (hasWallet c) w = Ok false <-> wallets w c = None.
Proof.
  unfold result, hasWallet, bind, emit, update, read, ret; simpl.
  destruct (wallets w c); simpl; split; congruence.
Qed.

Lemma hasWallet_true (c : ChainType) (w : World) :
  result (hasWallet c) w = Ok true <-> is_Some (wallets w c).
Proof.
  unfold result, hasWallet, bind, emit, update, read, ret; simpl.
  destruct (wallets w c); simpl; split; try congruence; eauto.
  intros [? ?]; congruence.
Qed.

Lemma clientCalls_app (a b : list Event) :
  clientCalls (a ++ b) = clientCalls a ++ clientCalls b.
Proof. apply List.filter_app. Qed.

(** C4. On a chain for which [hasWallet] answers false, [getBalance],
    [sendTransaction] and [signMessage] fail with the "Wallet not found"
    error on every network, and the trace gains no call to a provider, to
    Alchemy or through the signer. *)
Theorem no_wallet_no_client_call
    (X : Ext) (c : ChainType) (n : Network) (to amount msg : JsVal) (w : World) :
  result (hasWallet c) w = Ok false ->
  (result (getBalance X c n) w = Err WalletNotFound
   /\ clientCalls (trace (run (getBalance X c n) w)) = clientCalls (trace w))
  /\ (result (sendTransaction X c n to amount) w = Err WalletNotFound
      /\ clientCalls (trace (run (sendTransaction X c n to amount) w))
         = clientCalls (trace w))
  /\ (result (signMessage X c msg) w = Err WalletNotFound
      /\ clientCalls (trace (run (signMessage X c msg) w)) = clientCalls (trace w)).
Proof.
  intros H; apply hasWallet_false in H.
  unfold result, run, getBalance, sendTransaction, signMessage,
    bind, emit, update, read, throw; simpl.
  rewrite H; simpl.
  rewrite !clientCalls_app; simpl.
  rewrite !app_nil_r. auto.
Qed.

Lemma no_wallet_no_client_call_witness :
  result (hasWallet POLYGON) startedWorld = Ok false
  /\ result (getBalance sampleExt POLYGON MATIC_MAINNET) startedWorld
     = Err WalletNotFound.
Proof.
  split; [reflexivity|].
  apply (no_wallet_no_client_call sampleExt POLYGON MATIC_MAINNET
           (JsString "0xdead") (JsString "1") (JsString "hello") startedWorld).
  reflexivity.
Defined.

(** ** Importing and persisting keys *)

(** C5. When the key string does not decode to a wallet (the
    [ethers.Wallet] constructor throws), [importWallet] fails with the
    "Invalid private key" error, and neither the registry nor the
    key-value store has changed: whatever was held for the chain, or
    nothing, is still there. *)
Theorem importWallet_malformed_key
    (X : Ext) (c : ChainType) (key : string) (w : World) :
  newWallet X key = None ->
  result (importWallet X c key) w = Err InvalidPrivateKey
  /\ wallets (run (importWallet X c key) w) = wallets w
  /\ storage (run (importWallet X c key) w) = storage w.
Proof.
  intros H.
  unfold result, run, importWallet, try_catch, bind, emit, update, lift, throw.
  rewrite H; simpl. auto.
Qed.

Lemma importWallet_malformed_key_witness :
  result (importWallet sampleExt ETHEREUM "not a key") walletWorld
  = Err InvalidPrivateKey
  /\ wallets (run (importWallet sampleExt ETHEREUM "not a key") walletWorld) ETHEREUM
     = Some sampleWallet.
Proof.
  destruct (importWallet_malformed_key sampleExt ETHEREUM "not a key" walletWorld)
    as (Hr & Hw & _); [reflexivity|].
  split; [exact Hr|]. rewrite Hw. reflexivity.
Defined.

(** What [saveWallet] does when the write is refused: the store keeps its
    contents, the error is logged, and the caller sees a normal return. *)
Lemma saveWallet_refused (X : Ext) (c : ChainType) (key : string) (w : World) :
  setItemFails X (clock w) (walletKey c) key = true ->
  saveWallet X c key w
  = (Ok tt,
     set_trace (trace w ++ [StorageSetItem (walletKey c) key;
                            ConsoleError "Failed to save wallet:"])
       (set_clock (S (clock w)) w)).
Proof.
  intros H.
  unfold saveWallet, try_catch, bind, external, emit, update, throw; simpl.
  rewrite H; simpl.
  unfold set_trace, set_clock; simpl. rewrite <- app_assoc. reflexivity.
Qed.

(** C10. If the write of the private key is refused, [createWallet],
    [importWallet] and [importWalletFromMnemonic] still return the derived
    address and still put the wallet in the registry; the store is left as
    it was and the failure only reaches [console.error].  Registry and
    store then disagree about the chain. *)
Theorem persist_failure_is_swallowed (X : Ext) (c : ChainType) (w : World) :
  (setItemFails X (S (clock w)) (walletKey c)
     (privateKey (createRandom X (clock w))) = true ->
   let w' := run (createWallet X c) w in
   result (createWallet X c) w = Ok (wallet_address (createRandom X (clock w)))
   /\ wallets w' c = Some (createRandom X (clock w))
   /\ storage w' = storage w
   /\ last (trace w') = Some (ConsoleError "Failed to save wallet:"))
  /\ (forall (key : string) (wk : Wallet),
        newWallet X key = Some wk ->
        setItemFails X (clock w) (walletKey c) key = true ->
        let w' := run (importWallet X c key) w in
        result (importWallet X c key) w = Ok (wallet_address wk)
        /\ wallets w' c = Some wk
        /\ storage w' = storage w
        /\ last (trace w') = Some (ConsoleError "Failed to save wallet:"))
  /\ (forall (mnemonic : string) (wm : Wallet),
        fromMnemonic X mnemonic = Some wm ->
        setItemFails X (clock w) (walletKey c) (privateKey wm) = true ->
        let w' := run (importWalletFromMnemonic X c mnemonic) w in
        result (importWalletFromMnemonic X c mnemonic) w = Ok (wallet_address wm)
        /\ wallets w' c = Some wm
        /\ storage w' = storage w
        /\ last (trace w') = Some (ConsoleError "Failed to save wallet:")).
Proof.
  split; [|split].
  - intros Hc.
    unfold result, run, createWallet, bind, emit, update, read, ret; simpl.
    rewrite saveWallet_refused by (simpl; assumption); simpl.
    repeat split.
    + unfold assign. by rewrite decide_True.
    + rewrite last_app. reflexivity.
  - intros key wk Hk Hks.
    unfold result, run, importWallet, try_catch, bind, emit, update, lift, ret;
      simpl.
    rewrite Hk; simpl.
    rewrite saveWallet_refused by (simpl; assumption); simpl.
    repeat split.
    + unfold assign. by rewrite decide_True.
    + rewrite last_app. reflexivity.
  - intros mnemonic wm Hm Hms.
    unfold result, run, importWalletFromMnemonic, try_catch, bind, emit, update,
      lift, ret; simpl.
    rewrite Hm; simpl.
    rewrite saveWallet_refused by (simpl; assumption); simpl.
    repeat split.
    + unfold assign. by rewrite decide_True.
    + rewrite last_app. reflexivity.
Qed.

Lemma persist_failure_is_swallowed_witness :
  let w' := run (createWallet readOnlyExt ETHEREUM) startedWorld in
  wallets w' ETHEREUM = Some sampleWallet
  /\ storage w' !! walletKey ETHEREUM = None.
Proof.
  destruct (persist_failure_is_swallowed readOnlyExt ETHEREUM startedWorld)
    as (Hcreate & _ & _).
  destruct Hcreate as (_ & Hw & Hs & _); [reflexivity|].
  split; [exact Hw|]. rewrite Hs. reflexivity.
Defined.

(** ** Chains without an indexing integration *)

Lemma getTokenBalances_solana_without_wallet :
  result (getTokenBalances sampleExt SOLANA ETH_MAINNET) startedWorld
  = Err WalletNotFound.
Proof. reflexivity. Qed.

(** C8, as stated, fails: on solana with no wallet registered,
    [getTokenBalances] and [getTransactionHistory] do not return the empty
    list, they throw "Wallet not found". *)
Lemma unsupported_chain_without_wallet_is_an_error :
  ~ (forall (c : ChainType) (n : Network) (w : World),
       c = SOLANA \/ c = BINANCE ->
       result (getTokenBalances sampleExt c n) w = Ok []
       /\ result (getTransactionHistory sampleExt c n) w = Ok []).
Proof.
  intros H.
  destruct (H SOLANA ETH_MAINNET startedWorld) as [H1 _]; [by left|].
  rewrite getTokenBalances_solana_without_wallet in H1. discriminate.
Qed.

(** C8, amended. For solana and binance, on every network: when a wallet is
    registered for the chain, [getTokenBalances] and
    [getTransactionHistory] return the empty list and call no client; when
    none is registered, both fail with "Wallet not found". *)
Theorem unsupported_chain_lists
    (X : Ext) (c : ChainType) (n : Network) (w : World) :
  c = SOLANA \/ c = BINANCE ->
  (result (hasWallet c) w = Ok true ->
     result (getTokenBalances X c n) w = Ok []
     /\ result (getTransactionHistory X c n) w = Ok []
     /\ clientCalls (trace (run (getTokenBalances X c n) w)) = clientCalls (trace w)
     /\ clientCalls (trace (run (getTransactionHistory X c n) w))
        = clientCalls (trace w))
  /\ (result (hasWallet c) w = Ok false ->
        result (getTokenBalances X c n) w = Err WalletNotFound
        /\ result (getTransactionHistory X c n) w = Err WalletNotFound).
Proof.
  intros Hc; split; intros H.
  - apply hasWallet_true in H as [wl H].
    unfold result, run, getTokenBalances, getTransactionHistory,
      bind, emit, update, read, ret; simpl.
    rewrite H; simpl.
    rewrite !decide_False by (destruct Hc; subst; intros [?|?]; discriminate).
    simpl. rewrite !clientCalls_app; simpl. rewrite !app_nil_r. auto.
  - apply hasWallet_false in H.
    unfold result, getTokenBalances, getTransactionHistory,
      bind, emit, update, read, throw; simpl.
    rewrite H; simpl. auto.
Qed.

Lemma unsupported_chain_lists_witness :
  result (getTokenBalances sampleExt SOLANA ETH_MAINNET) solanaWorld = Ok []
  /\ result (getTransactionHistory sampleExt SOLANA ETH_MAINNET) solanaWorld = Ok [].
Proof.
  destruct (unsupported_chain_lists sampleExt SOLANA ETH_MAINNET solanaWorld)
    as [H _]; [by left|].
  destruct H as (H1 & H2 & _); [reflexivity|].
  split; assumption.
Defined.

(** ** What a computation leaves alone

    For a reflexive and transitive [R], the lemmas about [holds R] follow
    the shape of the monad, so that a method is handled by walking through
    its body. *)

Section Frames.

Context (R : relation World) `{!Reflexive R, !Transitive R}.

Lemma holds_ret {A} (a : A) : holds R (ret a).
Proof. intros w; reflexivity. Qed.

Lemma holds_throw {A} (e : Error) : holds R (@throw A e).
Proof. intros w; reflexivity. Qed.

Lemma holds_read {A} (f : World -> A) : holds R (read f).
Proof. intros w; reflexivity. Qed.

Lemma holds_lift {A} (what : string) (o : option A) : holds R (lift what o).
Proof. destruct o; intros w; reflexivity. Qed.

Lemma holds_js {A} (o : option A) : holds R (js o).
Proof. destruct o; intros w; reflexivity. Qed.

Lemma holds_update (f : World -> World) :
  (forall w, R w (f w)) -> holds R (update f).
Proof. intros H w; apply H. Qed.

Lemma holds_bind {A B} (m : M A) (k : A -> M B) :
  holds R m -> (forall a, holds R (k a)) -> holds R (bind m k).
Proof.
  intros Hm Hk w. unfold bind.
  specialize (Hm w). destruct (m w) as [[a|e] w']; simpl in *.
  - etransitivity; [exact Hm | apply Hk].
  - exact Hm.
Qed.

Lemma holds_try_catch {A} (m : M A) (h : Error -> M A) :
  holds R m -> (forall e, holds R (h e)) -> holds R (try_catch m h).
Proof.
  intros Hm Hh w. unfold try_catch.
  specialize (Hm w). destruct (m w) as [[a|e] w']; simpl in *.
  - exact Hm.
  - etransitivity; [exact Hm | apply Hh].
Qed.

Lemma holds_try_finally {A} (m : M A) (f : World -> World) :
  holds R m -> (forall w, R w (f w)) -> holds R (try_finally m f).
Proof.
  intros Hm Hf w. unfold try_finally.
  specialize (Hm w). destruct (m w) as [r w']; simpl in *.
  etransitivity; [exact Hm | apply Hf].
Qed.

Lemma holds_foldM {A B} (body : B -> A -> M B) (l : list A) :
  (forall acc x, holds R (body acc x)) -> forall acc, holds R (foldM body acc l).
Proof.
  intros Hb. induction l as [|x l IH]; intros acc; simpl.
  - apply holds_ret.
  - apply holds_bind; [apply Hb | intros; apply IH].
Qed.

End Frames.

(** Walks through a method body; what is left are the updates, to be
    checked against the relation. *)
Ltac frame_step :=
  lazymatch goal with
  | |- holds _ (match ?x with _ => _ end) => destruct x
  | |- holds _ (ret _) => apply holds_ret; typeclasses eauto
  | |- holds _ (throw _) => apply holds_throw; typeclasses eauto
  | |- holds _ (read _) => apply holds_read; typeclasses eauto
  | |- holds _ (lift _ _) => apply holds_lift; typeclasses eauto
  | |- holds _ (js _) => apply holds_js; typeclasses eauto
  | |- holds _ (foldM _ _ _) =>
      apply holds_foldM; [typeclasses eauto | typeclasses eauto | intros ? ?]
  | |- holds _ (bind _ _) => apply holds_bind; [typeclasses eauto | | intros ?]
  | |- holds _ (try_catch _ _) =>
      apply holds_try_catch; [typeclasses eauto | | intros ?]
  | |- holds _ (try_finally _ _) =>
      apply holds_try_finally; [typeclasses eauto | | intros ?]
  | |- holds _ (update _) => apply holds_update; intros ?
  end.

(** *** Two families of relations *)

#[global] Instance unchanged_refl {O} (obs : World -> O) : Reflexive (unchanged obs).
Proof. intros w; reflexivity. Qed.

#[global] Instance unchanged_trans {O} (obs : World -> O) : Transitive (unchanged obs).
Proof. intros a b c H1 H2; unfold unchanged in *; congruence. Qed.

#[global] Instance grows_refl (Q : Event -> Prop) : Reflexive (grows Q).
Proof. intros w; exists []; split; [symmetry; apply app_nil_r | constructor]. Qed.

#[global] Instance grows_trans (Q : Event -> Prop) : Transitive (grows Q).
Proof.
  intros a b c (d1 & H1 & Q1) (d2 & H2 & Q2).
  exists (d1 ++ d2); split.
  - rewrite H2, H1. symmetry; apply app_assoc.
  - apply Forall_app; auto.
Qed.

Lemma grows_emit (Q : Event -> Prop) (e : Event) : Q e -> holds (grows Q) (emit e).
Proof. intros H w; exists [e]; split; [reflexivity | repeat constructor; exact H]. Qed.

Lemma grows_external (Q : Event -> Prop) (e : Event) :
  Q e -> holds (grows Q) (external e).
Proof. intros H w; exists [e]; split; [reflexivity | repeat constructor; exact H]. Qed.

Lemma grows_added (Q : Event -> Prop) (w w' : World) (e : Event) :
  grows Q w w' -> e ∈ added w w' -> Q e.
Proof.
  intros (d & H & HQ) He. unfold added in He.
  rewrite H, drop_app_length in He.
  rewrite Forall_forall in HQ. by apply HQ.
Qed.

Lemma grows_filter (kind : Event -> bool) (w w' : World) :
  grows (fun e => kind e = false) w w' ->
  List.filter kind (trace w') = List.filter kind (trace w).
Proof.
  intros (d & H & HQ). rewrite H, List.filter_app.
  assert (Hd : List.filter kind d = []).
  { clear H. induction HQ as [|e d He _ IH]; simpl; [reflexivity|].
    rewrite He. exact IH. }
  rewrite Hd. apply app_nil_r.
Qed.

Lemma keeps_tables_emit (e : Event) : keeps tables (emit e).
Proof. intros w; reflexivity. Qed.

Lemma keeps_tables_external (e : Event) : keeps tables (external e).
Proof. intros w; reflexivity. Qed.

(** ** The client tables *)

Lemma clientKey_inj (c c' : ChainType) (n n' : Network) :
  clientKey c n = clientKey c' n' -> c = c' /\ n = n'.
Proof.
  unfold clientKey. destruct c, c'; simpl; intros H; simplify_eq; auto.
Qed.

Section Tables.

Variable X : Ext.
Variable walletClient : option Web3Wallet.

Local Ltac tables_frame :=
  repeat first
    [ apply keeps_tables_emit | apply keeps_tables_external
    | frame_step | by hnf ].

Lemma loadWallets_tables : keeps tables (loadWallets X).
Proof. unfold loadWallets. tables_frame. Qed.

Lemma saveWallet_tables c key : keeps tables (saveWallet X c key).
Proof. unfold saveWallet. tables_frame. Qed.

Lemma createWallet_tables c : keeps tables (createWallet X c).
Proof.
  unfold createWallet.
  repeat first [ apply saveWallet_tables | apply keeps_tables_emit
               | frame_step | by hnf ].
Qed.

Lemma importWallet_tables c key : keeps tables (importWallet X c key).
Proof.
  unfold importWallet.
  repeat first [ apply saveWallet_tables | apply keeps_tables_emit
               | frame_step | by hnf ].
Qed.

Lemma importWalletFromMnemonic_tables c mnemonic :
  keeps tables (importWalletFromMnemonic X c mnemonic).
Proof.
  unfold importWalletFromMnemonic.
  repeat first [ apply saveWallet_tables | apply keeps_tables_emit
               | frame_step | by hnf ].
Qed.

Lemma getWalletAddress_tables c : keeps tables (getWalletAddress c).
Proof. unfold getWalletAddress. tables_frame. Qed.

Lemma hasWallet_tables c : keeps tables (hasWallet c).
Proof. unfold hasWallet. tables_frame. Qed.

Lemma getBalance_tables c n : keeps tables (getBalance X c n).
Proof. unfold getBalance, getProvider. tables_frame. Qed.

Lemma getTokenBalances_tables c n : keeps tables (getTokenBalances X c n).
Proof. unfold getTokenBalances, getAlchemyInstance. tables_frame. Qed.

Lemma sendTransaction_tables c n to amount :
  keeps tables (sendTransaction X c n to amount).
Proof. unfold sendTransaction, getProvider. tables_frame. Qed.

Lemma signMessage_tables c msg : keeps tables (signMessage X c msg).
Proof. unfold signMessage. tables_frame. Qed.

Lemma getTransactionHistory_tables c n :
  keeps tables (getTransactionHistory X c n).
Proof. unfold getTransactionHistory, getAlchemyInstance. tables_frame. Qed.

Lemma alert_tables d : keeps tables (alert d).
Proof. unfold alert. tables_frame. Qed.

Lemma handleSessionProposal_tables p :
  keeps tables (handleSessionProposal X walletClient p).
Proof.
  unfold handleSessionProposal, approveSession.
  repeat first [ apply hasWallet_tables | apply getWalletAddress_tables
               | apply alert_tables | apply keeps_tables_emit
               | apply keeps_tables_external | frame_step | by hnf ].
Qed.

Lemma handleSessionRequest_tables r :
  keeps tables (handleSessionRequest walletClient r).
Proof.
  unfold handleSessionRequest, rejectSession.
  repeat first [ apply alert_tables | apply keeps_tables_emit
               | apply keeps_tables_external | frame_step | by hnf ].
Qed.

Lemma handleEthereumRequest_tables d : keeps tables (handleEthereumRequest d).
Proof.
  unfold handleEthereumRequest, injectJavaScript.
  repeat first [ apply hasWallet_tables | apply getWalletAddress_tables
               | apply alert_tables | apply keeps_tables_emit
               | apply keeps_tables_external | frame_step | by hnf ].
Qed.

Lemma press_tables a : keeps tables (press X walletClient a).
Proof.
  destruct a; unfold press, rejectSession, respondSessionRequest, injectJavaScript.
  all: repeat first
         [ apply createWallet_tables | apply handleSessionProposal_tables
         | apply sendTransaction_tables | apply signMessage_tables
         | apply alert_tables | apply keeps_tables_emit
         | apply keeps_tables_external | frame_step | by hnf ].
Qed.

Lemma tap_tables n label : keeps tables (tap X walletClient n label).
Proof.
  unfold tap.
  repeat first [ apply press_tables | apply keeps_tables_emit
               | frame_step | by hnf ].
Qed.

(** No method other than [initialize], and no input of the bridge, writes
    to the client tables. *)
Lemma perform_tables (o : Operation) (w : World) :
  o <> Initialize -> tables (perform X walletClient w o) = tables w.
Proof.
  intros Ho. destruct o as [| | | | | | | | | | |i]; simpl; try congruence.
  - apply createWallet_tables.
  - apply importWallet_tables.
  - apply importWalletFromMnemonic_tables.
  - apply getWalletAddress_tables.
  - apply hasWallet_tables.
  - apply getBalance_tables.
  - apply getTokenBalances_tables.
  - apply sendTransaction_tables.
  - apply signMessage_tables.
  - apply getTransactionHistory_tables.
  - destruct i; simpl; unfold step, handle.
    + apply handleSessionProposal_tables.
    + apply handleSessionRequest_tables.
    + apply handleEthereumRequest_tables.
    + apply tap_tables.
Qed.

Lemma loadWallets_returns (w : World) : fst (loadWallets X w) = Ok tt.
Proof.
  unfold loadWallets, try_catch.
  destruct (foldM _ _ _ w) as [[[]|e] w']; reflexivity.
Qed.

Lemma setupProviders_fresh (w : World) :
  tables w = (∅, ∅) -> tables (run setupProviders w) = tablesAfterSetup.
Proof.
  unfold tables, run, setupProviders, bind, update; simpl.
  intros H; inversion H as [[Hp Ha]]. rewrite Hp, Ha. reflexivity.
Qed.

Lemma setupProviders_again (w : World) :
  tables w = tablesAfterSetup -> tables (run setupProviders w) = tablesAfterSetup.
Proof.
  unfold tables, run, setupProviders, bind, update; simpl.
  intros H; inversion H as [[Hp Ha]]. rewrite Hp, Ha. vm_compute. reflexivity.
Qed.

Lemma initialize_tables (w : World) :
  tables w = (∅, ∅) \/ tables w = tablesAfterSetup ->
  tables (run (initialize X) w) = tablesAfterSetup.
Proof.
  intros H. unfold initialize, run, bind. simpl.
  pose proof (loadWallets_tables (set_trace (trace w ++ [Registry CallInitialize]) w))
    as Hl.
  pose proof (loadWallets_returns (set_trace (trace w ++ [Registry CallInitialize]) w))
    as Hr.
  destruct (loadWallets X _) as [r w1]; simpl in *. subst r.
  change (tables w1 = tables w) in Hl.
  destruct H as [H|H]; rewrite H in Hl.
  - apply (setupProviders_fresh w1 Hl).
  - apply (setupProviders_again w1 Hl).
Qed.

(** Once initialized, the tables are the same after any sequence of
    operations, further calls of [initialize] included. *)
Lemma tables_fixed (ops : list Operation) (w : World) :
  tables w = tablesAfterSetup ->
  tables (foldl (perform X walletClient) w ops) = tablesAfterSetup.
Proof.
  revert w. induction ops as [|o ops IH]; intros w H; simpl; [exact H|].
  apply IH.
  assert (Ho : o = Initialize \/ o <> Initialize)
    by (destruct o; (by left) || (by right)).
  destruct Ho as [->|Ho].
  - simpl. apply initialize_tables. by right.
  - rewrite perform_tables by exact Ho. exact H.
Qed.

(** From a fresh singleton, the tables are empty until [initialize] has
    been called, and what [initialize] made them ever after. *)
Lemma tables_of_run (ops : list Operation) (w : World) :
  tables w = (∅, ∅) ->
  ((Initialize ∉ ops)
   /\ tables (foldl (perform X walletClient) w ops) = (∅, ∅))
  \/ ((Initialize ∈ ops)
      /\ tables (foldl (perform X walletClient) w ops) = tablesAfterSetup).
Proof.
  revert w. induction ops as [|o ops IH]; intros w H; simpl.
  - left. split; [apply not_elem_of_nil | exact H].
  - assert (Ho : o = Initialize \/ o <> Initialize)
      by (destruct o; (by left) || (by right)).
    destruct Ho as [->|Ho].
    + right. split; [by left|]. apply tables_fixed.
      simpl. apply initialize_tables. by left.
    + destruct (IH (perform X walletClient w o)) as [[Hn Ht]|[Hi Ht]].
      * rewrite perform_tables by exact Ho. exact H.
      * left. split; [|exact Ht]. rewrite not_elem_of_cons. split; congruence.
      * right. split; [by right | exact Ht].
Qed.

Lemma unregistered_provider (c : ChainType) (n : Network) :
  (c, n) ∉ registeredPairs -> tablesAfterSetup.1 !! clientKey c n = None.
Proof.
  intros H. unfold tablesAfterSetup, tables, run, setupProviders, bind, update; simpl.
  rewrite !lookup_insert_ne; [apply lookup_empty|..].
  all: intros E; apply clientKey_inj in E as [<- <-]; apply H;
       unfold registeredPairs; set_solver.
Qed.

Lemma unregistered_alchemy (c : ChainType) (n : Network) :
  (c, n) ∉ registeredPairs -> tablesAfterSetup.2 !! clientKey c n = None.
Proof.
  intros H. unfold tablesAfterSetup, tables, run, setupProviders, bind, update; simpl.
  rewrite !lookup_insert_ne; [apply lookup_empty|..].
  all: intros E; apply clientKey_inj in E as [<- <-]; apply H;
       unfold registeredPairs; set_solver.
Qed.

(** The four pairs of [setupProviders] do have their clients. *)
Lemma registered_pairs_have_clients (c : ChainType) (n : Network) :
  (c, n) ∈ registeredPairs ->
  is_Some (tablesAfterSetup.1 !! clientKey c n)
  /\ is_Some (tablesAfterSetup.2 !! clientKey c n).
Proof.
  unfold registeredPairs. intros H.
  repeat (apply elem_of_cons in H as [[= -> ->]|H];
          [split; eexists; vm_compute; reflexivity|]).
  by apply elem_of_nil in H.
Qed.

End Tables.

(** C9. An operation that asks for the client of a pair [(chain, network)]
    which [initialize] did not register throws the "not found" error of
    the table it asked, and the trace gains no call to a client: this is
    so for [getProvider] and [getAlchemyInstance] themselves, and for the
    public methods that get as far as needing the client (a wallet is
    registered for the chain; for the two indexer queries the chain is
    ethereum or polygon).  The two tables of a fresh singleton are empty
    until [initialize] is called and are what [initialize] made them ever
    after, whatever else is called and however often. *)
Theorem unregistered_pair_fails_fast
    (X : Ext) (walletClient : option Web3Wallet) (w0 : World)
    (ops : list Operation) (c : ChainType) (n : Network) (to amount : JsVal) :
  tables w0 = (∅, ∅) ->
  (c, n) ∉ registeredPairs ->
  let w := foldl (perform X walletClient) w0 ops in
  (Initialize ∉ ops -> tables w = (∅, ∅))
  /\ (Initialize ∈ ops -> tables w = tables (run (initialize X) w0))
  /\ getProvider c n w = (Err (ProviderNotFound c n), w)
  /\ getAlchemyInstance c n w = (Err (AlchemyNotFound c n), w)
  /\ (is_Some (wallets w c) ->
      (result (getBalance X c n) w = Err (ProviderNotFound c n)
       /\ clientCalls (trace (run (getBalance X c n) w)) = clientCalls (trace w))
      /\ (result (sendTransaction X c n to amount) w = Err (ProviderNotFound c n)
          /\ clientCalls (trace (run (sendTransaction X c n to amount) w))
             = clientCalls (trace w))
      /\ (c = ETHEREUM \/ c = POLYGON ->
          (result (getTokenBalances X c n) w = Err (AlchemyNotFound c n)
           /\ clientCalls (trace (run (getTokenBalances X c n) w))
              = clientCalls (trace w))
          /\ (result (getTransactionHistory X c n) w = Err (AlchemyNotFound c n)
              /\ clientCalls (trace (run (getTransactionHistory X c n) w))
                 = clientCalls (trace w)))).
Proof.
  intros H0 Hcn w.
  assert (Hi : tables (run (initialize X) w0) = tablesAfterSetup)
    by (apply initialize_tables; by left).
  pose proof (tables_of_run X walletClient ops w0 H0) as Hrun. fold w in Hrun.
  assert (Hp : providers w !! clientKey c n = None).
  { change (providers w) with (tables w).1.
    destruct Hrun as [[_ ->]|[_ ->]]; [apply lookup_empty|].
    by apply unregistered_provider. }
  assert (Ha : alchemyInstances w !! clientKey c n = None).
  { change (alchemyInstances w) with (tables w).2.
    destruct Hrun as [[_ ->]|[_ ->]]; [apply lookup_empty|].
    by apply unregistered_alchemy. }
  clearbody w.
  split; [intros Hn; destruct Hrun as [[_ ?]|[? _]]; [assumption|contradiction]|].
  split; [intros Hn; destruct Hrun as [[? _]|[_ ?]]; [contradiction|congruence]|].
  split; [unfold getProvider, bind, read; simpl; rewrite Hp; reflexivity|].
  split; [unfold getAlchemyInstance, bind, read; simpl; rewrite Ha; reflexivity|].
  intros [wl Hwl].
  unfold result, run, getBalance, sendTransaction, getTokenBalances,
    getTransactionHistory, getProvider, getAlchemyInstance,
    bind, emit, update, read, throw; simpl.
  rewrite Hwl; simpl. rewrite Hp; simpl.
  rewrite !clientCalls_app; simpl. rewrite !app_nil_r.
  repeat split; try reflexivity.
  all: rewrite decide_True by assumption; simpl; rewrite Ha; simpl.
  all: rewrite ?clientCalls_app; simpl; rewrite ?app_nil_r; reflexivity.
Qed.

Lemma unregistered_pair_fails_fast_witness :
  tables initialWorld = (∅, ∅)
  /\ result (getBalance sampleExt ETHEREUM MATIC_MAINNET) walletWorld
     = Err (ProviderNotFound ETHEREUM MATIC_MAINNET).
Proof.
  split; [reflexivity|].
  assert (H : (ETHEREUM, MATIC_MAINNET) ∉ registeredPairs).
  { unfold registeredPairs. intros E.
    repeat (apply elem_of_cons in E as [E|E]; [discriminate E|]).
    by apply elem_of_nil in E. }
  destruct (unregistered_pair_fails_fast sampleExt None initialWorld
              [Initialize; CreateWallet ETHEREUM] ETHEREUM MATIC_MAINNET
              (JsString "0xdead") (JsString "1") eq_refl H)
    as (_ & _ & _ & _ & Hops).
  destruct Hops as ((Hb & _) & _); [by eexists|].
  exact Hb.
Defined.

(** ** The bridge, step by step *)

Lemma bind_ret {A B} (a : A) (k : A -> M B) : bind (ret a) k = k a.
Proof. reflexivity. Qed.

Lemma bind_throw {A B} (e : Error) (k : A -> M B) : bind (throw e) k = throw e.
Proof. reflexivity. Qed.



Section Steps.

Variable X : Ext.
Variable walletClient : option Web3Wallet.

(** A request for a transaction opens the dialog and does nothing else. *)
Lemma handleSessionRequest_transaction (r : RequestEvent) (to value : JsVal) (w : World) :
  req_method r = "eth_sendTransaction" ->
  prop_to (index0 (methodParams r)) = Some to ->
  prop_value (index0 (methodParams r)) = Some value ->
  let d := transactionDialog (req_id r) (req_topic r) (index0 (methodParams r))
             to value in
  step X walletClient w (SessionRequestEvent r)
  = set_dialogs (dialogs w ++ [d]) (set_trace (trace w ++ [AlertShown d]) w).
Proof.
  intros Hm Hto Hvalue d.
  unfold step, handle, run, handleSessionRequest.
  rewrite Hm, decide_True by reflexivity.
  rewrite Hto, Hvalue. reflexivity.
Qed.

(** A request for a signature likewise. *)
Lemma handleSessionRequest_signature (r : RequestEvent) (w : World) :
  req_method r = "eth_sign" \/ req_method r = "personal_sign" ->
  let d := signatureDialog (req_id r) (req_topic r) (index0 (methodParams r)) in
  step X walletClient w (SessionRequestEvent r)
  = set_dialogs (dialogs w ++ [d]) (set_trace (trace w ++ [AlertShown d]) w).
Proof.
  intros Hm d.
  unfold step, handle, run, handleSessionRequest.
  rewrite decide_False by (destruct Hm as [-> | ->]; discriminate).
  rewrite decide_True by assumption. reflexivity.
Qed.

(** Tapping a button of the dialog opened last closes it and runs the
    closure of the first button with that label. *)
Lemma tap_last (d : Dialog) (label : string) (b : Button) (w : World) (open : list Dialog) :
  dialogs w = open ++ [d] ->
  List.find (fun b => bool_decide (text b = label)) (buttons d) = Some b ->
  tap X walletClient (length open) label w
  = match onPress b with
    | Some a => press X walletClient a
    | None => ret tt
    end (set_trace (trace w ++ [Tapped d label]) (set_dialogs open w)).
Proof.
  intros Hd Hb.
  unfold tap, bind, read; simpl.
  rewrite Hd, list_lookup_middle by reflexivity.
  rewrite Hb. unfold update, emit, update; simpl.
  rewrite delete_middle, app_nil_r.
  destruct (onPress b); reflexivity.
Qed.





End Steps.

(** ** Transactions: one tap, one call *)





(** ** Methods the bridge does not implement *)

(** What the two entry points answer to a method they do not know. *)
Lemma unsupported_method_replies
    (X : Ext) (r : RequestEvent) (data : PageRequest) (w : World) :
  req_method r <> "eth_sendTransaction" ->
  req_method r <> "eth_sign" ->
  req_method r <> "personal_sign" ->
  data_method data <> "eth_requestAccounts" ->
  trace (step X (Some web3wallet) w (SessionRequestEvent r))
  = trace w ++ [RejectSession (req_id r)
                  {| code := 4001; message := "Method not supported" |}]
  /\ trace (step X None w (SessionRequestEvent r)) = trace w
  /\ trace (step X (Some web3wallet) w (PageMessage data))
     = trace w ++ [InjectJavaScript
                     (PageError (data_id data)
                        {| code := 4200; message := "Method not supported" |})].
Proof.
  intros H1 H2 H3 H4.
  unfold step, handle, run, handleSessionRequest, handleEthereumRequest.
  rewrite !decide_False by tauto.
  rewrite ?decide_False by (intros [?|?]; tauto).
  repeat split; reflexivity.
Qed.

(** C6. The request [eth_chainId] is not supported.  The bridge answers it
    at once and without entering the registry, but the rejection carries
    code 4001, the code of "User rejected"; the embedded page is answered
    with the error 4200 "Method not supported". *)
Theorem unsupported_request_borrows_user_rejected_code :
  let w := step sampleExt (Some web3wallet) walletWorld
             (SessionRequestEvent chainIdRequest) in
  let reason := {| code := 4001; message := "Method not supported" |} in
  added walletWorld w = [RejectSession 10 reason]
  /\ code reason = code USER_REJECTED
  /\ code reason <> 4200
  /\ registryCalls (added walletWorld w) = []
  /\ added walletWorld
       (step sampleExt (Some web3wallet) walletWorld
          (PageMessage {| data_id := 11; data_method := "eth_chainId" |}))
     = [InjectJavaScript
          (PageError 11 {| code := 4200; message := "Method not supported" |})].
Proof. repeat split; try reflexivity. discriminate. Qed.

(** ** Which events a handler can produce *)

Lemma grows_same_trace (Q : Event -> Prop) (w w' : World) :
  trace w' = trace w -> grows Q w w'.
Proof. intros H; exists []; split; [by rewrite app_nil_r | constructor]. Qed.

Lemma grows_mono (Q Q' : Event -> Prop) (w w' : World) :
  (forall e, Q e -> Q' e) -> grows Q w w' -> grows Q' w w'.
Proof.
  intros H (d & Hd & HQ). exists d; split; [exact Hd|].
  eapply Forall_impl; eauto.
Qed.

Lemma grows_after (Q : Event -> Prop) (w w0 w' : World) (e : Event) :
  trace w0 = trace w ++ [e] -> Q e -> grows Q w0 w' -> grows Q w w'.
Proof.
  intros H He Hg. transitivity w0; [|exact Hg].
  exists [e]; split; [exact H | repeat constructor; exact He].
Qed.

Ltac quiet_with tac :=
  repeat first
    [ frame_step
    | apply grows_emit; tac
    | apply grows_external; tac
    | apply grows_same_trace; reflexivity ].

Section Quiet.

Variable X : Ext.
Variable walletClient : option Web3Wallet.
Variable Q : Event -> Prop.

Hypothesis Q_local : forall e, isLocal e = true -> Q e.
Hypothesis Q_client : forall e, isClientCall e = true -> Q e.
Hypothesis Q_keyUse : forall e, isKeyUse e = true -> Q e.
Hypothesis Q_reject : forall id reason, Q (RejectSession id reason).
Hypothesis Q_respond : forall topic id res, Q (RespondSessionRequest topic id res).
Hypothesis Q_inject : forall response, Q (InjectJavaScript response).

Local Ltac local := apply Q_local; reflexivity.

Lemma quiet_saveWallet c key : holds (grows Q) (saveWallet X c key).
Proof. unfold saveWallet. quiet_with local. Qed.

Lemma quiet_createWallet c : holds (grows Q) (createWallet X c).
Proof.
  unfold createWallet.
  repeat first [ apply quiet_saveWallet | progress quiet_with local ].
Qed.

Lemma quiet_hasWallet c : holds (grows Q) (hasWallet c).
Proof. unfold hasWallet. quiet_with local. Qed.

Lemma quiet_getWalletAddress c : holds (grows Q) (getWalletAddress c).
Proof. unfold getWalletAddress. quiet_with local. Qed.

Lemma quiet_alert d : holds (grows Q) (alert d).
Proof. unfold alert. quiet_with local. Qed.

Lemma quiet_rejectSession id reason :
  holds (grows Q) (rejectSession walletClient id reason).
Proof. unfold rejectSession. quiet_with ltac:(apply Q_reject). Qed.

Lemma quiet_respondSessionRequest topic id res :
  holds (grows Q) (respondSessionRequest X walletClient topic id res).
Proof. unfold respondSessionRequest. quiet_with ltac:(apply Q_respond). Qed.

Lemma quiet_injectJavaScript response : holds (grows Q) (injectJavaScript response).
Proof. unfold injectJavaScript. quiet_with ltac:(apply Q_inject). Qed.

Lemma quiet_sendTransaction c n to amount :
  holds (grows Q) (sendTransaction X c n to amount).
Proof.
  unfold sendTransaction, getProvider.
  quiet_with ltac:(first [ apply Q_keyUse; reflexivity | apply Q_client; reflexivity ]).
Qed.

Lemma quiet_signMessage c msg : holds (grows Q) (signMessage X c msg).
Proof.
  unfold signMessage.
  quiet_with ltac:(first [ apply Q_keyUse; reflexivity | apply Q_client; reflexivity ]).
Qed.

Lemma quiet_handleSessionRequest r :
  holds (grows Q) (handleSessionRequest walletClient r).
Proof.
  unfold handleSessionRequest.
  repeat first [ apply quiet_alert | apply quiet_rejectSession
               | progress quiet_with local ].
Qed.

Lemma quiet_handleEthereumRequest data :
  holds (grows Q) (handleEthereumRequest data).
Proof.
  unfold handleEthereumRequest.
  repeat first [ apply quiet_alert | apply quiet_hasWallet
               | apply quiet_getWalletAddress | apply quiet_injectJavaScript
               | progress quiet_with local ].
Qed.

Lemma quiet_press_RequestReject id :
  holds (grows Q) (press X walletClient (RequestReject id)).
Proof. apply quiet_rejectSession. Qed.

Lemma quiet_press_TransactionApprove id topic p0 :
  holds (grows Q) (press X walletClient (TransactionApprove id topic p0)).
Proof.
  unfold press.
  repeat first [ apply quiet_sendTransaction | apply quiet_respondSessionRequest
               | apply quiet_rejectSession | progress quiet_with local ].
Qed.

Lemma quiet_press_SignApprove id topic p0 :
  holds (grows Q) (press X walletClient (SignApprove id topic p0)).
Proof.
  unfold press.
  repeat first [ apply quiet_signMessage | apply quiet_respondSessionRequest
               | apply quiet_rejectSession | progress quiet_with local ].
Qed.

Lemma quiet_press_AccountsCreateWallet id :
  holds (grows Q) (press X walletClient (AccountsCreateWallet id)).
Proof.
  unfold press.
  repeat first [ apply quiet_createWallet | apply quiet_injectJavaScript
               | apply quiet_alert | progress quiet_with local ].
Qed.

End Quiet.

(** ** Creating a wallet *)

Lemma saveWallet_returns (X : Ext) c key (w : World) :
  fst (saveWallet X c key w) = Ok tt.
Proof.
  unfold saveWallet, try_catch, bind, external, emit, update, throw; simpl.
  destruct (setItemFails X _ _ _); reflexivity.
Qed.

Lemma saveWallet_wallets (X : Ext) c key : keeps wallets (saveWallet X c key).
Proof.
  intros w. unfold unchanged, saveWallet, try_catch, bind, external, emit,
    update, throw; simpl.
  destruct (setItemFails X _ _ _); reflexivity.
Qed.

(** [createWallet] always returns, with the address of the wallet it has
    put in the registry. *)
Lemma createWallet_registers (X : Ext) c (w : World) :
  result (createWallet X c) w = Ok (wallet_address (createRandom X (clock w)))
  /\ wallets (run (createWallet X c) w) c = Some (createRandom X (clock w)).
Proof.
  unfold result, run, createWallet, bind, emit, update, read, ret; simpl.
  match goal with
  | |- context [saveWallet X c ?k ?w1] =>
      pose proof (saveWallet_returns X c k w1) as Hr;
      pose proof (saveWallet_wallets X c k w1) as Hk;
      destruct (saveWallet X c k w1) as [r w2]
  end.
  simpl in *. subst r. unfold unchanged in Hk. simpl in *. rewrite Hk.
  split; [reflexivity|]. unfold assign. by rewrite decide_True.
Qed.

(** ** Session proposals *)

(** The loop builds one approved namespace per required one. *)
Lemma buildNamespaces_fmap (address : string)
    (required : gmap string RequiredNamespace) :
  buildNamespaces address required = approvedNamespace address <$> required.
Proof.
  unfold buildNamespaces.
  set (f := fun (namespaces : gmap string ApprovedNamespace) key =>
              match required !! key with
              | Some namespace =>
                  <[key := approvedNamespace address namespace]> namespaces
              | None => namespaces
              end).
  assert (H : forall (l : list string) acc k,
             foldl f acc l !! k
             = if decide (k ∈ l)
               then match required !! k with
                    | Some namespace => Some (approvedNamespace address namespace)
                    | None => acc !! k
                    end
               else acc !! k).
  { induction l as [|x l IH]; intros acc k; cbn [foldl].
    - rewrite decide_False by apply not_elem_of_nil. reflexivity.
    - rewrite IH. unfold f.
      destruct (decide (k ∈ l)) as [Hl|Hl].
      + rewrite decide_True by (by right).
        destruct (required !! k) eqn:Ek; [reflexivity|].
        destruct (required !! x) eqn:Ex; [|reflexivity].
        rewrite lookup_insert_ne; [reflexivity|]. intros ->. congruence.
      + destruct (decide (k = x)) as [->|Hx].
        * rewrite decide_True by (by left).
          destruct (required !! x); [apply lookup_insert_eq | reflexivity].
        * rewrite decide_False by (rewrite elem_of_cons; tauto).
          destruct (required !! x); [|reflexivity].
          rewrite lookup_insert_ne by congruence. reflexivity. }
  apply map_eq; intros k. rewrite H, lookup_fmap, lookup_empty.
  destruct (required !! k) as [namespace|] eqn:E; simpl.
  - rewrite decide_True; [reflexivity|].
    apply list_elem_of_fmap. exists (k, namespace); split; [reflexivity|].
    by apply elem_of_map_to_list.
  - by destruct (decide _).
Qed.

Lemma local_approvalOf (p : Proposal) (held : option Wallet) (e : Event) :
  isLocal e = true -> approvalOf p held e.
Proof. destruct e; simpl; intros H; first [exact H | discriminate H]. Qed.

Section Proposals.

Variable X : Ext.
Variable walletClient : option Web3Wallet.

Lemma handleSessionProposal_wallets p :
  keeps wallets (handleSessionProposal X walletClient p).
Proof.
  unfold handleSessionProposal, hasWallet, getWalletAddress, approveSession, alert.
  repeat first [ frame_step | by hnf ].
  all: try (intros w; reflexivity).
Qed.

Lemma handleSessionProposal_grows p (w : World) :
  grows (approvalOf p (wallets w ETHEREUM)) w
    (run (handleSessionProposal X walletClient p) w).
Proof.
  unfold run, handleSessionProposal, try_finally, try_catch, hasWallet,
    getWalletAddress, approveSession, alert, bind, emit, update, read, ret,
    external, throw; simpl.
  destruct (wallets w ETHEREUM) as [wl|] eqn:Hw; simpl; rewrite ?Hw; simpl.
  - destruct (decide (wallet_address wl = "")) eqn:Hd; simpl.
    + eexists; split; [rewrite <- !app_assoc; reflexivity|].
      repeat constructor.
    + destruct walletClient; simpl.
      * destruct (approveSessionFails X _ _ _); simpl.
        all: eexists; split; [rewrite <- !app_assoc; reflexivity|].
        all: repeat constructor; simpl; eauto.
      * eexists; split; [rewrite <- !app_assoc; reflexivity|].
        repeat constructor.
  - eexists; split; [rewrite <- !app_assoc; reflexivity|].
    repeat constructor.
Qed.

(** With a wallet and a client, the approval goes out at once. *)
Lemma handleSessionProposal_approves p wl client (w : World) :
  wallets w ETHEREUM = Some wl ->
  wallet_address wl <> "" ->
  walletClient = Some client ->
  exists rest,
    added w (run (handleSessionProposal X walletClient p) w)
    = [ Registry (CallHasWallet ETHEREUM);
        Registry (CallGetWalletAddress ETHEREUM);
        ApproveSession (prop_id p)
          (buildNamespaces (wallet_address wl) (requiredNamespaces p)) ] ++ rest.
Proof.
  intros Hw Ha ->.
  unfold added, run, handleSessionProposal, try_finally, try_catch, hasWallet,
    getWalletAddress, approveSession, alert, bind, emit, update, read, ret,
    external, throw; simpl.
  repeat (first [rewrite Hw | rewrite decide_False by exact Ha]; simpl).
  destruct (approveSessionFails X _ _ _); simpl.
  all: rewrite <- !app_assoc, drop_app_length; simpl; eexists; reflexivity.
Qed.

(** Without a wallet, only the dialog opens. *)
Lemma handleSessionProposal_no_wallet p (w : World) :
  wallets w ETHEREUM = None ->
  let w' := run (handleSessionProposal X walletClient p) w in
  added w w' = [ Registry (CallHasWallet ETHEREUM);
                 AlertShown (walletRequiredDialog p) ]
  /\ dialogs w' = dialogs w ++ [walletRequiredDialog p].
Proof.
  intros Hw.
  unfold added, run, handleSessionProposal, try_finally, try_catch, hasWallet,
    getWalletAddress, approveSession, alert, bind, emit, update, read, ret,
    external, throw; simpl.
  repeat (rewrite Hw; simpl).
  rewrite <- !app_assoc, drop_app_length. auto.
Qed.

(** The Create Wallet button of the proposal dialog. *)
Lemma press_ProposalCreateWallet_grows p (w : World) :
  let w' := run (press X walletClient (ProposalCreateWallet p)) w in
  grows (approvalOf p (wallets w' ETHEREUM)) w w'.
Proof.
  intros w'. subst w'. unfold press, run, try_catch, bind.
  assert (Hc : forall held, grows (approvalOf p held) w
                              (snd (createWallet X ETHEREUM w))).
  { intros held. apply quiet_createWallet. apply local_approvalOf. }
  assert (Hh : forall held w2,
             grows (approvalOf p held) w2
               (snd ((emit (ConsoleError "Failed to create wallet:") ;;;
                      alert createWalletFailedDialog) w2))).
  { intros held w2. eexists; split; [simpl; rewrite <- !app_assoc; reflexivity|].
    repeat constructor. }
  destruct (createWallet X ETHEREUM w) as [[a|e] w1]; simpl in *.
  - pose proof (handleSessionProposal_grows p w1) as Hp.
    pose proof (handleSessionProposal_wallets p w1) as Hk.
    unfold run, unchanged in Hp, Hk.
    destruct (handleSessionProposal X walletClient p w1) as [[[]|e] w2];
      simpl in *.
    + rewrite Hk. transitivity w1; [apply Hc | exact Hp].
    + rewrite Hk.
      transitivity w1; [apply Hc|]. transitivity w2; [exact Hp | apply Hh].
  - transitivity w1; [apply Hc | apply Hh].
Qed.

(** A tap either falls on nothing, or closes a dialog and runs the closure
    of the button. *)
Lemma tap_cases n label (w : World) :
  snd (tap X walletClient n label w) = w
  \/ exists d b,
       dialogs w !! n = Some d
       /\ List.find (fun b => bool_decide (text b = label)) (buttons d) = Some b
       /\ snd (tap X walletClient n label w)
          = snd (match onPress b with
                 | Some a => press X walletClient a
                 | None => ret tt
                 end (set_trace (trace w ++ [Tapped d label])
                        (set_dialogs (delete n (dialogs w)) w))).
Proof.
  unfold tap, bind, read; simpl.
  destruct (dialogs w !! n) as [d|]; [|by left].
  destruct (List.find _ (buttons d)) as [b|] eqn:Hb; [|by left].
  right. exists d, b. split; [reflexivity|]. split; [exact Hb|].
  unfold update, emit, update; simpl.
  destruct (onPress b); reflexivity.
Qed.

(** The Create Wallet button of the proposal dialog makes the wallet and
    handles the proposal again, which this time is approved. *)
Lemma press_ProposalCreateWallet_approves p client (w : World) :
  walletClient = Some client ->
  let A := wallet_address (createRandom X (clock w)) in
  A <> "" ->
  exists d,
    trace (run (press X walletClient (ProposalCreateWallet p)) w) = trace w ++ d
    /\ ApproveSession (prop_id p) (buildNamespaces A (requiredNamespaces p)) ∈ d.
Proof.
  intros Hc A HA.
  unfold press, run, try_catch, bind.
  destruct (createWallet_registers X ETHEREUM w) as [Hres Hreg].
  pose proof (quiet_createWallet X (fun _ => True) (fun _ _ => I) ETHEREUM w)
    as (d1 & Hd1 & _).
  unfold result, run in Hres, Hreg.
  destruct (createWallet X ETHEREUM w) as [[a|e] w1]; simpl in *; [|discriminate].
  destruct (handleSessionProposal_approves p _ client w1 Hreg HA Hc) as [rest Hr].
  pose proof (handleSessionProposal_grows p w1) as (d2 & Hd2 & _).
  unfold added in Hr. rewrite Hd2, drop_app_length in Hr. subst d2.
  unfold run in Hd2.
  destruct (handleSessionProposal X walletClient p w1) as [[[]|e] w2]; simpl in *.
  - eexists. split; [rewrite Hd2, Hd1, <- app_assoc; reflexivity|].
    apply elem_of_app. right.
    do 2 apply list_elem_of_further. apply list_elem_of_here.
  - eexists. split; [rewrite Hd2, Hd1, <- !app_assoc; reflexivity|].
    apply elem_of_app. right.
    do 2 apply list_elem_of_further. apply list_elem_of_here.
Qed.

End Proposals.

(** *** Accounts of an approved session *)

(** C2, as stated, fails: a proposal that requires the polygon namespace
    [eip155:137], made while the registry holds an ethereum wallet and no
    polygon wallet, is approved with the account [eip155:1:0xABC], the
    ethereum address. *)
Lemma polygon_namespace_gets_the_ethereum_account :
  let w := step sampleExt (Some web3wallet) walletWorld
             (SessionProposalEvent polygonProposal) in
  exists namespaces approved,
    ApproveSession 8 namespaces ∈ added walletWorld w
    /\ namespaces !! "eip155:137" = Some approved
    /\ accounts approved = ["eip155:1:0xABC"]
    /\ wallets w POLYGON = None
    /\ ~ specAccountsHeld w "eip155:137" approved.
Proof.
  exists (buildNamespaces "0xABC" (requiredNamespaces polygonProposal)).
  exists (approvedNamespace "0xABC"
            {| ns_chains := ["eip155:137"];
               ns_methods := ["eth_sendTransaction"];
               ns_events := [] |}).
  split; [|split; [|split; [|split]]].
  - destruct (handleSessionProposal_approves sampleExt (Some web3wallet)
                polygonProposal sampleWallet web3wallet walletWorld)
      as [rest Hr]; [reflexivity | discriminate | reflexivity |].
    unfold step, handle. rewrite Hr.
    apply elem_of_app; left. do 2 apply list_elem_of_further. apply list_elem_of_here.
  - reflexivity.
  - reflexivity.
  - reflexivity.
  - intros H. destruct (H "eip155:1:0xABC") as (c & wl & prefix & Hc & Hw & _).
    + simpl. by left.
    + vm_compute in Hc. injection Hc as <-. discriminate Hw.
Qed.

(** C2, amended. Whatever input makes the bridge issue an approval, every
    namespace of that approval carries exactly one account: [eip155:1:]
    followed by the address the registry holds for ethereum at that moment,
    whichever chain the namespace requests.  In particular, once
    [createWallet] has made an ethereum wallet with address [A], a proposal
    requiring the namespace [eip155:1] is approved with accounts
    [["eip155:1:A"]] for it. *)
Theorem approved_accounts_are_the_ethereum_address
    (X : Ext) (walletClient : option Web3Wallet) :
  (forall (w : World) (i : Input) id namespaces,
     ApproveSession id namespaces ∈ added w (step X walletClient w i) ->
     exists wl,
       wallets (step X walletClient w i) ETHEREUM = Some wl
       /\ forall key approved,
            namespaces !! key = Some approved ->
            accounts approved = ["eip155:1:" +:+ wallet_address wl])
  /\ (forall (w0 : World) (p : Proposal) (required : RequiredNamespace),
        is_Some walletClient ->
        let A := wallet_address (createRandom X (clock w0)) in
        let w := run (createWallet X ETHEREUM) w0 in
        A <> "" ->
        requiredNamespaces p !! "eip155:1" = Some required ->
        result (createWallet X ETHEREUM) w0 = Ok A
        /\ exists namespaces approved,
             ApproveSession (prop_id p) namespaces
               ∈ added w (step X walletClient w (SessionProposalEvent p))
             /\ namespaces !! "eip155:1" = Some approved
             /\ accounts approved = ["eip155:1:" +:+ A]).
Proof.
  split.
  - intros w i id namespaces Hin.
    assert (Hsound : forall p held,
              approvalOf p held (ApproveSession id namespaces) ->
              exists wl, held = Some wl
                /\ forall key approved,
                     namespaces !! key = Some approved ->
                     accounts approved = ["eip155:1:" +:+ wallet_address wl]).
    { intros p held (wl & -> & _ & ->). exists wl; split; [reflexivity|].
      intros key approved. rewrite buildNamespaces_fmap, lookup_fmap.
      destruct (requiredNamespaces p !! key); simpl; [|discriminate].
      intros [= <-]. reflexivity. }
    assert (Hno : grows (fun e => forall id' ns', e <> ApproveSession id' ns')
                    w (step X walletClient w i) -> False).
    { intros Hg. by eapply (grows_added _ _ _ _ Hg Hin). }
    destruct i as [p|r|data|n label]; unfold step, handle, run in *.
    + pose proof (handleSessionProposal_grows X walletClient p w) as Hg.
      pose proof (handleSessionProposal_wallets X walletClient p w) as Hk.
      unfold unchanged in Hk. rewrite Hk.
      apply (Hsound p). apply (grows_added _ _ _ _ Hg Hin).
    + exfalso. apply Hno. apply quiet_handleSessionRequest.
      * intros e He; destruct e; simpl in He; congruence.
      * congruence.
    + exfalso. apply Hno. apply quiet_handleEthereumRequest.
      * intros e He; destruct e; simpl in He; congruence.
      * congruence.
    + destruct (tap_cases X walletClient n label w) as [Hs|(d & b & _ & _ & Hs)].
      { rewrite Hs in Hin. unfold added in Hin.
        rewrite drop_all in Hin. by apply elem_of_nil in Hin. }
      rewrite Hs in *. clear Hs.
      set (w0 := set_trace (trace w ++ [Tapped d label])
                   (set_dialogs (delete n (dialogs w)) w)) in *.
      assert (Hback : forall Q w', Q (Tapped d label) -> grows Q w0 w' -> grows Q w w').
      { intros Q w' HQ. apply (grows_after Q w w0 w' (Tapped d label)); auto. }
      destruct (onPress b) as [[p|id'|id' topic p0|id' topic p0|id']|].
      * pose proof (press_ProposalCreateWallet_grows X walletClient p w0) as Hg.
        simpl in Hg. apply Hback in Hg; [|reflexivity].
        apply (Hsound p). apply (grows_added _ _ _ _ Hg Hin).
      * exfalso. apply Hno, Hback; [congruence|].
        apply quiet_press_RequestReject. congruence.
      * exfalso. apply Hno, Hback; [congruence|].
        apply quiet_press_TransactionApprove; try congruence.
        all: intros e He; destruct e; simpl in He; congruence.
      * exfalso. apply Hno, Hback; [congruence|].
        apply quiet_press_SignApprove; try congruence.
        all: intros e He; destruct e; simpl in He; congruence.
      * exfalso. apply Hno, Hback; [congruence|].
        apply quiet_press_AccountsCreateWallet; try congruence.
        all: intros e He; destruct e; simpl in He; congruence.
      * exfalso. apply Hno, Hback; [congruence|]. reflexivity.
  - intros w0 p required [client ->] A w HA Hreq.
    destruct (createWallet_registers X ETHEREUM w0) as [Hres Hw].
    split; [exact Hres|].
    destruct (handleSessionProposal_approves X (Some client) p
                (createRandom X (clock w0)) client w Hw HA eq_refl) as [rest Hr].
    eexists _, (approvedNamespace A required).
    unfold step, handle. rewrite Hr.
    split; [apply elem_of_app; left; do 2 apply list_elem_of_further;
            apply list_elem_of_here|].
    split; [|reflexivity].
    rewrite buildNamespaces_fmap, lookup_fmap, Hreq. reflexivity.
Qed.

Lemma approved_accounts_are_the_ethereum_address_witness :
  exists namespaces approved,
    ApproveSession 7 namespaces
      ∈ added walletWorld
          (step sampleExt (Some web3wallet) walletWorld
             (SessionProposalEvent mainnetProposal))
    /\ namespaces !! "eip155:1" = Some approved
    /\ accounts approved = ["eip155:1:0xABC"].
Proof.
  destruct (approved_accounts_are_the_ethereum_address sampleExt (Some web3wallet))
    as [_ H].
  destruct (H startedWorld mainnetProposal
              {| ns_chains := ["eip155:1"];
                 ns_methods := ["eth_sendTransaction"; "personal_sign"];
                 ns_events := ["chainChanged"] |})
    as [_ Hex]; [by eexists | discriminate | reflexivity |].
  exact Hex.
Defined.

(** ** The approval gate *)

#[global] Instance opens_refl (P : Dialog -> Prop) : Reflexive (opens P).
Proof. intros w H; exact H. Qed.

#[global] Instance opens_trans (P : Dialog -> Prop) : Transitive (opens P).
Proof. intros a b c H1 H2 H; auto. Qed.

Lemma opens_emit (P : Dialog -> Prop) (e : Event) : holds (opens P) (emit e).
Proof. intros w H; exact H. Qed.

Lemma opens_external (P : Dialog -> Prop) (e : Event) : holds (opens P) (external e).
Proof. intros w H; exact H. Qed.

Lemma opens_alert (P : Dialog -> Prop) (d : Dialog) : P d -> holds (opens P) (alert d).
Proof.
  intros Hd w H. unfold alert, bind, emit, update; simpl.
  apply Forall_app; split; [exact H | repeat constructor; exact Hd].
Qed.

Lemma opens_same (P : Dialog -> Prop) (w w' : World) :
  dialogs w' = dialogs w -> opens P w w'.
Proof. intros H Hw; rewrite H; exact Hw. Qed.

(** Checks a dialog of the bridge, button by button. *)
Ltac guarded :=
  let b := fresh "b" in
  let Hb := fresh "Hb" in
  intros b Hb; simpl in Hb;
  repeat (apply elem_of_cons in Hb as [->|Hb]; [simpl; eauto 10|]);
  try (by apply elem_of_nil in Hb).

Ltac opens_frame :=
  repeat first
    [ frame_step
    | apply opens_emit | apply opens_external
    | apply opens_alert; guarded
    | apply opens_same; reflexivity ].

Section Gate.

Variable X : Ext.
Variable walletClient : option Web3Wallet.

Lemma handleSessionProposal_opens p :
  holds (opens guardedDialog) (handleSessionProposal X walletClient p).
Proof.
  unfold handleSessionProposal, hasWallet, getWalletAddress, approveSession.
  opens_frame.
Qed.

Lemma handleSessionRequest_opens r :
  holds (opens guardedDialog) (handleSessionRequest walletClient r).
Proof.
  unfold handleSessionRequest, rejectSession. cbv zeta.
  apply holds_try_catch; [typeclasses eauto| |intros; apply opens_emit].
  destruct (decide (req_method r = "eth_sendTransaction")) as [Hm|Hm].
  - destruct (prop_to (index0 (methodParams r))) as [to|] eqn:Hto;
      [|simpl; rewrite bind_throw; opens_frame].
    destruct (prop_value (index0 (methodParams r))) as [value|] eqn:Hvalue;
      [|simpl; rewrite bind_ret, bind_throw; opens_frame].
    simpl. rewrite !bind_ret. apply opens_alert. guarded.
  - opens_frame.
Qed.

Lemma handleEthereumRequest_opens data :
  holds (opens guardedDialog) (handleEthereumRequest data).
Proof.
  unfold handleEthereumRequest, hasWallet, getWalletAddress, injectJavaScript.
  opens_frame.
Qed.

Lemma createWallet_opens c : holds (opens guardedDialog) (createWallet X c).
Proof. unfold createWallet, saveWallet. opens_frame. Qed.

Lemma press_opens a : holds (opens guardedDialog) (press X walletClient a).
Proof.
  destruct a; unfold press, rejectSession, respondSessionRequest,
    injectJavaScript, sendTransaction, signMessage, getProvider.
  all: repeat first
         [ apply createWallet_opens | apply handleSessionProposal_opens
         | progress opens_frame ].
Qed.

(** The bridge keeps its open dialogs guarded. *)
Lemma step_guarded (w : World) (i : Input) :
  Forall guardedDialog (dialogs w) ->
  Forall guardedDialog (dialogs (step X walletClient w i)).
Proof.
  intros H. destruct i as [p|r|data|n label]; unfold step, handle, run.
  - by apply handleSessionProposal_opens.
  - by apply handleSessionRequest_opens.
  - by apply handleEthereumRequest_opens.
  - destruct (tap_cases X walletClient n label w) as [Hs|(d & b & _ & _ & Hs)];
      rewrite Hs; [exact H|].
    assert (H0 : Forall guardedDialog (delete n (dialogs w)))
      by (by apply Forall_delete).
    destruct (onPress b) as [a|]; [|exact H0].
    by apply press_opens.
Qed.

(** So does everything else that can be asked of the application. *)
Lemma perform_guarded (w : World) (o : Operation) :
  Forall guardedDialog (dialogs w) ->
  Forall guardedDialog (dialogs (perform X walletClient w o)).
Proof.
  intros H. destruct o as [| | | | | | | | | | |i]; simpl;
    try (by apply step_guarded).
  all: unfold run.
  all: match goal with
       | |- Forall _ (dialogs (snd (?m ?w0))) =>
           assert (Hm : holds (opens guardedDialog) m); [|by apply Hm]
       end.
  all: unfold initialize, loadWallets, setupProviders, createWallet, importWallet,
         importWalletFromMnemonic, saveWallet, getWalletAddress, hasWallet,
         getBalance, getTokenBalances, sendTransaction, signMessage,
         getTransactionHistory, getProvider, getAlchemyInstance.
  all: opens_frame.
Qed.

Lemma run_guarded (ops : list Operation) (w : World) :
  Forall guardedDialog (dialogs w) ->
  Forall guardedDialog (dialogs (foldl (perform X walletClient) w ops)).
Proof.
  revert w. induction ops as [|o ops IH]; intros w H; simpl; [exact H|].
  apply IH. by apply perform_guarded.
Qed.

(** A step of the bridge that uses the key is a tap on an open dialog, on
    a button that carries the sending or the signing closure. *)
Lemma key_use_needs_tap (w : World) (i : Input) :
  keyUses (trace (step X walletClient w i)) <> keyUses (trace w) ->
  exists n label d b,
    i = Tap n label
    /\ dialogs w !! n = Some d
    /\ b ∈ buttons d
    /\ text b = label
    /\ ((exists id topic p0, onPress b = Some (TransactionApprove id topic p0))
        \/ (exists id topic p0, onPress b = Some (SignApprove id topic p0))).
Proof.
  intros Hne.
  assert (Hno : grows (fun e => isKeyUse e = false) w (step X walletClient w i)
                -> False).
  { intros Hg. apply Hne. by apply grows_filter. }
  assert (Hl : forall e, isLocal e = true -> isKeyUse e = false)
    by (intros e; destruct e as [[]| | | | | | | | | | | | | | |]; simpl; congruence).
  destruct i as [p|r|data|n label]; unfold step, handle, run in *.
  - exfalso. apply Hno.
    eapply grows_mono; [|apply (handleSessionProposal_grows X walletClient p w)].
    intros e; destruct e as [[]| | | | | | | | | | | | | | |]; simpl; congruence.
  - exfalso. apply Hno. by apply quiet_handleSessionRequest.
  - exfalso. apply Hno. by apply quiet_handleEthereumRequest.
  - destruct (tap_cases X walletClient n label w) as [Hs|(d & b & Hd & Hb & Hs)].
    { exfalso. apply Hne. by rewrite Hs. }
    rewrite Hs in *. clear Hs.
    set (w0 := set_trace (trace w ++ [Tapped d label])
                 (set_dialogs (delete n (dialogs w)) w)) in *.
    assert (Hback : forall w', grows (fun e => isKeyUse e = false) w0 w' ->
                               grows (fun e => isKeyUse e = false) w w').
    { intros w'. by apply (grows_after _ w w0 w' (Tapped d label)). }
    apply List.find_some in Hb as [Hin Ht].
    apply bool_decide_eq_true in Ht. apply list_elem_of_In in Hin.
    destruct (onPress b) as [[p|id|id topic p0|id topic p0|id]|] eqn:Ha.
    + exfalso. apply Hno, Hback.
      eapply grows_mono;
        [|apply (press_ProposalCreateWallet_grows X walletClient p w0)].
      intros e; destruct e as [[]| | | | | | | | | | | | | | |]; simpl; congruence.
    + exfalso. apply Hno, Hback. by apply quiet_press_RequestReject.
    + exists n, label, d, b. repeat split; eauto.
    + exists n, label, d, b. repeat split; eauto 10.
    + exfalso. apply Hno, Hback. by apply quiet_press_AccountsCreateWallet.
    + exfalso. apply Hno, Hback. reflexivity.
Qed.

End Gate.

(** What the embedded page is answered when it asks for the accounts. *)
Lemma handleEthereumRequest_accounts (id : Z) (w : World) :
  let data := {| data_id := id; data_method := "eth_requestAccounts" |} in
  match wallets w ETHEREUM with
  | Some wl =>
      wallet_address wl <> "" ->
      added w (run (handleEthereumRequest data) w)
      = [ Registry (CallHasWallet ETHEREUM);
          Registry (CallGetWalletAddress ETHEREUM);
          InjectJavaScript (PageResult id [wallet_address wl]) ]
  | None =>
      added w (run (handleEthereumRequest data) w)
      = [ Registry (CallHasWallet ETHEREUM);
          AlertShown (accountsWalletRequiredDialog id) ]
  end.
Proof.
  unfold added, run, handleEthereumRequest, hasWallet, getWalletAddress,
    injectJavaScript, alert, bind, emit, update, read, ret, external; simpl.
  destruct (wallets w ETHEREUM) as [wl|] eqn:Hw; simpl.
  - intros Ha. repeat (first [rewrite Hw | rewrite decide_False by exact Ha]; simpl).
    rewrite <- !app_assoc, drop_app_length. reflexivity.
  - rewrite <- !app_assoc, drop_app_length. reflexivity.
Qed.

(** C1, as stated, fails: with an ethereum wallet in the registry, a session
    proposal is approved, and [eth_requestAccounts] is answered with the
    address, before the user has tapped anything. *)
Lemma proposal_and_accounts_bypass_the_prompt :
  ~ specApprovalGated
      (trace (step sampleExt (Some web3wallet) walletWorld
                (SessionProposalEvent mainnetProposal)))
  /\ ~ specApprovalGated
         (trace (step sampleExt (Some web3wallet) walletWorld
                   (PageMessage {| data_id := 1;
                                   data_method := "eth_requestAccounts" |}))).
Proof.
  split; intros H.
  - destruct (H 9%nat
                (ApproveSession 7
                   (buildNamespaces "0xABC" (requiredNamespaces mainnetProposal)))
                eq_refl eq_refl) as (j & d & label & Hlt & Hj).
    do 9 (destruct j as [|j]; [vm_compute in Hj; discriminate|]). lia.
  - destruct (H 9%nat (InjectJavaScript (PageResult 1 ["0xABC"]))
                eq_refl eq_refl) as (j & d & label & Hlt & Hj).
    do 9 (destruct j as [|j]; [vm_compute in Hj; discriminate|]). lia.
Qed.

(** C1, amended. The key is gated: in any state the application can reach,
    a step of the bridge invokes [sendTransaction] or [signMessage] only
    when it is the user's tap on Approve in an open Transaction Request
    dialog, or on Sign in an open Signature Request dialog.  Accounts are
    not: when the registry holds an ethereum wallet, a session proposal is
    approved and [eth_requestAccounts] is answered at once, with no dialog
    before; when it holds none, the same two inputs only open the Wallet
    Required dialog. *)
Theorem key_use_is_gated_accounts_are_not
    (X : Ext) (walletClient : option Web3Wallet) :
  (forall (w0 : World) (ops : list Operation) (i : Input),
     dialogs w0 = [] ->
     let w := foldl (perform X walletClient) w0 ops in
     keyUses (trace (step X walletClient w i)) <> keyUses (trace w) ->
     exists n d,
       dialogs w !! n = Some d
       /\ ((i = Tap n "Approve" /\ title d = "Transaction Request")
           \/ (i = Tap n "Sign" /\ title d = "Signature Request")))
  /\ (forall (w : World) (p : Proposal) (id : Z) (wl : Wallet),
        is_Some walletClient ->
        wallets w ETHEREUM = Some wl ->
        wallet_address wl <> "" ->
        (exists rest,
           added w (step X walletClient w (SessionProposalEvent p))
           = [ Registry (CallHasWallet ETHEREUM);
               Registry (CallGetWalletAddress ETHEREUM);
               ApproveSession (prop_id p)
                 (buildNamespaces (wallet_address wl) (requiredNamespaces p)) ]
             ++ rest)
        /\ added w (step X walletClient w
                      (PageMessage {| data_id := id;
                                      data_method := "eth_requestAccounts" |}))
           = [ Registry (CallHasWallet ETHEREUM);
               Registry (CallGetWalletAddress ETHEREUM);
               InjectJavaScript (PageResult id [wallet_address wl]) ])
  /\ (forall (w : World) (p : Proposal) (id : Z),
        wallets w ETHEREUM = None ->
        added w (step X walletClient w (SessionProposalEvent p))
        = [ Registry (CallHasWallet ETHEREUM); AlertShown (walletRequiredDialog p) ]
        /\ added w (step X walletClient w
                      (PageMessage {| data_id := id;
                                      data_method := "eth_requestAccounts" |}))
           = [ Registry (CallHasWallet ETHEREUM);
               AlertShown (accountsWalletRequiredDialog id) ]).
Proof.
  split; [|split].
  - intros w0 ops i H0 w Hne.
    assert (Hg : Forall guardedDialog (dialogs w)).
    { apply run_guarded. rewrite H0. constructor. }
    destruct (key_use_needs_tap X walletClient w i Hne)
      as (n & label & d & b & -> & Hd & Hb & <- & Ha).
    exists n, d. split; [exact Hd|].
    rewrite Forall_forall in Hg.
    assert (Hgd : guardedDialog d).
    { apply Hg. by eapply list_elem_of_lookup_2. }
    specialize (Hgd b Hb).
    destruct Ha as [(id & topic & p0 & Ha)|(id & topic & p0 & Ha)];
      rewrite Ha in Hgd.
    + destruct Hgd as (Ht & -> & _). by left.
    + destruct Hgd as (Ht & ->). by right.
  - intros w p id wl [client ->] Hw Ha. split.
    + apply (handleSessionProposal_approves X (Some client) p wl client w Hw Ha
               eq_refl).
    + pose proof (handleEthereumRequest_accounts id w) as H.
      simpl in H. rewrite Hw in H. by apply H.
  - intros w p id Hw. split.
    + apply (handleSessionProposal_no_wallet X walletClient p w Hw).
    + pose proof (handleEthereumRequest_accounts id w) as H.
      simpl in H. rewrite Hw in H. exact H.
Qed.

Lemma key_use_is_gated_accounts_are_not_witness :
  added walletWorld
    (step sampleExt (Some web3wallet) walletWorld
       (PageMessage {| data_id := 1; data_method := "eth_requestAccounts" |}))
  = [ Registry (CallHasWallet ETHEREUM);
      Registry (CallGetWalletAddress ETHEREUM);
      InjectJavaScript (PageResult 1 ["0xABC"]) ]
  /\ added startedWorld
       (step sampleExt (Some web3wallet) startedWorld
          (SessionProposalEvent mainnetProposal))
     = [ Registry (CallHasWallet ETHEREUM);
         AlertShown (walletRequiredDialog mainnetProposal) ].
Proof.
  destruct (key_use_is_gated_accounts_are_not sampleExt (Some web3wallet))
    as (_ & HB & HC).
  split.
  - destruct (HB walletWorld mainnetProposal 1 sampleWallet) as [_ H];
      [by eexists | reflexivity | discriminate |].
    exact H.
  - destruct (HC startedWorld mainnetProposal 1) as [H _]; [reflexivity|].
    exact H.
Defined.

(** ** What the remote peer is told *)

Section Replies.

Variable X : Ext.
Variable client : Web3Wallet.

Lemma press_RequestReject_last id (w : World) :
  last (trace (run (press X (Some client) (RequestReject id)) w))
  = Some (RejectSession id USER_REJECTED).
Proof. unfold run, press, rejectSession, bind, external; simpl. apply last_snoc. Qed.

(** The end of the Approve closure: the hash went out, or a rejection. *)
Lemma press_TransactionApprove_last id topic p0 to value (w : World) :
  prop_to p0 = Some to ->
  prop_value p0 = Some value ->
  let tr := trace (run (press X (Some client) (TransactionApprove id topic p0)) w) in
  ((exists txHash, last tr = Some (RespondSessionRequest topic id txHash))
   \/ last tr = Some (RejectSession id
                        {| code := 4001; message := "Transaction failed" |}))
  /\ (wallets w ETHEREUM = None ->
      last tr = Some (RejectSession id
                        {| code := 4001; message := "Transaction failed" |})).
Proof.
  intros Hto Hvalue. unfold press. simpl. rewrite Hto, Hvalue. simpl.
  rewrite !bind_ret. unfold run, try_catch, bind.
  split.
  - destruct (sendTransaction X ETHEREUM ETH_MAINNET to value w) as [[tx|e] w1].
    + unfold respondSessionRequest, rejectSession, bind, external, emit, update;
        simpl.
      destruct (respondSessionRequestFails X _ _ _ _); simpl.
      * right. apply last_snoc.
      * left. eexists. apply last_snoc.
    + right. unfold rejectSession, bind, external, emit, update; simpl.
      apply last_snoc.
  - intros Hw.
    unfold sendTransaction, rejectSession, bind, external, emit, update, read,
      throw; simpl.
    rewrite Hw; simpl. apply last_snoc.
Qed.

(** The end of the Sign closure. *)
Lemma press_SignApprove_last id topic p0 (w : World) :
  let tr := trace (run (press X (Some client) (SignApprove id topic p0)) w) in
  ((exists signature, last tr = Some (RespondSessionRequest topic id signature))
   \/ last tr = Some (RejectSession id
                        {| code := 4001; message := "Signing failed" |}))
  /\ (wallets w ETHEREUM = None ->
      last tr = Some (RejectSession id
                        {| code := 4001; message := "Signing failed" |})).
Proof.
  unfold press. unfold run, try_catch, bind.
  split.
  - destruct (signMessage X ETHEREUM p0 w) as [[signature|e] w1].
    + unfold respondSessionRequest, rejectSession, bind, external, emit, update;
        simpl.
      destruct (respondSessionRequestFails X _ _ _ _); simpl.
      * right. apply last_snoc.
      * left. eexists. apply last_snoc.
    + right. unfold rejectSession, bind, external, emit, update; simpl.
      apply last_snoc.
  - intros Hw.
    unfold signMessage, rejectSession, bind, external, emit, update, read,
      throw; simpl.
    rewrite Hw; simpl. apply last_snoc.
Qed.

End Replies.

(** C7, as stated, fails: a proposal arrives while the registry has no
    ethereum wallet, the Wallet Required dialog opens, the user taps
    Cancel, and the dialog is gone without anything having been sent to the
    peer. *)
Lemma cancelled_proposal_is_left_unanswered :
  let w1 := step sampleExt (Some web3wallet) startedWorld
              (SessionProposalEvent mainnetProposal) in
  let w2 := step sampleExt (Some web3wallet) w1 (Tap 0 "Cancel") in
  result (hasWallet ETHEREUM) startedWorld = Ok false
  /\ dialogs w1 = [walletRequiredDialog mainnetProposal]
  /\ dialogs w2 = []
  /\ peerReplies (trace w2) = [].
Proof. repeat split; reflexivity. Qed.

(** C7, amended. For a session request with a dialog on screen, when the
    bridge holds the WalletConnect client: tapping Reject relays
    [rejectSession] with code 4001 "User rejected"; tapping Approve (or
    Sign) ends with the result relayed or, whenever sending (or signing) or
    relaying fails, with [rejectSession] code 4001 "Transaction failed"
    (or "Signing failed") -- in particular when there is no ethereum
    wallet.  A session proposal that finds no ethereum wallet is not
    rejected: the Wallet Required dialog opens and nothing is sent, and
    tapping Create Wallet makes the wallet and approves the proposal. *)
Theorem request_failures_are_relayed_proposal_failures_are_not
    (X : Ext) (client : Web3Wallet) :
  (forall (w : World) (r : RequestEvent) (to value : JsVal),
     req_method r = "eth_sendTransaction" ->
     prop_to (index0 (methodParams r)) = Some to ->
     prop_value (index0 (methodParams r)) = Some value ->
     let w1 := step X (Some client) w (SessionRequestEvent r) in
     let n := length (dialogs w) in
     let failed := RejectSession (req_id r)
                     {| code := 4001; message := "Transaction failed" |} in
     last (trace (step X (Some client) w1 (Tap n "Reject")))
     = Some (RejectSession (req_id r) USER_REJECTED)
     /\ ((exists txHash,
            last (trace (step X (Some client) w1 (Tap n "Approve")))
            = Some (RespondSessionRequest (req_topic r) (req_id r) txHash))
         \/ last (trace (step X (Some client) w1 (Tap n "Approve"))) = Some failed)
     /\ (wallets w ETHEREUM = None ->
         last (trace (step X (Some client) w1 (Tap n "Approve"))) = Some failed))
  /\ (forall (w : World) (r : RequestEvent),
        req_method r = "eth_sign" \/ req_method r = "personal_sign" ->
        let w1 := step X (Some client) w (SessionRequestEvent r) in
        let n := length (dialogs w) in
        let failed := RejectSession (req_id r)
                        {| code := 4001; message := "Signing failed" |} in
        last (trace (step X (Some client) w1 (Tap n "Reject")))
        = Some (RejectSession (req_id r) USER_REJECTED)
        /\ ((exists signature,
               last (trace (step X (Some client) w1 (Tap n "Sign")))
               = Some (RespondSessionRequest (req_topic r) (req_id r) signature))
            \/ last (trace (step X (Some client) w1 (Tap n "Sign"))) = Some failed)
        /\ (wallets w ETHEREUM = None ->
            last (trace (step X (Some client) w1 (Tap n "Sign"))) = Some failed))
  /\ (forall (w : World) (p : Proposal),
        wallets w ETHEREUM = None ->
        let w1 := step X (Some client) w (SessionProposalEvent p) in
        let n := length (dialogs w) in
        let A := wallet_address (createRandom X (clock w1)) in
        added w w1
        = [ Registry (CallHasWallet ETHEREUM); AlertShown (walletRequiredDialog p) ]
        /\ (A <> "" ->
            ApproveSession (prop_id p) (buildNamespaces A (requiredNamespaces p))
              ∈ added w1 (step X (Some client) w1 (Tap n "Create Wallet")))).
Proof.
  split; [|split].
  - intros w r to value Hm Hto Hvalue w1 n failed.
    pose proof (handleSessionRequest_transaction X (Some client) r to value w
                  Hm Hto Hvalue) as H1.
    simpl in H1. fold w1 in H1.
    set (d := transactionDialog (req_id r) (req_topic r) (index0 (methodParams r))
                to value) in *.
    assert (Hd : dialogs w1 = dialogs w ++ [d]) by (rewrite H1; reflexivity).
    assert (Hw : wallets w1 = wallets w) by (rewrite H1; reflexivity).
    subst n.
    change (step X (Some client) w1 (Tap (length (dialogs w)) "Reject"))
      with (snd (tap X (Some client) (length (dialogs w)) "Reject" w1)).
    change (step X (Some client) w1 (Tap (length (dialogs w)) "Approve"))
      with (snd (tap X (Some client) (length (dialogs w)) "Approve" w1)).
    rewrite (tap_last X (Some client) d "Reject"
               {| text := "Reject"; onPress := Some (RequestReject (req_id r)) |}
               w1 (dialogs w) Hd eq_refl).
    rewrite (tap_last X (Some client) d "Approve"
               {| text := "Approve";
                  onPress := Some (TransactionApprove (req_id r) (req_topic r)
                                     (index0 (methodParams r))) |}
               w1 (dialogs w) Hd eq_refl).
    split; [apply (press_RequestReject_last X client)|].
    pose proof (press_TransactionApprove_last X client (req_id r) (req_topic r)
                  (index0 (methodParams r)) to value
                  (set_trace (trace w1 ++ [Tapped d "Approve"])
                     (set_dialogs (dialogs w) w1)) Hto Hvalue) as [Ha Hb].
    split; [exact Ha|]. intros Hn. apply Hb. simpl. by rewrite Hw.
  - intros w r Hm w1 n failed.
    pose proof (handleSessionRequest_signature X (Some client) r w Hm) as H1.
    simpl in H1. fold w1 in H1.
    set (d := signatureDialog (req_id r) (req_topic r) (index0 (methodParams r)))
      in *.
    assert (Hd : dialogs w1 = dialogs w ++ [d]) by (rewrite H1; reflexivity).
    assert (Hw : wallets w1 = wallets w) by (rewrite H1; reflexivity).
    subst n.
    change (step X (Some client) w1 (Tap (length (dialogs w)) "Reject"))
      with (snd (tap X (Some client) (length (dialogs w)) "Reject" w1)).
    change (step X (Some client) w1 (Tap (length (dialogs w)) "Sign"))
      with (snd (tap X (Some client) (length (dialogs w)) "Sign" w1)).
    rewrite (tap_last X (Some client) d "Reject"
               {| text := "Reject"; onPress := Some (RequestReject (req_id r)) |}
               w1 (dialogs w) Hd eq_refl).
    rewrite (tap_last X (Some client) d "Sign"
               {| text := "Sign";
                  onPress := Some (SignApprove (req_id r) (req_topic r)
                                     (index0 (methodParams r))) |}
               w1 (dialogs w) Hd eq_refl).
    split; [apply (press_RequestReject_last X client)|].
    pose proof (press_SignApprove_last X client (req_id r) (req_topic r)
                  (index0 (methodParams r))
                  (set_trace (trace w1 ++ [Tapped d "Sign"])
                     (set_dialogs (dialogs w) w1))) as [Ha Hb].
    split; [exact Ha|]. intros Hn. apply Hb. simpl. by rewrite Hw.
  - intros w p Hw w1 n A.
    destruct (handleSessionProposal_no_wallet X (Some client) p w Hw) as [Ha Hd].
    change (run (handleSessionProposal X (Some client) p) w) with w1 in Ha, Hd.
    split; [exact Ha|]. intros HA. subst n.
    change (step X (Some client) w1 (Tap (length (dialogs w)) "Create Wallet"))
      with (snd (tap X (Some client) (length (dialogs w)) "Create Wallet" w1)).
    rewrite (tap_last X (Some client) (walletRequiredDialog p) "Create Wallet"
               {| text := "Create Wallet";
                  onPress := Some (ProposalCreateWallet p) |}
               w1 (dialogs w) Hd eq_refl).
    destruct (press_ProposalCreateWallet_approves X (Some client) p client
                (set_trace (trace w1 ++ [Tapped (walletRequiredDialog p)
                                           "Create Wallet"])
                   (set_dialogs (dialogs w) w1)) eq_refl HA) as (d & Hd' & Hin).
    unfold added. unfold run in Hd'. simpl in Hd'. simpl. rewrite Hd'.
    rewrite <- app_assoc, drop_app_length. by right.
Qed.

Lemma request_failures_are_relayed_proposal_failures_are_not_witness :
  let w1 := step sampleExt (Some web3wallet) startedWorld
              (SessionRequestEvent transferRequest) in
  last (trace (step sampleExt (Some web3wallet) w1 (Tap 0 "Approve")))
  = Some (RejectSession 9 {| code := 4001; message := "Transaction failed" |}).
Proof.
  destruct (request_failures_are_relayed_proposal_failures_are_not
              sampleExt web3wallet) as (HA & _ & _).
  destruct (HA startedWorld transferRequest (JsString "0xdead") (JsString "1.5")
              eq_refl eq_refl eq_refl) as (_ & _ & H).
  apply H. reflexivity.
Defined.

(** * Further properties

    Properties of the same code that the specification does not state. *)

(** ** The registry: creating, importing, looking up *)

Lemma assign_eq (c : ChainType) (wl : Wallet) (f : ChainType -> option Wallet) :
  assign c wl f c = Some wl.
Proof. unfold assign. by rewrite decide_True. Qed.

Lemma assign_ne (c c' : ChainType) (wl : Wallet) (f : ChainType -> option Wallet) :
  c' <> c -> assign c wl f c' = f c'.
Proof. intros H. unfold assign. by rewrite decide_False. Qed.

Lemma saveWallet_frame (X : Ext) c key (w : World) :
  exists w', saveWallet X c key w = (Ok tt, w') /\ wallets w' = wallets w.
Proof.
  pose proof (saveWallet_returns X c key w) as Hr.
  pose proof (saveWallet_wallets X c key w) as Hk.
  destruct (saveWallet X c key w) as [r w']. simpl in *. subst r.
  exists w'. split; [reflexivity | exact Hk].
Qed.

Lemma getWalletAddress_result (c : ChainType) (wl : Wallet) (w : World) :
  wallets w c = Some wl ->
  wallet_address wl <> "" ->
  result (getWalletAddress c) w = Ok (Some (wallet_address wl)).
Proof.
  intros Hw Ha.
  unfold result, getWalletAddress, bind, emit, update, read, ret; simpl.
  rewrite Hw; simpl. by rewrite decide_False.
Qed.

(** X1. [createWallet], and [importWallet] and [importWalletFromMnemonic]
    on an input that decodes, return the address of the wallet they put in
    the registry for the chain, replacing whatever was there; [hasWallet]
    then answers true and [getWalletAddress] that address (when it is not
    the empty string); the wallets of the other chains are untouched. *)
Theorem create_or_import_registers (X : Ext) (c : ChainType) (w : World) :
  let registered (wl : Wallet) (r : Result string) (w' : World) :=
    r = Ok (wallet_address wl)
    /\ wallets w' c = Some wl
    /\ result (hasWallet c) w' = Ok true
    /\ (wallet_address wl <> "" ->
        result (getWalletAddress c) w' = Ok (Some (wallet_address wl)))
    /\ (forall c', c' <> c -> wallets w' c' = wallets w c') in
  registered (createRandom X (clock w))
    (result (createWallet X c) w) (run (createWallet X c) w)
  /\ (forall key wl, newWallet X key = Some wl ->
        registered wl (result (importWallet X c key) w)
          (run (importWallet X c key) w))
  /\ (forall mnemonic wl, fromMnemonic X mnemonic = Some wl ->
        registered wl (result (importWalletFromMnemonic X c mnemonic) w)
          (run (importWalletFromMnemonic X c mnemonic) w)).
Proof.
  intros registered.
  assert (Hreg : forall wl r w',
             r = Ok (wallet_address wl) ->
             wallets w' = assign c wl (wallets w) ->
             registered wl r w').
  { intros wl r w' -> Hw. unfold registered.
    assert (Hc : wallets w' c = Some wl) by (rewrite Hw; apply assign_eq).
    split; [reflexivity|]. split; [exact Hc|]. split.
    - apply hasWallet_true. by eexists.
    - split; [by apply getWalletAddress_result|].
      intros c' Hc'. rewrite Hw. by apply assign_ne. }
  split; [|split].
  - unfold result, run, createWallet, bind, emit, update, read, ret; simpl.
    match goal with
    | |- context [saveWallet X c ?k ?w1] =>
        destruct (saveWallet_frame X c k w1) as (w2 & -> & Hk)
    end.
    apply Hreg; [reflexivity | exact Hk].
  - intros key wl Hk.
    unfold result, run, importWallet, try_catch, bind, emit, update, lift, ret;
      simpl.
    rewrite Hk; simpl.
    match goal with
    | |- context [saveWallet X c ?k ?w1] =>
        destruct (saveWallet_frame X c k w1) as (w2 & -> & Hk2)
    end.
    apply Hreg; [reflexivity | exact Hk2].
  - intros mnemonic wl Hm.
    unfold result, run, importWalletFromMnemonic, try_catch, bind, emit, update,
      lift, ret; simpl.
    rewrite Hm; simpl.
    match goal with
    | |- context [saveWallet X c ?k ?w1] =>
        destruct (saveWallet_frame X c k w1) as (w2 & -> & Hk2)
    end.
    apply Hreg; [reflexivity | exact Hk2].
Qed.

Lemma create_or_import_registers_witness :
  result (importWallet sampleExt POLYGON "0x0123") walletWorld = Ok "0xABC"
  /\ result (getWalletAddress POLYGON)
       (run (importWallet sampleExt POLYGON "0x0123") walletWorld)
     = Ok (Some "0xABC").
Proof.
  destruct (create_or_import_registers sampleExt POLYGON walletWorld)
    as (_ & Himport & _).
  destruct (Himport "0x0123" sampleWallet eq_refl) as (Hr & _ & _ & Ha & _).
  split; [exact Hr|]. apply Ha. discriminate.
Defined.

(** ** Loading the wallets back *)

Lemma loadWallets_loop (X : Ext) :
  loadWallets X
  = try_catch (foldM (fun (_ : unit) c => loadOne X c) tt ChainType_values)
      (fun error => emit (ConsoleError "Failed to load wallets:")).
Proof. reflexivity. Qed.

(** A turn of the loop writes nothing but, at most, the wallet of its own
    chain; when it throws it has written no wallet at all. *)
Lemma loadOne_frame (X : Ext) (c : ChainType) (w : World) :
  exists r w',
    loadOne X c w = (r, w')
    /\ storage w' = storage w
    /\ (forall c', c' <> c -> wallets w' c' = wallets w c')
    /\ (forall e, r = Err e -> wallets w' = wallets w).
Proof.
  unfold loadOne, bind, external, read, lift, update, throw, ret; simpl.
  destruct (getItemFails X _ _);
    [eexists _, _; split; [reflexivity|]; by repeat split|].
  simpl.
  destruct (storage w !! walletKey c) as [pk|]; simpl;
    [|eexists _, _; split; [reflexivity|]; by repeat split].
  destruct (decide (pk = ""));
    [eexists _, _; split; [reflexivity|]; by repeat split|].
  destruct (newWallet X pk) as [wl|]; simpl;
    [|eexists _, _; split; [reflexivity|]; by repeat split].
  eexists _, _. split; [reflexivity|]. repeat split; try discriminate.
  intros c' Hc'. by apply assign_ne.
Qed.

(** When the read succeeds and the key, if any, decodes, the turn leaves
    the stored wallet in the registry. *)
Lemma loadOne_loaded (X : Ext) (c : ChainType) (w : World) :
  getItemFails X (clock w) (walletKey c) = false ->
  (forall pk, storage w !! walletKey c = Some pk -> pk <> "" ->
              is_Some (newWallet X pk)) ->
  exists w',
    loadOne X c w = (Ok tt, w')
    /\ storage w' = storage w
    /\ wallets w' c = loadedWallet X (storage w) (wallets w) c
    /\ (forall c', c' <> c -> wallets w' c' = wallets w c').
Proof.
  intros Hread Hdec.
  unfold loadOne, loadedWallet, bind, external, read, lift, update, throw, ret;
    simpl.
  rewrite Hread. simpl.
  destruct (storage w !! walletKey c) as [pk|] eqn:Hs; simpl;
    [|eexists; split; [reflexivity|]; by repeat split].
  destruct (decide (pk = ""));
    [eexists; split; [reflexivity|]; by repeat split|].
  destruct (Hdec pk eq_refl n) as [wl Hwl]. rewrite Hwl; simpl.
  eexists. split; [reflexivity|]. repeat split.
  - apply assign_eq.
  - intros c' Hc'. by apply assign_ne.
Qed.

Lemma loadedWallet_ext (X : Ext) (store : gmap string string)
    (f g : ChainType -> option Wallet) (c : ChainType) :
  f c = g c -> loadedWallet X store f c = loadedWallet X store g c.
Proof. intros H. unfold loadedWallet. by rewrite H. Qed.

Lemma loadedWallet_twice (X : Ext) (store : gmap string string)
    (f g : ChainType -> option Wallet) (c : ChainType) :
  g c = loadedWallet X store f c ->
  loadedWallet X store g c = loadedWallet X store f c.
Proof.
  unfold loadedWallet. intros H.
  destruct (store !! walletKey c) as [pk|]; [|exact H].
  destruct (decide (pk = "")); [exact H|].
  destruct (newWallet X pk); [reflexivity | exact H].
Qed.

Lemma load_loop_loaded (X : Ext) (l : list ChainType) (w : World) :
  (forall t k, getItemFails X t k = false) ->
  (forall c pk, storage w !! walletKey c = Some pk -> pk <> "" ->
                is_Some (newWallet X pk)) ->
  exists w',
    foldM (fun (_ : unit) c => loadOne X c) tt l w = (Ok tt, w')
    /\ storage w' = storage w
    /\ forall c, wallets w' c
                 = if decide (c ∈ l)
                   then loadedWallet X (storage w) (wallets w) c
                   else wallets w c.
Proof.
  intros Hread. revert w. induction l as [|x l IH]; intros w Hdec.
  - exists w. split; [reflexivity|]. split; [reflexivity|].
    intros c. destruct (decide (c ∈ [])) as [Hin|]; [|reflexivity].
    by apply not_elem_of_nil in Hin.
  - destruct (loadOne_loaded X x w (Hread _ _) (Hdec x))
      as (w1 & H1 & Hs1 & Hx & Hother).
    destruct (IH w1) as (w2 & H2 & Hs2 & Hw2).
    { intros c pk. rewrite Hs1. apply Hdec. }
    exists w2. split; [simpl; unfold bind; rewrite H1; exact H2|].
    split; [congruence|].
    intros c. rewrite Hw2, Hs1.
    destruct (decide (c = x)) as [->|Hc].
    + rewrite (decide_True (P := x ∈ x :: l)) by (by left).
      destruct (decide (x ∈ l)); [|exact Hx].
      by apply loadedWallet_twice.
    + destruct (decide (c ∈ l)) as [Hl|Hl].
      * rewrite decide_True by (by right).
        apply loadedWallet_ext. by apply Hother.
      * rewrite decide_False by (rewrite elem_of_cons; tauto).
        by apply Hother.
Qed.

Lemma all_chains (c : ChainType) : c ∈ ChainType_values.
Proof. by destruct c; apply (bool_decide_unpack _). Qed.

(** [initialize] leaves the registry and the store as its [loadWallets]
    leaves them: [setupProviders] writes the client tables only. *)
Lemma initialize_registry (X : Ext) (w : World) :
  let w0 := set_trace (trace w ++ [Registry CallInitialize]) w in
  wallets (run (initialize X) w) = wallets (run (loadWallets X) w0)
  /\ storage (run (initialize X) w) = storage (run (loadWallets X) w0).
Proof.
  intros w0. unfold initialize, run, bind. simpl. fold w0.
  pose proof (loadWallets_returns X w0) as Hr.
  destruct (loadWallets X w0) as [r w1]; simpl in *. subst r.
  by split.
Qed.

(** X2. When every read of the store succeeds and every stored key
    decodes, [loadWallets] leaves for each chain the wallet decoded from
    the key stored under [wallet_<chainType>], replacing the one in memory,
    and keeps the one in memory where nothing (or the empty string) is
    stored.  Hence a wallet that [createWallet] managed to persist is the
    wallet [initialize] puts back after a restart, provided the key decodes
    to it. *)
Theorem stored_wallets_are_loaded (X : Ext) :
  (forall t k, getItemFails X t k = false) ->
  (forall (w : World),
     (forall c pk, storage w !! walletKey c = Some pk -> pk <> "" ->
                   is_Some (newWallet X pk)) ->
     result (loadWallets X) w = Ok tt
     /\ storage (run (loadWallets X) w) = storage w
     /\ forall c, wallets (run (loadWallets X) w) c
                  = loadedWallet X (storage w) (wallets w) c)
  /\ (forall (w : World) (c : ChainType),
        let wl := createRandom X (clock w) in
        let w' := run (createWallet X c) w in
        setItemFails X (S (clock w)) (walletKey c) (privateKey wl) = false ->
        (forall c' pk, storage w' !! walletKey c' = Some pk -> pk <> "" ->
                       is_Some (newWallet X pk)) ->
        privateKey wl <> "" ->
        newWallet X (privateKey wl) = Some wl ->
        storage w' !! walletKey c = Some (privateKey wl)
        /\ wallets (restart w') c = None
        /\ wallets (run (initialize X) (restart w')) c = Some wl).
Proof.
  intros Hread.
  assert (Hload : forall w,
             (forall c pk, storage w !! walletKey c = Some pk -> pk <> "" ->
                           is_Some (newWallet X pk)) ->
             result (loadWallets X) w = Ok tt
             /\ storage (run (loadWallets X) w) = storage w
             /\ forall c, wallets (run (loadWallets X) w) c
                          = loadedWallet X (storage w) (wallets w) c).
  { intros w Hdec. rewrite loadWallets_loop. unfold result, run, try_catch.
    destruct (load_loop_loaded X ChainType_values w Hread Hdec)
      as (w' & -> & Hs & Hw). simpl.
    split; [reflexivity|]. split; [exact Hs|].
    intros c. rewrite Hw. rewrite decide_True by apply all_chains. reflexivity. }
  split; [exact Hload|].
  intros w c wl w' Hsave Hdec Hne Hkey.
  assert (Hstore : storage w' !! walletKey c = Some (privateKey wl)).
  { subst w'. unfold run, createWallet, saveWallet, try_catch, bind, external,
      emit, update, read, ret, throw; simpl.
    fold wl. rewrite Hsave. simpl. apply lookup_insert_eq. }
  split; [exact Hstore|]. split; [reflexivity|].
  destruct (initialize_registry X (restart w')) as [-> _].
  destruct (Hload (set_trace (trace (restart w') ++ [Registry CallInitialize])
                     (restart w'))) as (_ & _ & ->); [exact Hdec|].
  unfold loadedWallet. simpl. rewrite Hstore.
  rewrite decide_False by exact Hne. by rewrite Hkey.
Qed.

Lemma stored_wallets_are_loaded_witness :
  wallets (run (initialize sampleExt) (restart walletWorld)) ETHEREUM
  = Some sampleWallet.
Proof.
  destruct (stored_wallets_are_loaded sampleExt (fun _ _ => eq_refl)) as [_ H].
  apply (H startedWorld ETHEREUM); try reflexivity; try discriminate.
  intros c' pk Hs Hne. destruct c'; vm_compute in Hs; try discriminate.
  injection Hs as <-. by eexists.
Defined.

(** ** Loading stops at the first key that fails *)

Lemma loadOne_corrupt (X : Ext) (c : ChainType) (pk : string) (w : World) :
  storage w !! walletKey c = Some pk -> pk <> "" -> newWallet X pk = None ->
  exists e w',
    loadOne X c w = (Err e, w')
    /\ storage w' = storage w /\ wallets w' = wallets w.
Proof.
  intros Hs Hne Hnew.
  unfold loadOne, bind, external, read, lift, update, throw, ret; simpl.
  destruct (getItemFails X _ _); simpl; [by eexists _, _|].
  rewrite Hs; simpl. destruct (decide (pk = "")); [done|].
  rewrite Hnew; simpl. by eexists _, _.
Qed.

Lemma chainsAfter_subseteq (c c' : ChainType) (l : list ChainType) :
  c' ∈ chainsAfter c l -> c' ∈ l.
Proof.
  induction l as [|x l IH]; simpl; [done|].
  destruct (decide (x = c)); intros H; right; auto.
Qed.

Lemma load_loop_stops (X : Ext) (c : ChainType) (pk : string)
    (l : list ChainType) :
  NoDup l -> c ∈ l -> pk <> "" -> newWallet X pk = None ->
  forall w, storage w !! walletKey c = Some pk ->
  exists e w',
    foldM (fun (_ : unit) c => loadOne X c) tt l w = (Err e, w')
    /\ storage w' = storage w
    /\ forall c', c' = c \/ c' ∈ chainsAfter c l -> wallets w' c' = wallets w c'.
Proof.
  intros Hnd Hin Hne Hnew.
  induction l as [|x l IH]; intros w Hs; [by apply elem_of_nil in Hin|].
  apply NoDup_cons in Hnd as [Hx Hnd].
  simpl. unfold bind.
  destruct (decide (x = c)) as [->|Hxc].
  - destruct (loadOne_corrupt X c pk w Hs Hne Hnew) as (e & w' & -> & Hst & Hw).
    exists e, w'. split; [reflexivity|]. split; [exact Hst|].
    intros c' _. by rewrite Hw.
  - apply elem_of_cons in Hin as [->|Hin]; [done|].
    destruct (loadOne_frame X x w) as (r & w1 & -> & Hs1 & Hother & Herr).
    destruct r as [[]|e].
    + destruct (IH Hnd Hin w1) as (e & w' & -> & Hs2 & Hw);
        [by rewrite Hs1|].
      exists e, w'. split; [reflexivity|]. split; [congruence|].
      intros c' Hc'. rewrite (Hw c' Hc'). apply Hother.
      intros ->. apply Hx.
      destruct Hc' as [->|Hc']; [exact Hin|].
      by apply chainsAfter_subseteq in Hc'.
    + exists e, w1. split; [reflexivity|]. split; [exact Hs1|].
      intros c' _. by rewrite (Herr e eq_refl).
Qed.

Lemma ChainType_values_NoDup : NoDup ChainType_values.
Proof. by apply (bool_decide_unpack _). Qed.

(** X3. A stored key that does not decode ends the loop of [loadWallets]:
    whatever the store answers for the other chains, the method still
    returns normally, its last act is the console error, and neither the
    chain of that key nor any chain after it in [Object.values(ChainType)]
    gets a wallet from the store, valid as its own stored key may be.  So
    [initialize] on a new process leaves those chains without a wallet. *)
Theorem undecodable_key_ends_the_load
    (X : Ext) (c : ChainType) (pk : string) (w : World) :
  storage w !! walletKey c = Some pk ->
  pk <> "" ->
  newWallet X pk = None ->
  let w' := run (loadWallets X) w in
  result (loadWallets X) w = Ok tt
  /\ last (trace w') = Some (ConsoleError "Failed to load wallets:")
  /\ storage w' = storage w
  /\ (forall c', c' = c \/ c' ∈ chainsAfter c ChainType_values ->
                 wallets w' c' = wallets w c')
  /\ (forall c', c' = c \/ c' ∈ chainsAfter c ChainType_values ->
                 result (initialize X) (restart w) = Ok tt
                 /\ wallets (run (initialize X) (restart w)) c' = None).
Proof.
  intros Hs Hne Hnew.
  assert (Hload : forall w0, storage w0 !! walletKey c = Some pk ->
             result (loadWallets X) w0 = Ok tt
             /\ last (trace (run (loadWallets X) w0))
                = Some (ConsoleError "Failed to load wallets:")
             /\ storage (run (loadWallets X) w0) = storage w0
             /\ (forall c', c' = c \/ c' ∈ chainsAfter c ChainType_values ->
                   wallets (run (loadWallets X) w0) c' = wallets w0 c')).
  { intros w0 Hs0. rewrite loadWallets_loop. unfold result, run, try_catch.
    destruct (load_loop_stops X c pk ChainType_values ChainType_values_NoDup
                (all_chains c) Hne Hnew w0 Hs0) as (e & w1 & -> & Hst & Hw).
    simpl. split; [reflexivity|]. split; [apply last_snoc|].
    split; [exact Hst | exact Hw]. }
  destruct (Hload w Hs) as (Hr & Hl & Hst & Hw).
  split; [exact Hr|]. split; [exact Hl|]. split; [exact Hst|].
  split; [exact Hw|].
  intros c' Hc'.
  destruct (initialize_registry X (restart w)) as [Hiw _].
  split.
  - unfold result, initialize, bind; simpl.
    match goal with
    | |- context [loadWallets X ?w0] =>
        pose proof (loadWallets_returns X w0) as Hret;
        destruct (loadWallets X w0) as [r w1]
    end.
    simpl in Hret. subst r. reflexivity.
  - rewrite Hiw.
    match goal with
    | |- wallets (run (loadWallets X) ?w0) c' = None =>
        destruct (Hload w0 Hs) as (_ & _ & _ & Hw0)
    end.
    by rewrite (Hw0 c' Hc').
Qed.

Lemma undecodable_key_ends_the_load_witness :
  wallets (run (initialize sampleExt) (restart corruptStoreWorld)) POLYGON = None
  /\ newWallet sampleExt "0x0123" = Some sampleWallet.
Proof.
  split; [|reflexivity].
  apply (undecodable_key_ends_the_load sampleExt ETHEREUM "not a key"
           corruptStoreWorld); [reflexivity | discriminate | reflexivity |].
  right. apply list_elem_of_here.
Defined.

(** ** What is written to the registry and to the store *)

#[global] Instance registryGrows_refl : Reflexive registryGrows.
Proof. intros w. by repeat split. Qed.

#[global] Instance registryGrows_trans : Transitive registryGrows.
Proof.
  intros a b c (Hw1 & Hs1 & Ho1) (Hw2 & Hs2 & Ho2). repeat split.
  - intros k H. by apply Hw2, Hw1.
  - intros k H. by apply Hs2, Hs1.
  - intros k H. by rewrite Ho2, Ho1.
Qed.

Lemma registryGrows_same (w w' : World) :
  wallets w' = wallets w -> storage w' = storage w -> registryGrows w w'.
Proof. intros Hw Hs. unfold registryGrows. rewrite Hw, Hs. by repeat split. Qed.

Lemma registryGrows_assign (c : ChainType) (wl : Wallet) (w : World) :
  registryGrows w (set_wallets (assign c wl (wallets w)) w).
Proof.
  repeat split; try done. simpl. intros c' H. unfold assign.
  destruct (decide (c' = c)); [by eexists | exact H].
Qed.

Lemma registryGrows_insert (c : ChainType) (key : string) (w : World) :
  registryGrows w (set_storage (<[walletKey c := key]> (storage w)) w).
Proof.
  repeat split; try done; simpl.
  - intros k H. destruct (decide (k = walletKey c)) as [->|Hk].
    + rewrite lookup_insert_eq. by eexists.
    + by rewrite lookup_insert_ne.
  - intros k H. rewrite lookup_insert_ne; [reflexivity|]. intros E.
    by apply (H c).
Qed.

Lemma registry_emit (e : Event) : holds registryGrows (emit e).
Proof. intros w. by apply registryGrows_same. Qed.

Lemma registry_external (e : Event) : holds registryGrows (external e).
Proof. intros w. by apply registryGrows_same. Qed.

Lemma untouched_emit (e : Event) : keeps registryAndStore (emit e).
Proof. intros w; reflexivity. Qed.

Lemma untouched_external (e : Event) : keeps registryAndStore (external e).
Proof. intros w; reflexivity. Qed.

Ltac registry_frame :=
  repeat first
    [ apply registry_emit | apply registry_external
    | frame_step
    | apply registryGrows_assign | apply registryGrows_insert
    | by apply registryGrows_same ].

Ltac untouched_frame :=
  repeat first
    [ apply untouched_emit | apply untouched_external
    | frame_step | by hnf ].

Section Registry.

Variable X : Ext.
Variable walletClient : option Web3Wallet.

Lemma loadWallets_registry : holds registryGrows (loadWallets X).
Proof. unfold loadWallets. registry_frame. Qed.

Lemma saveWallet_registry c key : holds registryGrows (saveWallet X c key).
Proof. unfold saveWallet. registry_frame. Qed.

Lemma initialize_registryGrows : holds registryGrows (initialize X).
Proof.
  unfold initialize, setupProviders.
  repeat first [ apply loadWallets_registry | progress registry_frame ].
Qed.

Lemma createWallet_registry c : holds registryGrows (createWallet X c).
Proof.
  unfold createWallet.
  repeat first [ apply saveWallet_registry | progress registry_frame ].
Qed.

Lemma importWallet_registry c key : holds registryGrows (importWallet X c key).
Proof.
  unfold importWallet.
  repeat first [ apply saveWallet_registry | progress registry_frame ].
Qed.

Lemma importWalletFromMnemonic_registry c mnemonic :
  holds registryGrows (importWalletFromMnemonic X c mnemonic).
Proof.
  unfold importWalletFromMnemonic.
  repeat first [ apply saveWallet_registry | progress registry_frame ].
Qed.

Lemma getWalletAddress_untouched c : keeps registryAndStore (getWalletAddress c).
Proof. unfold getWalletAddress. untouched_frame. Qed.

Lemma hasWallet_untouched c : keeps registryAndStore (hasWallet c).
Proof. unfold hasWallet. untouched_frame. Qed.

Lemma getBalance_untouched c n : keeps registryAndStore (getBalance X c n).
Proof. unfold getBalance, getProvider. untouched_frame. Qed.

Lemma getTokenBalances_untouched c n :
  keeps registryAndStore (getTokenBalances X c n).
Proof. unfold getTokenBalances, getAlchemyInstance. untouched_frame. Qed.

Lemma sendTransaction_untouched c n to amount :
  keeps registryAndStore (sendTransaction X c n to amount).
Proof. unfold sendTransaction, getProvider. untouched_frame. Qed.

Lemma signMessage_untouched c msg : keeps registryAndStore (signMessage X c msg).
Proof. unfold signMessage. untouched_frame. Qed.

Lemma getTransactionHistory_untouched c n :
  keeps registryAndStore (getTransactionHistory X c n).
Proof. unfold getTransactionHistory, getAlchemyInstance. untouched_frame. Qed.

Lemma alert_untouched d : keeps registryAndStore (alert d).
Proof. unfold alert. untouched_frame. Qed.

Lemma handleSessionProposal_untouched p :
  keeps registryAndStore (handleSessionProposal X walletClient p).
Proof.
  unfold handleSessionProposal, approveSession.
  repeat first [ apply hasWallet_untouched | apply getWalletAddress_untouched
               | apply alert_untouched | progress untouched_frame ].
Qed.

Lemma handleSessionRequest_untouched r :
  keeps registryAndStore (handleSessionRequest walletClient r).
Proof.
  unfold handleSessionRequest, rejectSession.
  repeat first [ apply alert_untouched | progress untouched_frame ].
Qed.

Lemma handleEthereumRequest_untouched d :
  keeps registryAndStore (handleEthereumRequest d).
Proof.
  unfold handleEthereumRequest, injectJavaScript.
  repeat first [ apply hasWallet_untouched | apply getWalletAddress_untouched
               | apply alert_untouched | progress untouched_frame ].
Qed.

(** What keeps the registry and the store as they are lets them grow. *)
Lemma untouched_grows {A} (m : M A) :
  keeps registryAndStore m -> holds registryGrows m.
Proof.
  intros H w. specialize (H w). unfold unchanged, registryAndStore in H.
  injection H as Hw Hs. by apply registryGrows_same.
Qed.

Lemma press_registry a : holds registryGrows (press X walletClient a).
Proof.
  destruct a; unfold press, rejectSession, respondSessionRequest, injectJavaScript.
  all: repeat first
         [ apply createWallet_registry
         | apply untouched_grows, handleSessionProposal_untouched
         | apply untouched_grows, sendTransaction_untouched
         | apply untouched_grows, signMessage_untouched
         | apply untouched_grows, alert_untouched
         | progress registry_frame ].
Qed.

Lemma tap_registry n label : holds registryGrows (tap X walletClient n label).
Proof.
  unfold tap.
  repeat first [ apply press_registry | progress registry_frame ].
Qed.

Lemma perform_untouched (o : Operation) (w : World) :
  writesRegistry o = false ->
  registryAndStore (perform X walletClient w o) = registryAndStore w.
Proof.
  intros Ho. destruct o as [| | | | | | | | | | |i]; simpl in *; try discriminate.
  - apply getWalletAddress_untouched.
  - apply hasWallet_untouched.
  - apply getBalance_untouched.
  - apply getTokenBalances_untouched.
  - apply sendTransaction_untouched.
  - apply signMessage_untouched.
  - apply getTransactionHistory_untouched.
  - destruct i; simpl in *; try discriminate; unfold step, handle.
    + apply handleSessionProposal_untouched.
    + apply handleSessionRequest_untouched.
    + apply handleEthereumRequest_untouched.
Qed.

Lemma perform_registry (o : Operation) (w : World) :
  registryGrows w (perform X walletClient w o).
Proof.
  destruct (writesRegistry o) eqn:Ho.
  - destruct o as [| | | | | | | | | | |i]; simpl in *; try discriminate.
    + apply initialize_registryGrows.
    + apply createWallet_registry.
    + apply importWallet_registry.
    + apply importWalletFromMnemonic_registry.
    + destruct i; simpl in *; try discriminate. apply tap_registry.
  - pose proof (perform_untouched o w Ho) as H.
    unfold registryAndStore in H. injection H as Hw Hs.
    by apply registryGrows_same.
Qed.

End Registry.

(** X4. Whatever was done and in whatever order, no wallet has left the
    registry and no entry has left the store, though either may have been
    replaced; and the store was written under the keys
    [wallet_<chainType>] only. *)
Theorem registry_and_store_only_grow
    (X : Ext) (walletClient : option Web3Wallet) (ops : list Operation)
    (w : World) :
  registryGrows w (foldl (perform X walletClient) w ops)
  /\ forall c, result (hasWallet c) w = Ok true ->
               result (hasWallet c) (foldl (perform X walletClient) w ops)
               = Ok true.
Proof.
  assert (H : registryGrows w (foldl (perform X walletClient) w ops)).
  { revert w. induction ops as [|o ops IH]; intros w; simpl; [reflexivity|].
    etransitivity; [apply perform_registry | apply IH]. }
  split; [exact H|].
  intros c Hc. apply hasWallet_true. apply hasWallet_true in Hc.
  destruct H as [Hw _]. by apply Hw.
Qed.

(** X5. Only [initialize], [createWallet], the two imports and a tap on a
    button write the registry or the store: the look-ups, the balance and
    history queries, [sendTransaction] and [signMessage], a session
    proposal, a session request and a message of the page all leave every
    wallet and every stored entry as it was, whether they return or
    throw. *)
Theorem queries_and_events_write_nothing
    (X : Ext) (walletClient : option Web3Wallet) (o : Operation) (w : World) :
  writesRegistry o = false ->
  wallets (perform X walletClient w o) = wallets w
  /\ storage (perform X walletClient w o) = storage w.
Proof.
  intros Ho. pose proof (perform_untouched X walletClient o w Ho) as H.
  unfold registryAndStore in H. by injection H.
Qed.

Lemma queries_and_events_write_nothing_witness :
  wallets (perform sampleExt (Some web3wallet) walletWorld
             (SendTransaction ETHEREUM ETH_MAINNET (JsString "0xDEF")
                (JsString "1")))
  = wallets walletWorld
  /\ storage (perform sampleExt (Some web3wallet) walletWorld
                (SendTransaction ETHEREUM ETH_MAINNET (JsString "0xDEF")
                   (JsString "1")))
     = storage walletWorld.
Proof.
  apply (queries_and_events_write_nothing sampleExt (Some web3wallet)
           (SendTransaction ETHEREUM ETH_MAINNET (JsString "0xDEF")
              (JsString "1")) walletWorld).
  reflexivity.
Defined.

Lemma registry_and_store_only_grow_witness :
  result (hasWallet ETHEREUM)
    (foldl (perform sampleExt (Some web3wallet)) walletWorld
       [CreateWallet POLYGON; Initialize]) = Ok true.
Proof.
  apply (registry_and_store_only_grow sampleExt (Some web3wallet)
           [CreateWallet POLYGON; Initialize] walletWorld).
  reflexivity.
Defined.

(** ** Starting up *)

Lemma keeps_emit {O} (obs : World -> O) (e : Event) :
  (forall w tr, obs (set_trace tr w) = obs w) -> keeps obs (emit e).
Proof. intros H w. apply H. Qed.

Lemma keeps_external {O} (obs : World -> O) (e : Event) :
  (forall w tr, obs (set_trace tr w) = obs w) ->
  (forall w t, obs (set_clock t w) = obs w) ->
  keeps obs (external e).
Proof. intros H H' w. unfold unchanged, external; simpl. by rewrite H', H. Qed.

Ltac keeps_frame :=
  repeat first
    [ apply keeps_emit; reflexivity
    | apply keeps_external; reflexivity
    | frame_step | by hnf ].

Lemma loadWallets_storage (X : Ext) : keeps storage (loadWallets X).
Proof. unfold loadWallets. keeps_frame. Qed.

Lemma loadWallets_dialogs (X : Ext) : keeps dialogs (loadWallets X).
Proof. unfold loadWallets. keeps_frame. Qed.

Lemma loadWallets_no_client (X : Ext) :
  holds (grows (fun e => isClientCall e = false)) (loadWallets X).
Proof. unfold loadWallets. quiet_with ltac:(reflexivity). Qed.

Lemma initialize_run (X : Ext) (w : World) :
  exists w1,
    initialize X w = (Ok tt, run setupProviders w1)
    /\ tables w1 = tables w /\ storage w1 = storage w
    /\ dialogs w1 = dialogs w
    /\ clientCalls (trace w1) = clientCalls (trace w).
Proof.
  unfold initialize, bind. simpl.
  set (w0 := set_trace (trace w ++ [Registry CallInitialize]) w).
  pose proof (loadWallets_returns X w0) as Hr.
  pose proof (loadWallets_tables X w0) as Ht.
  pose proof (loadWallets_storage X w0) as Hs.
  pose proof (loadWallets_dialogs X w0) as Hd.
  pose proof (grows_filter isClientCall _ _ (loadWallets_no_client X w0)) as Hc.
  unfold unchanged in *.
  destruct (loadWallets X w0) as [r w1]. simpl in *. subst r.
  exists w1. split; [reflexivity|]. split; [exact Ht|]. split; [exact Hs|].
  split; [exact Hd|].
  fold (clientCalls (trace w1)) in Hc. rewrite Hc.
  rewrite <- (app_nil_r (clientCalls (trace w))). apply (clientCalls_app (trace w)).
Qed.

Lemma clientKey_ne (c c' : ChainType) (n n' : Network) :
  (c, n) <> (c', n') -> clientKey c n <> clientKey c' n'.
Proof. intros H E. apply clientKey_inj in E as [-> ->]. by apply H. Qed.

(** X6. [initialize] returns normally in every state and whatever the
    store and the key decoder answer; it opens no dialog, calls no chain
    client and leaves the store as it was.  After it each of the four pairs
    of [setupProviders] has a provider and an indexer client, the latter
    configured for the network of the pair, and no other table key has
    changed. *)
Theorem initialize_always_completes (X : Ext) (w : World) :
  let w' := run (initialize X) w in
  result (initialize X) w = Ok tt
  /\ storage w' = storage w
  /\ dialogs w' = dialogs w
  /\ clientCalls (trace w') = clientCalls (trace w)
  /\ (forall c n, (c, n) ∈ registeredPairs ->
        exists p a,
          result (getProvider c n) w' = Ok p
          /\ result (getAlchemyInstance c n) w' = Ok a
          /\ alchemy_network a = n)
  /\ (forall c n, (c, n) ∉ registeredPairs ->
        providers w' !! clientKey c n = providers w !! clientKey c n
        /\ alchemyInstances w' !! clientKey c n
           = alchemyInstances w !! clientKey c n).
Proof.
  intros w'. subst w'. unfold result, run.
  destruct (initialize_run X w) as (w1 & -> & Ht & Hs & Hd & Hc). simpl.
  split; [reflexivity|]. split; [exact Hs|]. split; [exact Hd|].
  split; [exact Hc|]. split.
  - intros c n H. unfold registeredPairs in H.
    unfold getProvider, getAlchemyInstance, setupProviders, bind, update, read;
      simpl.
    repeat (apply elem_of_cons in H as [[= -> ->]|H];
            [eexists _, _;
             repeat (first [ rewrite lookup_insert_eq
                           | rewrite lookup_insert_ne
                               by (apply clientKey_ne; discriminate) ]);
             simpl; by repeat split|]).
    by apply elem_of_nil in H.
  - intros c n H. injection Ht as Hp Ha.
    unfold setupProviders, bind, update; simpl. rewrite <- Hp, <- Ha.
    rewrite !lookup_insert_ne; [done|..].
    all: intros E; apply clientKey_inj in E as [<- <-]; apply H;
         unfold registeredPairs;
         repeat first [ apply list_elem_of_here | apply list_elem_of_further ].
Qed.

Lemma initialize_always_completes_witness :
  exists p a,
    result (getProvider POLYGON MATIC_MUMBAI)
      (run (initialize sampleExt) corruptStoreWorld) = Ok p
    /\ result (getAlchemyInstance POLYGON MATIC_MUMBAI)
         (run (initialize sampleExt) corruptStoreWorld) = Ok a
    /\ alchemy_network a = MATIC_MUMBAI.
Proof.
  destruct (initialize_always_completes sampleExt corruptStoreWorld)
    as (_ & _ & _ & _ & H & _).
  apply (H POLYGON MATIC_MUMBAI).
  unfold registeredPairs.
  repeat first [ apply list_elem_of_here | apply list_elem_of_further ].
Defined.

(** ** Sending *)

(** X7. [sendTransaction] for a chain with a wallet, on a pair with a
    provider: an amount that [parseEther] refuses makes it throw before the
    signer is asked anything; otherwise the signer is asked exactly once,
    and if it answers, the transaction returned carries its hash, the
    address of the wallet, the [to] and the amount exactly as they were
    passed, the chain and the network, and the status pending; if it
    refuses, the error is passed on. *)
Theorem sendTransaction_outcomes
    (X : Ext) (c : ChainType) (n : Network) (recipient amount : JsVal)
    (wl : Wallet) (p : Provider) (w : World) :
  wallets w c = Some wl ->
  providers w !! clientKey c n = Some p ->
  let w' := run (sendTransaction X c n recipient amount) w in
  let r := result (sendTransaction X c n recipient amount) w in
  (parseEther X amount = None ->
     r = Err (ExternalFailure "ethers.utils.parseEther")
     /\ clientCalls (trace w') = clientCalls (trace w))
  /\ (forall wei, parseEther X amount = Some wei ->
        clientCalls (trace w')
        = clientCalls (trace w)
            ++ [ProviderSendTransaction p (wallet_address wl) recipient amount]
        /\ (forall txHash,
              signerSendTransaction X (clock w) p wl recipient wei = Some txHash ->
              exists tx,
                r = Ok tx /\ hash tx = txHash /\ from tx = wallet_address wl
                /\ to tx = recipient /\ tx_value tx = amount
                /\ status tx = pending
                /\ chainType tx = c /\ network tx = n)
        /\ (signerSendTransaction X (clock w) p wl recipient wei = None ->
              r = Err (ExternalFailure "connectedWallet.sendTransaction"))).
Proof.
  intros Hw Hp w' r. subst w' r. revert Hp.
  unfold result, run, sendTransaction, getProvider, bind, emit, external,
    update, read, lift, ret, throw.
  generalize (clientKey c n). intros k Hp. simpl.
  rewrite Hw; simpl. rewrite Hp; simpl. split.
  - intros ->. simpl. split; [reflexivity|].
    rewrite clientCalls_app. apply app_nil_r.
  - intros wei ->. simpl. split; [|split].
    + destruct (signerSendTransaction X _ _ _ _ _); simpl;
        rewrite !clientCalls_app; simpl; by rewrite app_nil_r.
    + intros txHash ->. simpl. eexists. by repeat split.
    + intros ->. reflexivity.
Qed.

Lemma sendTransaction_outcomes_witness :
  result (sendTransaction sampleExt ETHEREUM ETH_MAINNET (JsString "0xDEF")
            JsUndefined) walletWorld
  = Err (ExternalFailure "ethers.utils.parseEther")
  /\ exists tx,
       result (sendTransaction sampleExt ETHEREUM ETH_MAINNET (JsString "0xDEF")
                 (JsString "1")) walletWorld = Ok tx
       /\ status tx = pending.
Proof.
  split.
  - pose proof (sendTransaction_outcomes sampleExt ETHEREUM ETH_MAINNET
                  (JsString "0xDEF") JsUndefined sampleWallet
                  (DefaultProvider "mainnet") walletWorld eq_refl eq_refl)
      as [H _].
    by apply H.
  - pose proof (sendTransaction_outcomes sampleExt ETHEREUM ETH_MAINNET
                  (JsString "0xDEF") (JsString "1") sampleWallet
                  (DefaultProvider "mainnet") walletWorld eq_refl eq_refl)
      as [_ H].
    destruct (H "1" eq_refl) as (_ & Hok & _).
    destruct (Hok "0xhash" eq_refl) as (tx & Hr & _ & _ & _ & _ & Hs & _).
    exists tx. by split.
Defined.

(** ** Token balances and history *)

(** What every entry of a token list satisfies. *)
Lemma tokenOf_defaults (c : ChainType) (tb : RawTokenBalance)
    (metadata : TokenMetadata) :
  let t := tokenOf c tb metadata in
  tk_chainType t = c /\ address t = contractAddress tb
  /\ decimals t <> 0 /\ symbol t <> "" /\ name t <> "".
Proof.
  unfold tokenOf, orElse; simpl. repeat split.
  - destruct (md_decimals metadata) as [d|]; [|done].
    by destruct (decide (d = 0)).
  - destruct (md_symbol metadata) as [s|]; [|done].
    by destruct (decide (s = "")).
  - destruct (md_name metadata) as [s|]; [|done].
    by destruct (decide (s = "")).
Qed.

Section TokenLoop.

Variable X : Ext.
Variable c : ChainType.
Variable alchemy : Alchemy.

(** The body of the loop of [getTokenBalances] (lines 154-170). *)
Let body (balances : list TokenBalance) (tb : RawTokenBalance)
    : M (list TokenBalance) :=
  if truthy (tokenBalance tb) then
    let* t := external (AlchemyGetTokenMetadata alchemy (contractAddress tb)) in
    let* metadata := lift "alchemy.core.getTokenMetadata"
         (coreGetTokenMetadata X t alchemy (contractAddress tb)) in
    let* formatted := lift "formatEther"
         (formatEther X (default "" (tokenBalance tb))) in
    ret (app balances [ {| token := tokenOf c tb metadata;
                            balance := formatted;
                            value := "0.00" |} ])
  else ret balances.

Let wellFormed (b : TokenBalance) : Prop :=
  value b = "0.00" /\ tk_chainType (token b) = c
  /\ decimals (token b) <> 0 /\ symbol (token b) <> "" /\ name (token b) <> "".

Lemma token_loop_shape (raw : list RawTokenBalance) :
  forall acc w res w',
    foldM body acc raw w = (Ok res, w') ->
    exists new,
      res = acc ++ new /\ Forall wellFormed new
      /\ map (fun b => address (token b)) new
         = map contractAddress
             (List.filter (fun tb => truthy (tokenBalance tb)) raw).
Proof.
  induction raw as [|tb raw IH]; intros acc w res w' H; simpl in H.
  - injection H as <- <-. exists []. by rewrite app_nil_r.
  - unfold bind in H. destruct (body acc tb w) as [[acc1|e] w1] eqn:Hb;
      [|discriminate].
    apply IH in H as (new & -> & Hwf & Hmap).
    unfold body in Hb. simpl. destruct (truthy (tokenBalance tb)).
    + unfold bind, external, lift, ret, throw in Hb; simpl in Hb.
      destruct (coreGetTokenMetadata X _ _ _) as [metadata|]; [|discriminate].
      simpl in Hb.
      destruct (formatEther X _) as [formatted|]; [|discriminate].
      injection Hb as <- <-.
      eexists (_ :: new). split; [by rewrite <- app_assoc|]. split.
      * constructor; [|exact Hwf].
        destruct (tokenOf_defaults c tb metadata) as (? & ? & ? & ? & ?).
        by repeat split.
      * simpl. by rewrite Hmap.
    + injection Hb as <- <-. by exists new.
Qed.


End TokenLoop.



(** The loop that [map] runs over the transfers. *)
Lemma history_loop (X : Ext) (c : ChainType) (n : Network) (now : Z)
    (history : list AssetTransfer) (acc : list Transaction) (w : World) :
  foldM (fun acc transfer =>
           match transactionOf X c n now transfer with
           | Some tx => ret (app acc [tx])
           | None => throw TypeError
           end) acc history w
  = match mapM (transactionOf X c n now) history with
    | Some txs => (Ok (acc ++ txs), w)
    | None => (Err TypeError, w)
    end.
Proof.
  revert acc. induction history as [|t history IH]; intros acc; simpl.
  - by rewrite app_nil_r.
  - unfold bind. destruct (transactionOf X c n now t) as [tx|]; simpl;
      [|reflexivity].
    rewrite IH. unfold mbind, option_bind.
    destruct (mapM _ history); simpl; [|reflexivity].
    by rewrite <- app_assoc.
Qed.

Lemma transactionOf_shape (X : Ext) (c : ChainType) (n : Network) (now : Z)
    (t : AssetTransfer) (tx : Transaction) :
  transactionOf X c n now t = Some tx ->
  hash tx = tr_hash t /\ status tx = confirmed
  /\ chainType tx = c /\ network tx = n.
Proof.
  unfold transactionOf. destruct (tr_metadata t); [|discriminate].
  intros [= <-]. by repeat split.
Qed.

(** X9. [getTransactionHistory] on ethereum or polygon, with a wallet and
    an indexer client: if one of the transfers the indexer returns carries
    no metadata, the whole query throws a TypeError and no history is
    returned; if all of them do, the list returned has one transaction per
    transfer, in order and with the transfer's hash, each of them
    confirmed and on the chain and network that were asked for. *)
Theorem history_needs_metadata_on_every_transfer
    (X : Ext) (c : ChainType) (n : Network) (wl : Wallet) (a : Alchemy)
    (w : World) (history : list AssetTransfer) :
  c = ETHEREUM \/ c = POLYGON ->
  wallets w c = Some wl ->
  alchemyInstances w !! clientKey c n = Some a ->
  coreGetAssetTransfers X (clock w) a (wallet_address wl) = Some history ->
  let r := result (getTransactionHistory X c n) w in
  ((exists t, t ∈ history /\ tr_metadata t = None) -> r = Err TypeError)
  /\ ((forall t, t ∈ history -> is_Some (tr_metadata t)) ->
      exists txs,
        r = Ok txs
        /\ map hash txs = map tr_hash history
        /\ Forall (fun tx => status tx = confirmed
                             /\ chainType tx = c /\ network tx = n) txs).
Proof.
  intros Hc Hw Ha Hh r. subst r. revert Ha.
  unfold result, getTransactionHistory, getAlchemyInstance, bind, emit,
    external, update, read, lift, ret, throw.
  generalize (clientKey c n). intros k Ha. simpl.
  rewrite Hw; simpl. rewrite decide_True by exact Hc. simpl.
  rewrite Ha; simpl. rewrite Hh; simpl.
  rewrite history_loop. simpl.
  set (now := dateNow X (S (clock w))).
  split.
  - intros (t & Hin & Hnone).
    assert (Hm : mapM (transactionOf X c n now) history = None).
    { apply eq_None_not_Some. intros [txs Hs]. apply mapM_Some in Hs.
      apply list_elem_of_lookup_1 in Hin as [i Hi].
      destruct (Forall2_lookup_l _ _ _ _ _ Hs Hi) as (tx & _ & Htx).
      unfold transactionOf in Htx. by rewrite Hnone in Htx. }
    by rewrite Hm.
  - intros Hall.
    assert (Hm : is_Some (mapM (transactionOf X c n now) history)).
    { apply mapM_is_Some. apply Forall_forall. intros t Hin.
      destruct (Hall t Hin) as [ts Hts]. unfold compose, transactionOf.
      rewrite Hts. by eexists. }
    destruct Hm as [txs Hm]. rewrite Hm. exists txs.
    split; [reflexivity|].
    apply mapM_Some in Hm. clear -Hm.
    induction Hm as [|t tx history txs Ht _ [IH1 IH2]]; [by split|].
    apply transactionOf_shape in Ht as (Hhash & Hrest).
    split; [simpl; by rewrite Hhash, IH1 | by constructor].
Qed.

Lemma history_needs_metadata_on_every_transfer_witness :
  result (getTransactionHistory indexerExt ETHEREUM ETH_MAINNET) walletWorld
  = Err TypeError.
Proof.
  destruct (history_needs_metadata_on_every_transfer indexerExt ETHEREUM
              ETH_MAINNET sampleWallet
              {| apiKey := YOUR_ALCHEMY_API_KEY; alchemy_network := ETH_MAINNET |}
              walletWorld _ (or_introl eq_refl) eq_refl eq_refl eq_refl)
    as [H _].
  apply H. eexists. split; [apply list_elem_of_here | reflexivity].
Defined.

(** ** The page asks for the accounts *)

Lemma createWallet_dialogs (X : Ext) c : keeps dialogs (createWallet X c).
Proof. unfold createWallet, saveWallet. keeps_frame. Qed.

Lemma press_AccountsCreateWallet_eq (X : Ext) walletClient (id : Z) (w : World) :
  let wl := createRandom X (clock w) in
  let w1 := run (createWallet X ETHEREUM) w in
  press X walletClient (AccountsCreateWallet id) w
  = (Ok tt,
     set_clock (S (clock w1))
       (set_trace (trace w1 ++ [InjectJavaScript
                                  (PageResult id [wallet_address wl])]) w1)).
Proof.
  intros wl w1. subst wl w1.
  destruct (createWallet_registers X ETHEREUM w) as [Hr _].
  unfold press, try_catch, bind, injectJavaScript, external, ret, result, run
    in *.
  destruct (createWallet X ETHEREUM w) as [r w1]. simpl in *. by subst r.
Qed.

Lemma press_AccountsCreateWallet_run (X : Ext) walletClient (id : Z) (w : World) :
  let wl := createRandom X (clock w) in
  let w' := run (press X walletClient (AccountsCreateWallet id)) w in
  wallets w' ETHEREUM = Some wl
  /\ dialogs w' = dialogs w
  /\ last (trace w')
     = Some (InjectJavaScript (PageResult id [wallet_address wl])).
Proof.
  intros wl w'. subst wl w'. unfold run.
  rewrite press_AccountsCreateWallet_eq. simpl.
  destruct (createWallet_registers X ETHEREUM w) as [_ Hw].
  split; [exact Hw|]. split; [apply createWallet_dialogs | apply last_snoc].
Qed.

(** X10. [eth_requestAccounts] from the page while there is no ethereum
    wallet discloses nothing: it only opens the Wallet Required dialog.
    Tapping Cancel closes the dialog and does nothing else, so the page is
    never answered; tapping Create Wallet creates the ethereum wallet and
    answers the page, under the id of its request, with the address of the
    new wallet. *)
Theorem accounts_request_without_wallet
    (X : Ext) (walletClient : option Web3Wallet) (data : PageRequest)
    (w : World) :
  data_method data = "eth_requestAccounts" ->
  wallets w ETHEREUM = None ->
  let d := accountsWalletRequiredDialog (data_id data) in
  let n := length (dialogs w) in
  let w1 := step X walletClient w (PageMessage data) in
  let cancelled := step X walletClient w1 (Tap n "Cancel") in
  let created := step X walletClient w1 (Tap n "Create Wallet") in
  let wl := createRandom X (clock w) in
  (added w w1 = [Registry (CallHasWallet ETHEREUM); AlertShown d]
   /\ dialogs w1 = dialogs w ++ [d]
   /\ wallets w1 = wallets w)
  /\ (added w1 cancelled = [Tapped d "Cancel"]
      /\ dialogs cancelled = dialogs w
      /\ wallets cancelled = wallets w)
  /\ (wallets created ETHEREUM = Some wl
      /\ dialogs created = dialogs w
      /\ last (trace created)
         = Some (InjectJavaScript
                   (PageResult (data_id data) [wallet_address wl]))).
Proof.
  intros Hm Hw d n w1 cancelled created wl.
  assert (H1 : w1 = set_dialogs (dialogs w ++ [d])
                      (set_trace (trace w ++ [Registry (CallHasWallet ETHEREUM);
                                              AlertShown d]) w)).
  { subst w1. unfold step, run, handle, handleEthereumRequest.
    rewrite decide_True by exact Hm.
    unfold hasWallet, alert, bind, emit, update, read, ret; simpl.
    rewrite Hw; simpl. by rewrite <- app_assoc. }
  assert (Hd1 : dialogs w1 = dialogs w ++ [d]) by (by rewrite H1).
  split; [|split].
  - rewrite H1. unfold added; simpl. by rewrite drop_app_length.
  - subst cancelled n. unfold step, run, handle.
    rewrite (tap_last X walletClient d "Cancel"
               {| text := "Cancel"; onPress := None |} w1 (dialogs w) Hd1 eq_refl).
    simpl. unfold added; simpl. rewrite drop_app_length.
    by rewrite H1.
  - subst created n. unfold step, run, handle.
    rewrite (tap_last X walletClient d "Create Wallet"
               {| text := "Create Wallet";
                  onPress := Some (AccountsCreateWallet (data_id data)) |}
               w1 (dialogs w) Hd1 eq_refl).
    cbn [onPress].
    match goal with
    | |- context [press X walletClient ?a ?w0] =>
        destruct (press_AccountsCreateWallet_run X walletClient (data_id data) w0)
          as (Hwl & Hdl & Hl)
    end.
    unfold run in *. rewrite Hwl, Hdl, Hl. by rewrite H1.
Qed.

Lemma accounts_request_without_wallet_witness :
  last (trace (step sampleExt None
                 (step sampleExt None startedWorld
                    (PageMessage {| data_id := 3;
                                    data_method := "eth_requestAccounts" |}))
                 (Tap 0 "Create Wallet")))
  = Some (InjectJavaScript (PageResult 3 ["0xABC"])).
Proof.
  destruct (accounts_request_without_wallet sampleExt None
              {| data_id := 3; data_method := "eth_requestAccounts" |}
              startedWorld eq_refl eq_refl) as (_ & _ & _ & _ & H).
  exact H.
Defined.

(** ** What the screen shows *)

#[global] Instance overlayStaysOff_refl : Reflexive overlayStaysOff.
Proof. intros w H. exact H. Qed.

#[global] Instance overlayStaysOff_trans : Transitive overlayStaysOff.
Proof. intros a b c H1 H2 H. by apply H2, H1. Qed.

Lemma overlay_emit (e : Event) : holds overlayStaysOff (emit e).
Proof. intros w H. exact H. Qed.

Lemma overlay_external (e : Event) : holds overlayStaysOff (external e).
Proof. intros w H. exact H. Qed.

Ltac overlay_frame :=
  repeat first
    [ apply overlay_emit | apply overlay_external | frame_step | by hnf ].

Section Screen.

Variable X : Ext.
Variable walletClient : option Web3Wallet.

(** No method of the registry opens a dialog or sets a state of the
    screen. *)
Lemma perform_screen (o : Operation) (w : World) :
  isRegistryCall o = true ->
  screenState (perform X walletClient w o) = screenState w.
Proof.
  intros Ho. destruct o; simpl in *; try discriminate.
  all: match goal with
       | |- screenState (run ?m ?w0) = screenState ?w0 =>
           revert w0; change (keeps screenState m)
       end.
  all: cbv delta [initialize loadWallets setupProviders createWallet
                  importWallet importWalletFromMnemonic getWalletAddress
                  hasWallet getBalance getTokenBalances sendTransaction
                  signMessage getTransactionHistory saveWallet getProvider
                  getAlchemyInstance]; cbv beta.
  all: repeat first [ progress keeps_frame | progress cbv zeta ].
Qed.

Lemma screen_overlay {A} (m : M A) :
  keeps screenState m -> holds overlayStaysOff m.
Proof.
  intros H w Hw. specialize (H w). unfold unchanged, screenState in H.
  injection H as Hc _ _. by rewrite Hc.
Qed.

(** However it ends, handling a proposal leaves the overlay off. *)
Lemma handleSessionProposal_overlay p (w : World) :
  isConnecting (run (handleSessionProposal X walletClient p) w) = false.
Proof.
  unfold run, handleSessionProposal, try_finally.
  by destruct (try_catch _ _ w).
Qed.

Lemma createWallet_overlay c : holds overlayStaysOff (createWallet X c).
Proof. unfold createWallet, saveWallet. cbv zeta. overlay_frame. Qed.

Lemma sendTransaction_overlay c n to amount :
  holds overlayStaysOff (sendTransaction X c n to amount).
Proof. unfold sendTransaction, getProvider. overlay_frame. Qed.

Lemma signMessage_overlay c msg : holds overlayStaysOff (signMessage X c msg).
Proof. unfold signMessage. overlay_frame. Qed.

Lemma press_overlay a : holds overlayStaysOff (press X walletClient a).
Proof.
  destruct a;
    unfold press, rejectSession, respondSessionRequest, injectJavaScript, alert.
  all: repeat first
         [ apply createWallet_overlay | apply sendTransaction_overlay
         | apply signMessage_overlay
         | (intros w0 _; apply handleSessionProposal_overlay)
         | progress overlay_frame ].
Qed.

Lemma step_overlay (i : Input) (w : World) :
  overlayStaysOff w (step X walletClient w i).
Proof.
  destruct i; unfold step, handle.
  - intros _. apply handleSessionProposal_overlay.
  - revert w. change (holds overlayStaysOff (handleSessionRequest walletClient requestEvent)).
    unfold handleSessionRequest, rejectSession, alert. overlay_frame.
  - revert w. change (holds overlayStaysOff (handleEthereumRequest data)).
    unfold handleEthereumRequest, injectJavaScript, alert, hasWallet,
      getWalletAddress. overlay_frame.
  - revert w. change (holds overlayStaysOff (tap X walletClient n label)).
    unfold tap. repeat first [ apply press_overlay | progress overlay_frame ].
Qed.

End Screen.

(** X11. The registry never touches the screen: none of its methods opens
    a dialog or changes [isConnecting] or [connectedDapp].  Handling a
    session proposal ends with the "Connecting to dApp..." overlay off,
    whichever way it ends; and over any sequence of registry calls, events
    and taps, an overlay that was off is off at the end. *)
Theorem connecting_overlay_is_cleared
    (X : Ext) (walletClient : option Web3Wallet) :
  (forall (o : Operation) (w : World),
     isRegistryCall o = true ->
     isConnecting (perform X walletClient w o) = isConnecting w
     /\ connectedDapp (perform X walletClient w o) = connectedDapp w
     /\ dialogs (perform X walletClient w o) = dialogs w)
  /\ (forall (p : Proposal) (w : World),
        isConnecting (step X walletClient w (SessionProposalEvent p)) = false)
  /\ (forall (ops : list Operation) (w : World),
        isConnecting w = false ->
        isConnecting (foldl (perform X walletClient) w ops) = false).
Proof.
  split; [|split].
  - intros o w Ho. pose proof (perform_screen X walletClient o w Ho) as H.
    unfold screenState in H. by injection H.
  - intros p w. apply handleSessionProposal_overlay.
  - intros ops. induction ops as [|o ops IH]; intros w Hw; simpl; [exact Hw|].
    apply IH. destruct (isRegistryCall o) eqn:Ho.
    + pose proof (perform_screen X walletClient o w Ho) as H.
      unfold screenState in H. injection H as Hc _ _. by rewrite Hc.
    + destruct o; simpl in Ho; try discriminate. simpl.
      by apply step_overlay.
Qed.

Lemma connecting_overlay_is_cleared_witness :
  isConnecting
    (foldl (perform sampleExt (Some web3wallet)) startedWorld
       [Bridge (SessionProposalEvent mainnetProposal);
        Bridge (Tap 0 "Create Wallet");
        GetBalance ETHEREUM ETH_MAINNET]) = false.
Proof.
  destruct (connecting_overlay_is_cleared sampleExt (Some web3wallet))
    as (_ & _ & H).
  by apply H.
Defined.

(** X12. A proposal that finds an ethereum wallet with an address records
    the proposer as the connected dApp before the approval is attempted,
    and nothing takes that back: the dApp is shown as connected when the
    approval went out, and also when [approveSession] failed (beside the
    Connection Error dialog) and when there was no client to send it
    through (beside the Connected dialog, nothing having been sent).  A
    proposal that finds no wallet leaves the connected dApp as it was. *)
Theorem proposer_is_recorded_before_approval
    (X : Ext) (walletClient : option Web3Wallet) (p : Proposal) (w : World) :
  let w' := step X walletClient w (SessionProposalEvent p) in
  (wallets w ETHEREUM = None -> connectedDapp w' = connectedDapp w)
  /\ (forall wl,
        wallets w ETHEREUM = Some wl ->
        wallet_address wl <> "" ->
        let namespaces :=
          buildNamespaces (wallet_address wl) (requiredNamespaces p) in
        connectedDapp w' = Some (proposer_name p)
        /\ (walletClient = None ->
            dialogs w' = dialogs w ++ [connectedDialog (proposer_name p)]
            /\ added w w' = [ Registry (CallHasWallet ETHEREUM);
                              Registry (CallGetWalletAddress ETHEREUM);
                              AlertShown (connectedDialog (proposer_name p)) ])
        /\ (is_Some walletClient ->
            approveSessionFails X (clock w) (prop_id p) namespaces = true ->
            dialogs w' = dialogs w ++ [connectionErrorDialog])
        /\ (is_Some walletClient ->
            approveSessionFails X (clock w) (prop_id p) namespaces = false ->
            dialogs w' = dialogs w ++ [connectedDialog (proposer_name p)])).
Proof.
  intros w'. subst w'.
  unfold step, handle, added, run, handleSessionProposal, try_finally,
    try_catch, hasWallet, getWalletAddress, approveSession, alert, bind, emit,
    update, read, ret, external, throw; simpl.
  split.
  - intros Hw. by repeat (rewrite Hw; simpl).
  - intros wl Hw Ha.
    repeat (first [rewrite Hw | rewrite decide_False by exact Ha]; simpl).
    destruct walletClient as [client|]; simpl.
    + destruct (approveSessionFails X _ _ _) eqn:Hf; simpl.
      all: split; [reflexivity|]; split; [discriminate|].
      all: split; intros _ Hf'; try discriminate; reflexivity.
    + split; [reflexivity|]. split.
      * intros _. split; [reflexivity|].
        by rewrite <- !app_assoc, drop_app_length.
      * split; intros [? ?]; discriminate.
Qed.

Lemma proposer_is_recorded_before_approval_witness :
  connectedDapp (step sampleExt None walletWorld
                   (SessionProposalEvent mainnetProposal)) = Some "Uniswap"
  /\ added walletWorld
       (step sampleExt None walletWorld (SessionProposalEvent mainnetProposal))
     = [ Registry (CallHasWallet ETHEREUM);
         Registry (CallGetWalletAddress ETHEREUM);
         AlertShown (connectedDialog "Uniswap") ].
Proof.
  destruct (proposer_is_recorded_before_approval sampleExt None mainnetProposal
              walletWorld) as [_ H].
  destruct (H sampleWallet eq_refl) as (Hc & Hn & _); [discriminate|].
  split; [exact Hc|]. by destruct (Hn eq_refl).
Defined.

(** ** The URL bar *)




(** ** Start-up of the browser screen *)

Ltac screen_unfold :=
  unfold srun, sresult, on, off, sbind, stry_catch, stry_finally, supdate,
    sread, call, sret, sthrow, inWorld, detached.

(** Runs the start-up effect on [s]: [w1] is the world in which the
    registry was initialized, and there is one goal for each way the two
    [init] calls can go. *)
Ltac startup_cases X Y s w1 Hd H1 H2 :=
  unfold initializeEffect; screen_unfold; cbn [world set_isLoading];
  let Hi := fresh "Hi" in
  destruct (initialize_run X (world s)) as (w1 & Hi & _ & _ & Hd & _);
  unfold run; rewrite Hi; cbn [fst snd];
  change (dialogs w1 = dialogs (world s)) in Hd;
  simpl;
  destruct (signClientInitFails Y (clock w1)) eqn:H1; simpl;
  [|destruct (web3WalletInitFails Y (S (clock w1))) eqn:H2; simpl].

(** X14. The start-up effect never throws and always ends with the
    loading overlay off.  When both [SignClient.init] and
    [Web3Wallet.init] succeed, the client is stored, the screen is marked
    initialized, exactly the two session handlers are registered and no
    dialog opens; when either fails, the Initialization Error dialog opens
    and the client, the flag and the registered handlers stay as they
    were.  In both cases the registry has been initialized. *)
Theorem startup_outcomes (X : Ext) (Y : SdkExt) (s : Screen) :
  let s' := srun (initializeEffect X Y) s in
  let t := clock (run (initialize X) (world s)) in
  sresult (initializeEffect X Y) s = Ok tt
  /\ isLoading s' = false
  /\ tables (world s') = tables (run (initialize X) (world s))
  /\ wallets (world s') = wallets (run (initialize X) (world s))
  /\ (signClientInitFails Y t = false ->
      web3WalletInitFails Y (S t) = false ->
      walletClient s' = Some web3wallet
      /\ isWalletInitialized s' = true
      /\ listeners s' = listeners s ++ [ ("session_proposal", walletClient s);
                                         ("session_request", walletClient s) ]
      /\ dialogs (world s') = dialogs (world s))
  /\ (signClientInitFails Y t = true
      \/ (signClientInitFails Y t = false /\ web3WalletInitFails Y (S t) = true) ->
      walletClient s' = walletClient s
      /\ isWalletInitialized s' = isWalletInitialized s
      /\ listeners s' = listeners s
      /\ dialogs (world s') = dialogs (world s) ++ [initializationErrorDialog]).
Proof.
  intros s' t. subst s' t.
  startup_cases X Y s w1 Hd H1 H2.
  all: do 4 (split; [reflexivity|]).
  all: split; [intros Hs Hw | intros Hf].
  all: try discriminate.
  all: try (destruct Hf as [Hf|[Hf Hf']]; discriminate).
  - by rewrite Hd.
  - by rewrite Hd.
  - rewrite <- app_assoc. by rewrite Hd.
Qed.

Lemma startup_outcomes_witness :
  walletClient (srun (initializeEffect sampleExt sampleSdk)
                  (initialScreen initialWorld)) = Some web3wallet
  /\ listeners (srun (initializeEffect sampleExt sampleSdk)
                  (initialScreen initialWorld))
     = [ ("session_proposal", None); ("session_request", None) ].
Proof.
  destruct (startup_outcomes sampleExt sampleSdk (initialScreen initialWorld))
    as (_ & _ & _ & _ & H & _).
  destruct H as (Hc & _ & Hl & _); [reflexivity | reflexivity |].
  by split.
Defined.

(** ** Handlers that hold no client *)

Section NoClient.

Variable X : Ext.

Let silent (e : Event) : Prop := isPeerReply e = false.

Lemma silent_createWallet c : holds (grows silent) (createWallet X c).
Proof. unfold createWallet, saveWallet. cbv zeta. quiet_with ltac:(reflexivity). Qed.

Lemma silent_handleSessionProposal p :
  holds (grows silent) (handleSessionProposal X None p).
Proof.
  unfold handleSessionProposal, approveSession, hasWallet, getWalletAddress,
    alert.
  quiet_with ltac:(reflexivity).
Qed.

Lemma silent_handleSessionRequest r :
  holds (grows silent) (handleSessionRequest None r).
Proof.
  unfold handleSessionRequest, rejectSession, alert. cbv zeta.
  quiet_with ltac:(reflexivity).
Qed.

Lemma silent_press a : holds (grows silent) (press X None a).
Proof.
  destruct a;
    unfold press, rejectSession, respondSessionRequest, injectJavaScript,
      sendTransaction, signMessage, getProvider, alert.
  all: repeat first [ apply silent_createWallet
                    | apply silent_handleSessionProposal
                    | progress quiet_with ltac:(reflexivity) ].
Qed.

Lemma silent_tap n label : holds (grows silent) (tap X None n label).
Proof.
  unfold tap.
  repeat first [ apply silent_press | progress quiet_with ltac:(reflexivity) ].
Qed.

End NoClient.

Lemma peerReplies_grows (w w' : World) :
  grows (fun e => isPeerReply e = false) w w' ->
  peerReplies (trace w') = peerReplies (trace w).
Proof. apply grows_filter. Qed.

(** Emitting an event when the registered handlers hold no client adds
    nothing for the peer. *)
Lemma emitted_silent (event : string) (handler : option Web3Wallet -> M unit)
    (s : Screen) :
  Forall (fun l => snd l = None) (listeners s) ->
  holds (grows (fun e => isPeerReply e = false)) (handler None) ->
  grows (fun e => isPeerReply e = false) (world s)
    (world (srun (emitted event handler) s)).
Proof.
  intros Hl Hh. unfold emitted, srun, sbind, sread. cbn [fst snd].
  generalize (listeners s) Hl. clear Hl. intros l Hl. revert s.
  induction Hl as [|[ev captured] l Hc _ IH]; intros s; simpl.
  - reflexivity.
  - simpl in Hc. subst captured. unfold sbind.
    destruct (decide (ev = event)); simpl.
    + unfold detached, inWorld.
      pose proof (Hh (world s)) as Hstep.
      destruct (handler None (world s)) as [r w1]. simpl in *.
      etransitivity; [exact Hstep|]. apply (IH (set_world w1 s)).
    + apply IH.
Qed.

(** X15. The two session handlers are registered by an effect that runs
    once, after the first render, when the [walletClient] state is still
    null; the closures registered therefore hold no client, although the
    screen itself stores the client once it is built.  So after a
    successful start-up nothing that these handlers or the buttons of
    their dialogs do reaches the remote peer: a session proposal is never
    approved towards it, an unsupported request is never rejected, an
    approved transaction is sent but its hash is never relayed.  With an
    ethereum wallet the screen still records the proposer as connected.
    The clean-up of the same effect, holding the same null client,
    unregisters nothing. *)
Theorem registered_handlers_hold_no_client
    (X : Ext) (Y : SdkExt) (w : World) :
  let s1 := srun (initializeEffect X Y) (initialScreen w) in
  walletClient s1 = Some web3wallet ->
  listeners s1 = [ ("session_proposal", None); ("session_request", None) ]
  /\ (forall p,
        peerReplies (trace (world (srun (sessionProposal X p) s1)))
        = peerReplies (trace (world s1)))
  /\ (forall r,
        peerReplies (trace (world (srun (sessionRequest r) s1)))
        = peerReplies (trace (world s1)))
  /\ (forall w' n label,
        peerReplies (trace (run (tap X None n label) w'))
        = peerReplies (trace w'))
  /\ (forall p wl,
        wallets (world s1) ETHEREUM = Some wl ->
        wallet_address wl <> "" ->
        connectedDapp (world (srun (sessionProposal X p) s1))
        = Some (proposer_name p))
  /\ srun (cleanup (walletClient (initialScreen w))) s1 = s1.
Proof.
  intros s1 Hclient.
  assert (Hl : listeners s1
               = [ ("session_proposal", None); ("session_request", None) ]).
  { subst s1. revert Hclient.
    startup_cases X Y (initialScreen w) w1 Hd H1 H2; try discriminate.
    reflexivity. }
  split; [exact Hl|].
  assert (Hnone : Forall (fun l : string * option Web3Wallet => snd l = None)
                    (listeners s1)).
  { rewrite Hl. by repeat constructor. }
  split; [|split; [|split; [|split]]].
  - intros p. apply peerReplies_grows.
    apply (emitted_silent "session_proposal"
             (fun captured => handleSessionProposal X captured p) s1 Hnone).
    apply silent_handleSessionProposal.
  - intros r. apply peerReplies_grows.
    apply (emitted_silent "session_request"
             (fun captured => handleSessionRequest captured r) s1 Hnone).
    apply silent_handleSessionRequest.
  - intros w' n label. apply peerReplies_grows. apply silent_tap.
  - intros p wl Hw Ha.
    unfold sessionProposal, emitted, srun, sbind, sread. cbn [fst snd].
    rewrite Hl. simpl. unfold sbind, detached, inWorld, sret. simpl.
    generalize (world s1) Hw. intros w0 Hw0.
    unfold handleSessionProposal, try_finally, try_catch, hasWallet,
      getWalletAddress, approveSession, alert, bind, emit, update, read, ret,
      external, throw; simpl.
    repeat (first [rewrite Hw0 | rewrite decide_False by exact Ha]; simpl).
    reflexivity.
  - reflexivity.
Qed.

Lemma registered_handlers_hold_no_client_witness :
  peerReplies
    (trace (world (srun (sessionProposal sampleExt mainnetProposal)
                     (srun (initializeEffect sampleExt sampleSdk)
                        (initialScreen walletWorld)))))
  = []
  /\ connectedDapp
       (world (srun (sessionProposal sampleExt mainnetProposal)
                 (srun (initializeEffect sampleExt sampleSdk)
                    (initialScreen walletWorld))))
     = Some "Uniswap".
Proof.
  destruct (registered_handlers_hold_no_client sampleExt sampleSdk walletWorld
              eq_refl) as (_ & Hp & _ & _ & Hc & _).
  split.
  - rewrite (Hp mainnetProposal). reflexivity.
  - apply (Hc mainnetProposal sampleWallet); [reflexivity | discriminate].
Defined.

(** ** Messages from the page *)

Lemma wc_uri_truthy (uri : string) :
  startsWith uri "wc:" = true -> truthy (Some uri) = true.
Proof.
  unfold truthy. destruct (decide (uri = "")) as [->|]; [discriminate | done].
Qed.

(** X16. The handler of the messages of the page never throws.  A message
    that is not JSON is only logged.  A message with a [wc:] URI is a
    pairing request and nothing else, whatever else it carries: it never
    reaches the Ethereum handler, the registry is not called, and the URI
    is passed to [pair] exactly when the client is there and the screen is
    marked initialized (a failure of [pair] is logged, not shown);
    otherwise the Wallet not initialized dialog opens.  Any other message
    is handled by [handleEthereumRequest] when it names a method, and
    ignored when it does not. *)
Theorem page_messages_are_dispatched
    (Y : SdkExt) (parsed : option WebViewData) (s : Screen) :
  let s' := srun (handleWalletConnectRequest Y parsed) s in
  let failed := ConsoleError "Failed to handle WebView message:" in
  sresult (handleWalletConnectRequest Y parsed) s = Ok tt
  /\ (parsed = None ->
      calls s' = calls s
      /\ trace (world s') = trace (world s) ++ [failed]
      /\ dialogs (world s') = dialogs (world s))
  /\ (forall data uri,
        parsed = Some data ->
        msg_uri data = Some uri ->
        startsWith uri "wc:" = true ->
        registryCalls (trace (world s')) = registryCalls (trace (world s))
        /\ registryAndStore (world s') = registryAndStore (world s)
        /\ (is_Some (walletClient s) -> isWalletInitialized s = true ->
            calls s' = calls s ++ [Pair uri]
            /\ dialogs (world s') = dialogs (world s)
            /\ trace (world s')
               = if pairFails Y (clock (world s)) uri
                 then trace (world s) ++ [failed]
                 else trace (world s))
        /\ (walletClient s = None \/ isWalletInitialized s = false ->
            calls s' = calls s
            /\ dialogs (world s') = dialogs (world s) ++ [walletNotInitializedDialog]))
  /\ (forall data,
        parsed = Some data ->
        truthy (msg_uri data) && startsWith (default "" (msg_uri data)) "wc:"
        = false ->
        calls s' = calls s
        /\ (truthy (msg_method data) = false -> s' = s)
        /\ (forall method,
              msg_method data = Some method -> method <> "" ->
              world s'
              = run (handleEthereumRequest
                       {| data_id := msg_id data; data_method := method |})
                  (world s))).
Proof.
  intros s' failed. subst s' failed.
  unfold handleWalletConnectRequest. screen_unfold.
  destruct parsed as [data|]; simpl.
  2: { split; [reflexivity|]. split; [by repeat split|].
       split; intros; discriminate. }
  destruct (truthy (msg_uri data) && startsWith (default "" (msg_uri data)) "wc:")
    eqn:Hwc; simpl.
  - assert (Hcases :
      (exists c, walletClient s = Some c) /\ isWalletInitialized s = true
      \/ (walletClient s = None \/ isWalletInitialized s = false)).
    { destruct (walletClient s); [|by right; left].
      destruct (isWalletInitialized s); [left; eauto | by right; right]. }
    destruct Hcases as [[[c Hc] Hi]|Hno].
    + rewrite Hc, Hi. simpl.
      destruct (pairFails Y (clock (world s)) (default "" (msg_uri data)))
        eqn:Hp; simpl.
      all: split; [reflexivity|]; split; [discriminate|].
      all: split; [|intros ? [= <-] Hno'; congruence].
      all: intros data' uri [= <-] Hu _; rewrite Hu in *; simpl in *.
      all: rewrite ?Hp.
      all: split; [unfold registryCalls; rewrite ?List.filter_app; simpl;
                   by rewrite ?app_nil_r|].
      all: split; [reflexivity|].
      all: split; [by intros _ _|].
      all: intros [?|?]; congruence.
    + assert (Hb : bool_decide (is_Some (walletClient s))
                   && isWalletInitialized s = false).
      { destruct Hno as [Hn | Hn]; rewrite Hn; [reflexivity | apply andb_false_r]. }
      rewrite Hb. simpl.
      split; [reflexivity|]; split; [discriminate|].
      split; [|intros ? [= <-] Hno'; congruence].
      intros data' uri [= <-] Hu _.
      split; [unfold registryCalls; rewrite List.filter_app; simpl;
              by rewrite app_nil_r|].
      split; [reflexivity|].
      split; [|by intros _].
      intros [c Hc] Hi. destruct Hno; congruence.
  - split.
    { destruct (truthy (msg_method data)); [|reflexivity].
      simpl. by destruct (handleEthereumRequest _ _). }
    split; [discriminate|]. split.
    { intros data' uri [= <-] Hu Hs.
      pose proof (wc_uri_truthy uri Hs) as Ht. rewrite Hu in Hwc.
      change (default "" (Some uri)) with uri in Hwc.
      rewrite Ht, Hs in Hwc. discriminate. }
    intros data' [= <-] _.
    destruct (truthy (msg_method data)) eqn:Hm; simpl.
    + split; [by destruct (handleEthereumRequest _ _)|].
      split; [discriminate|].
      intros method Hmethod Hne. rewrite Hmethod. simpl. unfold run.
      by destruct (handleEthereumRequest _ _).
    + split; [reflexivity|]. split; [by destruct s|].
      intros method Hmethod Hne. rewrite Hmethod in Hm. simpl in Hm.
      by rewrite decide_False in Hm.
Qed.

Lemma page_messages_are_dispatched_witness :
  dialogs (world (srun (handleWalletConnectRequest sampleSdk
                          (Some {| msg_uri := Some "wc:abc";
                                   msg_method := Some "eth_requestAccounts";
                                   msg_id := 1 |}))
                    (initialScreen walletWorld)))
  = [walletNotInitializedDialog].
Proof.
  destruct (page_messages_are_dispatched sampleSdk
              (Some {| msg_uri := Some "wc:abc";
                       msg_method := Some "eth_requestAccounts";
                       msg_id := 1 |})
              (initialScreen walletWorld)) as (_ & _ & H & _).
  destruct (H _ "wc:abc" eq_refl eq_refl eq_refl) as (_ & _ & _ & Hd).
  destruct Hd as [_ Hd]; [by left | exact Hd].
Defined.

(** ** Disconnecting *)

Lemma close_any (Y : SdkExt) (topics : list string) (s : Screen) :
  besideCalls (srun (sfoldM (closeSession Y) tt topics) s) = besideCalls s.
Proof.
  revert s. induction topics as [|topic topics IH]; intros s; [reflexivity|].
  unfold srun. simpl. unfold closeSession at 1.
  unfold sbind, call, sret, sthrow. simpl.
  destruct (disconnectSessionFails Y (clock (world s)) topic); [reflexivity|].
  simpl. unfold srun in IH. by rewrite IH.
Qed.

Lemma close_all (Y : SdkExt) (topics : list string) :
  (forall t topic, topic ∈ topics -> disconnectSessionFails Y t topic = false) ->
  forall s, exists s1,
    sfoldM (closeSession Y) tt topics s = (Ok tt, s1)
    /\ calls s1 = calls s ++ closing topics.
Proof.
  induction topics as [|topic topics IH]; intros Hok s; simpl.
  - exists s. by rewrite app_nil_r.
  - unfold closeSession at 1. unfold sbind, call, sret, sthrow. simpl.
    rewrite Hok by apply list_elem_of_here. simpl.
    match goal with
    | |- context [sfoldM (closeSession Y) tt topics ?s0] =>
        destruct (IH (fun t x Hx => Hok t x (list_elem_of_further _ _ _ Hx)) s0)
          as (s1 & -> & Hc)
    end.
    exists s1. split; [reflexivity|].
    rewrite Hc. simpl. by rewrite <- app_assoc.
Qed.

Lemma close_until (Y : SdkExt) (before after : list string) (bad : string) :
  (forall t topic, topic ∈ before -> disconnectSessionFails Y t topic = false) ->
  (forall t, disconnectSessionFails Y t bad = true) ->
  forall s, exists e s1,
    sfoldM (closeSession Y) tt (before ++ bad :: after) s = (Err e, s1)
    /\ calls s1 = calls s ++ closing (before ++ [bad]).
Proof.
  intros Hok Hbad.
  induction before as [|topic before IH]; intros s; simpl.
  - unfold closeSession at 1. unfold sbind, call, sret, sthrow. simpl.
    rewrite Hbad. by eexists _, _.
  - unfold closeSession at 1. unfold sbind, call, sret, sthrow. simpl.
    rewrite Hok by apply list_elem_of_here. simpl.
    match goal with
    | |- context [sfoldM (closeSession Y) tt _ ?s0] =>
        destruct (IH (fun t x Hx => Hok t x (list_elem_of_further _ _ _ Hx)) s0)
          as (e & s1 & -> & Hc)
    end.
    exists e, s1. split; [reflexivity|].
    rewrite Hc. simpl. by rewrite <- app_assoc.
Qed.

(** X17. [disconnectFromDapp] never throws.  Without a client it does
    nothing at all, so the dApp stays shown as connected.  With a client,
    when every session closes, each active session was asked to close
    once, in order and with the reason User disconnected, and only then
    is the connected dApp cleared and the Disconnected dialog opened; when
    closing a session fails, the sessions after it are not attempted, the
    dApp is still shown as connected and the error dialog opens.  The
    registry and the store are not touched. *)
Theorem disconnecting_closes_sessions_in_order (Y : SdkExt) (s : Screen) :
  let s' := srun (disconnectFromDapp Y) s in
  sresult (disconnectFromDapp Y) s = Ok tt
  /\ registryAndStore (world s') = registryAndStore (world s)
  /\ (walletClient s = None -> s' = s)
  /\ (forall topics,
        is_Some (walletClient s) ->
        getActiveSessions Y (clock (world s)) = Some topics ->
        ((forall t topic, topic ∈ topics ->
                          disconnectSessionFails Y t topic = false) ->
         calls s' = calls s ++ GetActiveSessions :: closing topics
         /\ connectedDapp (world s') = None
         /\ dialogs (world s') = dialogs (world s) ++ [disconnectedDialog])
        /\ (forall before bad after,
              topics = before ++ bad :: after ->
              (forall t topic, topic ∈ before ->
                               disconnectSessionFails Y t topic = false) ->
              (forall t, disconnectSessionFails Y t bad = true) ->
              calls s' = calls s ++ GetActiveSessions :: closing (before ++ [bad])
              /\ connectedDapp (world s') = connectedDapp (world s)
              /\ dialogs (world s')
                 = dialogs (world s) ++ [disconnectFailedDialog])).
Proof.
  intros s'. subst s'.
  unfold disconnectFromDapp.
  change (fun (_ : unit) topic =>
            let+ t := call (DisconnectSession topic USER_DISCONNECTED) in
            if disconnectSessionFails Y t topic
            then sthrow (ExternalFailure "disconnectSession")
            else sret tt)
    with (closeSession Y).
  screen_unfold. cbn [fst snd].
  destruct (walletClient s) as [client|] eqn:Hclient; cbn [fst snd].
  2: { split; [reflexivity|]. split; [reflexivity|]. split; [reflexivity|].
       intros topics [? ?]; discriminate. }
  unfold lift, ret, throw. simpl.
  destruct (getActiveSessions Y (clock (world s))) as [sessions|] eqn:Hs; simpl.
  2: { split; [reflexivity|]. split; [reflexivity|]. split; [discriminate|].
       intros topics _ [=]. }
  match goal with
  | |- context [sfoldM (closeSession Y) tt sessions ?s0] =>
      pose proof (close_any Y sessions s0) as Hany;
      pose proof (fun H => close_all Y sessions H s0) as Hall;
      pose proof (fun before after bad (E : sessions = before ++ bad :: after)
                      H1 H2 =>
                    close_until Y before after bad H1 H2 s0) as Huntil;
      unfold srun in Hany;
      destruct (sfoldM (closeSession Y) tt sessions s0) as [r s1] eqn:Hloop
  end.
  unfold besideCalls, screenState, registryAndStore in Hany.
  cbn [world set_calls set_world] in Hany.
  injection Hany as Hic Hcd Hdl Hwl Hst Htr Hwc.
  cbn [wallets storage set_clock isConnecting connectedDapp dialogs trace]
    in Hic, Hcd, Hdl, Hwl, Hst, Htr.
  split; [by destruct r|].
  split; [unfold registryAndStore; destruct r; simpl; by rewrite Hwl, Hst|].
  split; [discriminate|].
  intros topics _ [= <-]. split.
  - intros Hok. destruct (Hall Hok) as (s2 & [= -> ->] & Hcalls). simpl.
    rewrite Hcalls. simpl. rewrite <- app_assoc. by rewrite Hdl.
  - intros before bad after E Hok Hbad. subst sessions.
    destruct (Huntil before after bad eq_refl Hok Hbad)
      as (e & s2 & Heq & Hcalls).
    rewrite Hloop in Heq. injection Heq as -> ->. simpl.
    rewrite Hcalls. simpl. rewrite <- app_assoc. by rewrite Hdl, Hcd.
Qed.

Lemma disconnecting_closes_sessions_in_order_witness :
  calls (srun (disconnectFromDapp stubbornSdk)
           (set_walletClient (Some web3wallet) (initialScreen walletWorld)))
  = [ GetActiveSessions;
      DisconnectSession "topic-1" USER_DISCONNECTED;
      DisconnectSession "topic-2" USER_DISCONNECTED ].
Proof.
  destruct (disconnecting_closes_sessions_in_order stubbornSdk
              (set_walletClient (Some web3wallet) (initialScreen walletWorld)))
    as (_ & _ & _ & H).
  destruct (H ["topic-1"; "topic-2"; "topic-3"]) as [_ Hfail];
    [by eexists | reflexivity |].
  destruct (Hfail ["topic-1"] "topic-2" ["topic-3"]) as (Hc & _);
    [reflexivity | | reflexivity | exact Hc].
  intros t topic Hin. apply list_elem_of_singleton in Hin as ->. reflexivity.
Defined.

(** ** The provider in the page *)

Lemma increment_below (n : Z) : n < 2 ^ 53 -> increment n = n + 1.
Proof. intros H. unfold increment. by rewrite decide_True. Qed.

Lemma request_promise (method : option string) (pg : Page) :
  promises (snd (request method pg)) !! fst (request method pg) = Some Pending.
Proof. simpl. by apply list_lookup_middle. Qed.

Lemma request_keeps_promises (method : option string) (pg : Page) (j : nat) :
  j <> fst (request method pg) ->
  promises (snd (request method pg)) !! j = promises pg !! j.
Proof.
  simpl. intros Hj.
  destruct (decide (j < length (promises pg))%nat) as [Hlt|Hge].
  - by apply lookup_app_l.
  - rewrite (lookup_ge_None_2 (promises pg)) by lia.
    apply lookup_ge_None_2. rewrite length_app. simpl. lia.
Qed.

Lemma request_pageOk (method : option string) (pg : Page) :
  pageOk pg -> _nextId pg < 2 ^ 53 -> pageOk (snd (request method pg)).
Proof.
  intros [H1 Hcb] Hlt. split; simpl.
  - rewrite increment_below by exact Hlt. lia.
  - intros id promise. rewrite increment_below by exact Hlt.
    destruct (decide (id = _nextId pg)) as [->|Hne].
    + rewrite lookup_insert_eq. intros [= <-].
      split; [lia | by apply list_lookup_middle].
    + rewrite lookup_insert_ne by congruence. intros Hin.
      destruct (Hcb id promise Hin) as [Hid Hp].
      split; [lia | by apply lookup_app_l_Some].
Qed.

Lemma resolve_pending (promise : nat) (value : option (list string))
    (l : list Promise) :
  l !! promise = Some Pending ->
  resolve promise value l !! promise = Some (Resolved value)
  /\ forall j, j <> promise -> resolve promise value l !! j = l !! j.
Proof.
  intros H. unfold resolve. rewrite H. split.
  - apply list_lookup_insert_eq. by apply lookup_lt_is_Some_1.
  - intros j Hj. by apply list_lookup_insert_ne.
Qed.

(** [sendResponse] never rejects a promise. *)
Lemma sendResponse_never_rejects (response : PageResponse) (pg : Page)
    (j : nat) (reason : Reason) :
  promises (sendResponse response pg) !! j = Some (Rejected reason) ->
  promises pg !! j = Some (Rejected reason).
Proof.
  unfold sendResponse.
  destruct (_callbacks pg !! response_id response) as [promise|]; [|done].
  simpl. unfold resolve.
  destruct (promises pg !! promise) as [[| |]|] eqn:Hp; try done.
  destruct (decide (promise = j)) as [->|Hne].
  - rewrite list_lookup_insert_eq; [discriminate|].
    by apply lookup_lt_is_Some_1.
  - by rewrite list_lookup_insert_ne.
Qed.

Lemma sendResponse_answers (response : PageResponse) (pg : Page) (promise : nat) :
  pageOk pg ->
  _callbacks pg !! response_id response = Some promise ->
  let pg' := sendResponse response pg in
  promises pg' !! promise = Some (Resolved (response_result response))
  /\ (forall j, j <> promise -> promises pg' !! j = promises pg !! j)
  /\ _callbacks pg' !! response_id response = None
  /\ _nextId pg' = _nextId pg
  /\ posted pg' = posted pg.
Proof.
  intros [_ Hcb] Hid pg'. subst pg'. unfold sendResponse. rewrite Hid. simpl.
  destruct (Hcb _ _ Hid) as [_ Hp].
  destruct (resolve_pending promise (response_result response) _ Hp) as [Hr Ho].
  split; [exact Hr|]. split; [exact Ho|]. split; [apply lookup_delete_eq|].
  by split.
Qed.

(** X18. The provider gives every request an id of its own, as long as
    the counter is below 2^53: the id is not among the pending ones, the
    message posted carries it, and the promise returned is pending.  A
    response with that id settles that promise and no other, with the
    [result] of the response; an error response has no [result], so its
    promise is resolved with undefined rather than rejected, and no
    promise is ever rejected.  A response whose id is not pending, a second
    response to the same request included, changes nothing. *)
Theorem responses_settle_the_request_they_answer
    (method : option string) (pg : Page) :
  pageOk pg ->
  _nextId pg < 2 ^ 53 ->
  let id := _nextId pg in
  let promise := fst (request method pg) in
  let pg1 := snd (request method pg) in
  _callbacks pg !! id = None
  /\ pageOk pg1
  /\ last (posted pg1)
     = Some {| msg_uri := None; msg_method := method; msg_id := id |}
  /\ promises pg1 !! promise = Some Pending
  /\ (forall j, j <> promise -> promises pg1 !! j = promises pg !! j)
  /\ (forall response,
        response_id response = id ->
        let pg2 := sendResponse response pg1 in
        promises pg2 !! promise = Some (Resolved (response_result response))
        /\ (forall j, j <> promise -> promises pg2 !! j = promises pg1 !! j)
        /\ sendResponse response pg2 = pg2)
  /\ (forall response pg',
        _callbacks pg' !! response_id response = None ->
        sendResponse response pg' = pg')
  /\ (forall response pg' j reason,
        promises (sendResponse response pg') !! j = Some (Rejected reason) ->
        promises pg' !! j = Some (Rejected reason)).
Proof.
  intros Hok Hlt id promise pg1.
  assert (Hfresh : _callbacks pg !! id = None).
  { destruct (_callbacks pg !! id) as [p|] eqn:Hp; [|reflexivity].
    destruct Hok as [_ Hcb]. destruct (Hcb id p Hp) as [Hid _].
    subst id. lia. }
  assert (Hok1 : pageOk pg1) by (by apply request_pageOk).
  split; [exact Hfresh|]. split; [exact Hok1|].
  split; [apply last_snoc|]. split; [apply request_promise|].
  split; [apply request_keeps_promises|]. split; [|split].
  - intros response Hid pg2.
    assert (Hcb : _callbacks pg1 !! response_id response = Some promise).
    { rewrite Hid. subst pg1 id. simpl. apply lookup_insert_eq. }
    destruct (sendResponse_answers response pg1 promise Hok1 Hcb)
      as (Hr & Ho & Hgone & _).
    split; [exact Hr|]. split; [exact Ho|].
    subst pg2. unfold sendResponse at 1. by rewrite Hgone.
  - intros response pg' Hnone. unfold sendResponse. by rewrite Hnone.
  - apply sendResponse_never_rejects.
Qed.

Lemma responses_settle_the_request_they_answer_witness :
  promises (sendResponse
              (PageError 1 {| code := 4200; message := "Method not supported" |})
              (snd (request (Some "eth_chainId") injectedPage)))
    !! 0%nat
  = Some (Resolved None).
Proof.
  assert (Hok : pageOk injectedPage).
  { split; [reflexivity|]. intros id promise H.
    change ((∅ : gmap Z nat) !! id = Some promise) in H.
    by rewrite lookup_empty in H. }
  destruct (responses_settle_the_request_they_answer (Some "eth_chainId")
              injectedPage Hok eq_refl) as (_ & _ & _ & _ & _ & H & _).
  destruct (H (PageError 1 {| code := 4200; message := "Method not supported" |})
              eq_refl) as (Hr & _).
  exact Hr.
Defined.

(** ** A request of the page, from end to end *)

Lemma injected_responsesIn (w w' : World) :
  injected w w' = responsesIn (added w w').
Proof. reflexivity. Qed.

Lemma responsesIn_app (a b : list Event) :
  responsesIn (a ++ b) = responsesIn a ++ responsesIn b.
Proof. apply omap_app. Qed.

Lemma responsesIn_none (d : list Event) :
  Forall (fun e => isResponse e = false) d -> responsesIn d = [].
Proof.
  induction 1 as [|e d He _ IH]; [reflexivity|].
  unfold responsesIn in *. simpl. destruct e; try discriminate; exact IH.
Qed.

Lemma createWallet_no_response (X : Ext) c :
  holds (grows (fun e => isResponse e = false)) (createWallet X c).
Proof.
  unfold createWallet, saveWallet. cbv zeta. quiet_with ltac:(reflexivity).
Qed.

(** A message that names a method goes to [handleEthereumRequest]. *)
Lemma request_message_handled (Y : SdkExt) (id : Z) (method : string)
    (s : Screen) :
  method <> "" ->
  srun (handleWalletConnectRequest Y
          (Some {| msg_uri := None; msg_method := Some method; msg_id := id |})) s
  = set_world (run (handleEthereumRequest
                      {| data_id := id; data_method := method |}) (world s)) s.
Proof.
  intros Hm. unfold handleWalletConnectRequest. screen_unfold. simpl.
  rewrite decide_False by exact Hm. simpl. unfold run.
  by destruct (handleEthereumRequest _ (world s)).
Qed.

(** A message that names none is dropped. *)
Lemma request_message_dropped (Y : SdkExt) (id : Z) (method : option string)
    (s : Screen) :
  truthy method = false ->
  srun (handleWalletConnectRequest Y
          (Some {| msg_uri := None; msg_method := method; msg_id := id |})) s
  = s.
Proof.
  intros Hm. unfold handleWalletConnectRequest. screen_unfold. simpl.
  rewrite Hm. simpl. by destruct s.
Qed.

Lemma handleEthereumRequest_unsupported (id : Z) (method : string) (w : World) :
  method <> "eth_requestAccounts" ->
  added w (run (handleEthereumRequest {| data_id := id; data_method := method |}) w)
  = [InjectJavaScript
       (PageError id {| code := 4200; message := "Method not supported" |})].
Proof.
  intros Hm. unfold added, run, handleEthereumRequest. simpl.
  rewrite decide_False by exact Hm.
  unfold injectJavaScript, bind, external, ret. simpl.
  by rewrite drop_app_length.
Qed.

Lemma handleEthereumRequest_no_address (id : Z) (wl : Wallet) (w : World) :
  wallets w ETHEREUM = Some wl ->
  wallet_address wl = "" ->
  let w' := run (handleEthereumRequest
                   {| data_id := id; data_method := "eth_requestAccounts" |}) w in
  added w w' = [ Registry (CallHasWallet ETHEREUM);
                 Registry (CallGetWalletAddress ETHEREUM) ]
  /\ dialogs w' = dialogs w.
Proof.
  intros Hw Ha.
  unfold added, run, handleEthereumRequest, hasWallet, getWalletAddress,
    injectJavaScript, alert, bind, emit, update, read, ret, external; simpl.
  repeat (first [rewrite Hw | rewrite decide_True by exact Ha]; simpl).
  split; [|reflexivity]. by rewrite <- !app_assoc, drop_app_length.
Qed.

Lemma handleEthereumRequest_no_wallet (id : Z) (w : World) :
  wallets w ETHEREUM = None ->
  run (handleEthereumRequest
         {| data_id := id; data_method := "eth_requestAccounts" |}) w
  = set_dialogs (dialogs w ++ [accountsWalletRequiredDialog id])
      (set_trace (trace w ++ [ Registry (CallHasWallet ETHEREUM);
                               AlertShown (accountsWalletRequiredDialog id) ]) w).
Proof.
  intros Hw. unfold run, handleEthereumRequest. simpl.
  unfold hasWallet, alert, bind, emit, update, read, ret; simpl.
  rewrite Hw; simpl. by rewrite <- app_assoc.
Qed.

(** One response delivered to a page that waits for it. *)
Lemma deliver_one (s s' : Screen) (pg : Page) (response : PageResponse)
    (promise : nat) :
  pageOk pg ->
  _callbacks pg !! response_id response = Some promise ->
  injected (world s) (world s') = [response] ->
  promises (deliver s s' pg) !! promise
  = Some (Resolved (response_result response)).
Proof.
  intros Hok Hcb Hin. unfold deliver. rewrite Hin. simpl.
  by destruct (sendResponse_answers response pg promise Hok Hcb) as [H _].
Qed.

Lemma deliver_none (s s' : Screen) (pg : Page) :
  injected (world s) (world s') = [] -> deliver s s' pg = pg.
Proof. intros Hin. unfold deliver. by rewrite Hin. Qed.

Lemma accounts_dialog_cancel (X : Ext) captured (id : Z) (w1 : World)
    (open : list Dialog) :
  dialogs w1 = open ++ [accountsWalletRequiredDialog id] ->
  added w1 (run (tap X captured (length open) "Cancel") w1)
  = [Tapped (accountsWalletRequiredDialog id) "Cancel"].
Proof.
  intros Hd. unfold run.
  rewrite (tap_last X captured (accountsWalletRequiredDialog id) "Cancel"
             {| text := "Cancel"; onPress := None |} w1 open Hd eq_refl).
  simpl. unfold added. simpl. by rewrite drop_app_length.
Qed.

Lemma accounts_dialog_create (X : Ext) captured (id : Z) (w1 : World)
    (open : list Dialog) :
  dialogs w1 = open ++ [accountsWalletRequiredDialog id] ->
  responsesIn (added w1 (run (tap X captured (length open) "Create Wallet") w1))
  = [PageResult id [wallet_address (createRandom X (clock w1))]].
Proof.
  intros Hd. unfold run.
  rewrite (tap_last X captured (accountsWalletRequiredDialog id) "Create Wallet"
             {| text := "Create Wallet";
                onPress := Some (AccountsCreateWallet id) |} w1 open Hd eq_refl).
  cbn [onPress].
  rewrite press_AccountsCreateWallet_eq. cbn [snd].
  match goal with
  | |- context [run (createWallet X ETHEREUM) ?w0] =>
      destruct (createWallet_no_response X ETHEREUM w0) as (dc & Htr & Hq);
      fold (run (createWallet X ETHEREUM) w0) in Htr
  end.
  unfold added. cbn [trace set_clock set_trace clock] in *.
  rewrite Htr. cbn [trace set_trace].
  rewrite <- !app_assoc, drop_app_length.
  rewrite !responsesIn_app, (responsesIn_none dc Hq). reflexivity.
Qed.

(** X19. A request of the page, followed through the screen and back.  It
    is answered under its own id, so that the promise [request] returned is
    the one that settles: with the address of the ethereum wallet for
    [eth_requestAccounts], and with undefined, not with a rejection, for
    any other method.  The promise stays pending when the request names no
    method, when the wallet has no address, and when there is no wallet,
    until the user taps Create Wallet, which resolves it with the new
    address; after Cancel it is pending still. *)
Theorem page_request_round_trip
    (X : Ext) (Y : SdkExt) (method : option string) (b : Browser) :
  pageOk (page b) ->
  _nextId (page b) < 2 ^ 53 ->
  let w := world (screen b) in
  let promise := fst (pageRequests Y method b) in
  let b1 := snd (pageRequests Y method b) in
  let answer := promises (page b1) !! promise in
  (truthy method = false -> answer = Some Pending /\ screen b1 = screen b)
  /\ (forall m, method = Some m -> m <> "" -> m <> "eth_requestAccounts" ->
        answer = Some (Resolved None))
  /\ (method = Some "eth_requestAccounts" ->
      (forall wl, wallets w ETHEREUM = Some wl -> wallet_address wl <> "" ->
         answer = Some (Resolved (Some [wallet_address wl])))
      /\ (forall wl, wallets w ETHEREUM = Some wl -> wallet_address wl = "" ->
            answer = Some Pending
            /\ dialogs (world (screen b1)) = dialogs w)
      /\ (wallets w ETHEREUM = None ->
          answer = Some Pending
          /\ forall captured,
               promises (page (userTaps X captured (length (dialogs w))
                                 "Cancel" b1)) !! promise
               = Some Pending
               /\ promises (page (userTaps X captured (length (dialogs w))
                                    "Create Wallet" b1)) !! promise
                  = Some (Resolved
                            (Some [wallet_address (createRandom X (clock w))])))).
Proof.
  intros Hok Hlt w promise b1 answer.
  set (id := _nextId (page b)).
  set (pg1 := snd (request method (page b))).
  assert (Hok1 : pageOk pg1) by (by apply request_pageOk).
  assert (Hpend : promises pg1 !! promise = Some Pending)
    by apply request_promise.
  assert (Hcb : _callbacks pg1 !! id = Some promise) by apply lookup_insert_eq.
  assert (Hb1 : b1 = {| screen := srun (handleWalletConnectRequest Y
                           (Some {| msg_uri := None; msg_method := method;
                                    msg_id := id |})) (screen b);
                        page := deliver (screen b)
                           (srun (handleWalletConnectRequest Y
                              (Some {| msg_uri := None; msg_method := method;
                                       msg_id := id |})) (screen b)) pg1 |}).
  { subst b1. unfold pageRequests. simpl. by rewrite last_snoc. }
  subst answer. rewrite Hb1. cbn [page screen]. clear Hb1.
  split; [|split].
  - intros Hm. rewrite (request_message_dropped Y id method _ Hm).
    split; [|reflexivity].
    rewrite deliver_none; [exact Hpend|].
    rewrite injected_responsesIn. unfold added. by rewrite drop_all.
  - intros m -> Hne Hnot. rewrite (request_message_handled Y id m _ Hne).
    apply (deliver_one _ _ pg1
             (PageError id {| code := 4200; message := "Method not supported" |})
             promise Hok1 Hcb).
    rewrite injected_responsesIn. cbn [world set_world].
    by rewrite handleEthereumRequest_unsupported.
  - intros ->.
    rewrite (request_message_handled Y id "eth_requestAccounts" _)
      by discriminate.
    pose proof (handleEthereumRequest_accounts id (world (screen b))) as Hacc.
    cbv zeta in Hacc. fold w in Hacc |- *.
    split; [|split].
    + intros wl Hw Ha. rewrite Hw in Hacc.
      apply (deliver_one _ _ pg1 (PageResult id [wallet_address wl])
               promise Hok1 Hcb).
      rewrite injected_responsesIn. cbn [world set_world].
      fold w. by rewrite (Hacc Ha).
    + intros wl Hw Ha.
      destruct (handleEthereumRequest_no_address id wl w Hw Ha) as [Hadd Hd].
      cbn [world set_world]. split; [|exact Hd].
      rewrite deliver_none; [exact Hpend|].
      rewrite injected_responsesIn. cbn [world set_world].
      fold w. by rewrite Hadd.
    + intros Hw. rewrite Hw in Hacc.
      assert (Hpage : deliver (screen b)
                        (set_world
                           (run (handleEthereumRequest
                                   {| data_id := id;
                                      data_method := "eth_requestAccounts" |}) w)
                           (screen b)) pg1 = pg1).
      { apply deliver_none. rewrite injected_responsesIn. cbn [world set_world].
        fold w. by rewrite Hacc. }
      rewrite Hpage. split; [exact Hpend|].
      intros captured. unfold userTaps. cbn [page screen].
      unfold srun, inWorld. cbn [world set_world].
      set (w1 := run (handleEthereumRequest
                        {| data_id := id;
                           data_method := "eth_requestAccounts" |}) w).
      assert (Hd1 : dialogs w1 = dialogs w ++ [accountsWalletRequiredDialog id]).
      { subst w1. by rewrite (handleEthereumRequest_no_wallet id w Hw). }
      assert (Hc1 : clock w1 = clock w).
      { subst w1. by rewrite (handleEthereumRequest_no_wallet id w Hw). }
      split.
      * destruct (tap X captured (length (dialogs w)) "Cancel" w1)
          as [r w2] eqn:Ht.
        cbn [snd]. rewrite deliver_none; [exact Hpend|].
        rewrite injected_responsesIn. cbn [world set_world].
        replace w2 with (run (tap X captured (length (dialogs w)) "Cancel") w1)
          by (unfold run; by rewrite Ht).
        by rewrite (accounts_dialog_cancel X captured id w1 (dialogs w) Hd1).
      * destruct (tap X captured (length (dialogs w)) "Create Wallet" w1)
          as [r w2] eqn:Ht.
        cbn [snd].
        apply (deliver_one _ _ pg1
                 (PageResult id [wallet_address (createRandom X (clock w))])
                 promise Hok1 Hcb).
        rewrite injected_responsesIn. cbn [world set_world].
        replace w2
          with (run (tap X captured (length (dialogs w)) "Create Wallet") w1)
          by (unfold run; by rewrite Ht).
        rewrite (accounts_dialog_create X captured id w1 (dialogs w) Hd1).
        by rewrite Hc1.
Qed.

Lemma injectedPage_ok : pageOk injectedPage.
Proof.
  split; [reflexivity|]. intros id promise H.
  change ((∅ : gmap Z nat) !! id = Some promise) in H.
  by rewrite lookup_empty in H.
Qed.

Lemma page_request_round_trip_witness :
  promises (page (snd (pageRequests sampleSdk (Some "eth_chainId") freshBrowser)))
    !! 0%nat
  = Some (Resolved None)
  /\ promises
       (page (userTaps sampleExt None 0 "Create Wallet"
                (snd (pageRequests sampleSdk (Some "eth_requestAccounts")
                        freshBrowser))))
       !! 0%nat
     = Some (Resolved (Some ["0xABC"])).
Proof.
  split.
  - destruct (page_request_round_trip sampleExt sampleSdk (Some "eth_chainId")
                freshBrowser injectedPage_ok eq_refl) as (_ & H & _).
    apply (H "eth_chainId"); [reflexivity | discriminate | discriminate].
  - destruct (page_request_round_trip sampleExt sampleSdk
                (Some "eth_requestAccounts") freshBrowser injectedPage_ok
                eq_refl) as (_ & _ & H).
    destruct (H eq_refl) as (_ & _ & Hnone).
    destruct (Hnone eq_refl) as (_ & Htaps).
    destruct (Htaps None) as [_ Hcreate]. exact Hcreate.
Defined.

(** ** Links clicked in the page *)

(** X20. The click listener posts a message only for an [A] element whose
    [href] starts with [wc:], and touches nothing else of the provider.
    The message carries that [href] as its [uri]; the screen takes it as a
    pairing request: with a client on an initialized screen it calls
    [pair] once, with exactly that [href], and otherwise it opens the
    Wallet not initialized dialog and calls nothing. *)
Theorem clicked_wc_links_are_paired
    (Y : SdkExt) (tagName : string) (href : option string) (pg : Page)
    (s : Screen) :
  let pg' := onClick tagName href pg in
  let s' := srun (handleWalletConnectRequest Y (last (posted pg'))) s in
  _callbacks pg' = _callbacks pg
  /\ _nextId pg' = _nextId pg
  /\ promises pg' = promises pg
  /\ (tagName <> "A" \/ truthy href = false
      \/ startsWith (default "" href) "wc:" = false ->
      pg' = pg)
  /\ (forall uri,
        tagName = "A" -> href = Some uri -> startsWith uri "wc:" = true ->
        posted pg'
        = posted pg ++ [ {| msg_uri := Some uri; msg_method := None;
                            msg_id := 0 |} ]
        /\ (is_Some (walletClient s) -> isWalletInitialized s = true ->
            calls s' = calls s ++ [Pair uri]
            /\ dialogs (world s') = dialogs (world s))
        /\ (walletClient s = None \/ isWalletInitialized s = false ->
            calls s' = calls s
            /\ dialogs (world s')
               = dialogs (world s) ++ [walletNotInitializedDialog])).
Proof.
  intros pg' s'. subst pg' s'. unfold onClick.
  destruct (bool_decide (tagName = "A") && truthy href
            && startsWith (default "" href) "wc:") eqn:Hc.
  - split; [reflexivity|]. split; [reflexivity|]. split; [reflexivity|].
    apply andb_true_iff in Hc as [Hc Hs].
    apply andb_true_iff in Hc as [Ha Ht].
    apply bool_decide_eq_true in Ha.
    split.
    { intros [Hn|[Hn|Hn]]; [done | congruence | congruence]. }
    intros uri _ -> Hwc. cbn [posted]. split; [reflexivity|].
    rewrite last_snoc.
    unfold handleWalletConnectRequest. screen_unfold.
    cbn [fst snd lift ret msg_uri world set_world].
    change (default "" (Some uri)) with uri.
    rewrite Ht, Hwc.
    cbn [andb fst snd walletClient isWalletInitialized calls world set_world].
    split.
    + intros [c Hcl] Hi. rewrite Hcl, Hi. simpl.
      by destruct (pairFails Y (clock (world s)) uri).
    + intros Hno.
      assert (Hb : bool_decide (is_Some (walletClient s))
                   && isWalletInitialized s = false).
      { destruct Hno as [Hn | Hn]; rewrite Hn;
          [reflexivity | apply andb_false_r]. }
      rewrite Hb. by simpl.
  - split; [reflexivity|]. split; [reflexivity|]. split; [reflexivity|].
    split; [reflexivity|].
    intros uri -> -> Hwc.
    change (default "" (Some uri)) with uri in Hc.
    rewrite Hwc, (wc_uri_truthy uri Hwc), bool_decide_eq_true_2 in Hc
      by reflexivity.
    discriminate.
Qed.

Lemma clicked_wc_links_are_paired_witness :
  calls (srun (handleWalletConnectRequest sampleSdk
                 (last (posted (onClick "A" (Some "wc:abc@2") injectedPage))))
           (srun (initializeEffect sampleExt sampleSdk)
              (initialScreen initialWorld)))
  = [ SignClientInit; Web3WalletInit;
      On "session_proposal" None; On "session_request" None;
      Pair "wc:abc@2" ].
Proof.
  destruct (clicked_wc_links_are_paired sampleSdk "A" (Some "wc:abc@2")
              injectedPage
              (srun (initializeEffect sampleExt sampleSdk)
                 (initialScreen initialWorld)))
    as (_ & _ & _ & _ & H).
  destruct (H "wc:abc@2" eq_refl eq_refl eq_refl) as (_ & Hpair & _).
  destruct Hpair as [Hc _]; [by eexists | reflexivity | exact Hc].
Defined.

(** ** The wallet screen *)

Section WalletScreenFrames.

Variable X : Ext.
Variable J : JsNumber.

Lemma portfolio_queries_untouched c n :
  keeps registryAndStore
    (let* tokenBalances := getTokenBalances X c n in
     let* nativeBalance := getBalance X c n in
     ret (tokenBalances, nativeBalance)).
Proof.
  repeat first [ apply getTokenBalances_untouched | apply getBalance_untouched
               | progress untouched_frame ].
Qed.

Lemma portfolio_queries_tables c n :
  keeps tables
    (let* tokenBalances := getTokenBalances X c n in
     let* nativeBalance := getBalance X c n in
     ret (tokenBalances, nativeBalance)).
Proof.
  repeat first [ apply getTokenBalances_tables | apply getBalance_tables
               | frame_step | by hnf ].
Qed.

(** [loadPortfolio] sets the portfolio, the total and the loading flag,
    and may open a dialog; it leaves the rest alone and never leaves the
    flag up. *)
Lemma loadPortfolio_frame (snapshot s : WalletScreen) :
  let s' := loadPortfolio X J snapshot s in
  besidePortfolio s' = besidePortfolio s
  /\ (isConnected snapshot = true -> ws_isLoading s' = false)
  /\ (isConnected snapshot = false -> s' = s).
Proof.
  intros s'. subst s'. unfold loadPortfolio.
  destruct (isConnected snapshot); simpl; [|by repeat split].
  pose proof (portfolio_queries_untouched (selectedChain snapshot)
                (selectedNetwork snapshot) (ws_world s)) as Hr.
  pose proof (portfolio_queries_tables (selectedChain snapshot)
                (selectedNetwork snapshot) (ws_world s)) as Ht.
  unfold unchanged in Hr, Ht.
  match goal with
  | |- context [?queries (ws_world s)] =>
      lazymatch queries with
      | bind _ _ => destruct (queries (ws_world s)) as [[[tb nb]|e] w]
      end
  end.
  all: unfold besidePortfolio, registryAndStore, tables, run, alert, emit,
         bind, update in *; simpl in *.
  all: injection Hr as Hr1 Hr2; injection Ht as Ht1 Ht2.
  all: split; [by rewrite Hr1, Hr2, Ht1, Ht2 | split; [done | discriminate]].
Qed.

End WalletScreenFrames.

Section WalletScreenSteps.

Variable X : Ext.
Variable J : JsNumber.

Lemma portfolioEffect_frame (s : WalletScreen) :
  besidePortfolio (portfolioEffect X J s) = besidePortfolio s
  /\ (ws_isLoading s = false -> ws_isLoading (portfolioEffect X J s) = false)
  /\ (isConnected s = false -> portfolioEffect X J s = s).
Proof.
  unfold portfolioEffect.
  destruct (isConnected s) eqn:Hc; [|by repeat split].
  destruct (loadPortfolio_frame X J s s) as (Hb & Hl & _).
  split; [exact Hb|]. split; [|discriminate]. intros _. by apply Hl.
Qed.

(** What the render and its effect add to the answer of a handler. *)
Lemma walletStep_frame (s : WalletScreen) (i : WalletInput) :
  let s' := respond X J i s in
  besidePortfolio (walletStep X J s i) = besidePortfolio s'
  /\ (ws_isLoading s' = false -> ws_isLoading (walletStep X J s i) = false)
  /\ (isConnected s' = false -> walletStep X J s i = s').
Proof.
  intros s'. unfold walletStep. fold s'.
  destruct (decide (dependencies s' = dependencies s)); [by repeat split|].
  apply portfolioEffect_frame.
Qed.

(** [createWallet] keeps the key it managed to store. *)
Lemma createWallet_stores c (w : World) :
  let wl := createRandom X (clock w) in
  setItemFails X (S (clock w)) (walletKey c) (privateKey wl) = false ->
  storage (run (createWallet X c) w) !! walletKey c = Some (privateKey wl).
Proof.
  intros wl Hsave.
  unfold run, createWallet, saveWallet, try_catch, bind, external, emit,
    update, read, ret, throw; simpl.
  fold wl. rewrite Hsave. simpl. apply lookup_insert_eq.
Qed.

Lemma connectWallet_run (s : WalletScreen) :
  isConnected s = false ->
  let wl := createRandom X (clock (ws_world s)) in
  connectWallet X J s s
  = set_ws_isLoading false
      (set_isConnected true
         (set_walletAddress (Some (wallet_address wl))
            (set_ws_world (run (createWallet X (selectedChain s)) (ws_world s))
               (set_ws_isLoading true s)))).
Proof.
  intros Hc wl. subst wl. unfold connectWallet. cbn [ws_world set_ws_isLoading].
  destruct (createWallet_registers X (selectedChain s) (ws_world s)) as [Hr _].
  unfold result, run in *.
  destruct (createWallet X (selectedChain s) (ws_world s)) as [r w1].
  simpl in Hr. subst r.
  match goal with
  | |- context [loadPortfolio X J s ?s0] =>
      destruct (loadPortfolio_frame X J s s0) as (_ & _ & Hsame)
  end.
  by rewrite (Hsame Hc).
Qed.

End WalletScreenSteps.

(** X21. The button of the wallet screen never reuses a wallet.  On a
    connected screen it only clears what the screen shows: the registry
    and the store keep the wallet.  On a screen that is not connected it
    calls [createWallet] for the selected chain without asking whether
    there is a wallet: the registry then holds the new wallet, the screen
    shows its address, and the stored key is the new one when the store
    accepted it.  So Disconnect followed by Connect Wallet replaces the
    wallet the screen was showing, in the registry and in the store. *)
Theorem connecting_always_makes_a_new_wallet
    (X : Ext) (J : JsNumber) (s : WalletScreen) :
  ws_isLoading s = false ->
  let c := selectedChain s in
  let wl := createRandom X (clock (ws_world s)) in
  let replaced (s' : WalletScreen) :=
    wallets (ws_world s') c = Some wl
    /\ isConnected s' = true
    /\ walletAddress s' = Some (wallet_address wl)
    /\ ws_isLoading s' = false
    /\ (setItemFails X (S (clock (ws_world s))) (walletKey c) (privateKey wl)
        = false ->
        storage (ws_world s') !! walletKey c = Some (privateKey wl)) in
  (isConnected s = false -> replaced (walletStep X J s ConnectButton))
  /\ (isConnected s = true ->
      let s1 := walletStep X J s ConnectButton in
      ws_world s1 = ws_world s
      /\ isConnected s1 = false
      /\ walletAddress s1 = None
      /\ portfolio s1 = []
      /\ totalValue s1 = "0.00"
      /\ replaced (walletStep X J s1 ConnectButton)).
Proof.
  intros Hl c wl replaced.
  assert (Hconnect : forall s0,
            ws_isLoading s0 = false -> isConnected s0 = false ->
            selectedChain s0 = c -> ws_world s0 = ws_world s ->
            replaced (walletStep X J s0 ConnectButton)).
  { intros s0 Hl0 Hc0 Hch Hw0.
    destruct (walletStep_frame X J s0 ConnectButton) as (Hb & Hload & _).
    cbv zeta in Hb, Hload. unfold respond in Hb, Hload.
    rewrite Hl0, Hc0 in Hb, Hload.
    rewrite (connectWallet_run X J s0 Hc0) in Hb, Hload.
    rewrite Hch, Hw0 in Hb, Hload. fold wl in Hb, Hload.
    unfold besidePortfolio, registryAndStore in Hb.
    cbn [ws_world selectedChain selectedNetwork isConnected walletAddress
         set_ws_isLoading set_isConnected set_walletAddress set_ws_world]
      in Hb.
    injection Hb as Hwal Hsto _ _ _ _ Hcon Hadr.
    destruct (createWallet_registers X c (ws_world s)) as [_ Hreg].
    unfold replaced. rewrite Hwal, Hsto, Hcon, Hadr.
    split; [exact Hreg|]. split; [reflexivity|]. split; [reflexivity|].
    split; [by apply Hload|]. apply createWallet_stores. }
  split.
  - intros Hc. by apply Hconnect.
  - intros Hc s1.
    assert (Hs1 : s1 = disconnectWallet s).
    { subst s1.
      destruct (walletStep_frame X J s ConnectButton) as (_ & _ & Hsame).
      cbv zeta in Hsame. unfold respond in Hsame. rewrite Hl, Hc in Hsame.
      by apply Hsame. }
    rewrite Hs1. do 5 (split; [reflexivity|]).
    apply Hconnect; [exact Hl | reflexivity | reflexivity | reflexivity].
Qed.

Lemma connecting_always_makes_a_new_wallet_witness :
  storage walletWorld !! walletKey ETHEREUM = Some "0x0123"
  /\ storage
       (ws_world
          (walletStep otherExt zeroNumbers
             (walletStep otherExt zeroNumbers connectedWalletScreen
                ConnectButton)
             ConnectButton))
       !! walletKey ETHEREUM
     = Some "0x4567".
Proof.
  split; [reflexivity|].
  destruct (connecting_always_makes_a_new_wallet otherExt zeroNumbers
              connectedWalletScreen eq_refl) as [_ H].
  destruct (H eq_refl) as (_ & _ & _ & _ & _ & _ & _ & _ & _ & Hstore).
  by apply Hstore.
Defined.


Lemma besidePortfolio_eq (s s' : WalletScreen) :
  besidePortfolio s' = besidePortfolio s ->
  wallets (ws_world s') = wallets (ws_world s)
  /\ tables (ws_world s') = tables (ws_world s)
  /\ selectedChain s' = selectedChain s
  /\ selectedNetwork s' = selectedNetwork s
  /\ isConnected s' = isConnected s
  /\ walletAddress s' = walletAddress s.
Proof.
  unfold besidePortfolio, registryAndStore, tables.
  intros [= H1 H2 H3 H4 H5 H6 H7 H8]. by rewrite H1, H3, H4, H5, H6, H7, H8.
Qed.

Section WalletScreenInvariant.

Variable X : Ext.
Variable J : JsNumber.





End WalletScreenInvariant.




(** Every balance [getTokenBalances] returns is valued [0.00]. *)
Lemma getTokenBalances_values (X : Ext) (c : ChainType) (n : Network)
    (w : World) (balances : list TokenBalance) :
  result (getTokenBalances X c n) w = Ok balances ->
  Forall (fun b => value b = "0.00") balances.
Proof.
  unfold result, getTokenBalances, getAlchemyInstance, bind, emit, external,
    update, read, lift, ret, throw.
  generalize (clientKey c n). intros k. simpl.
  destruct (wallets w c) as [wl|]; simpl; [|discriminate].
  destruct (decide (c = ETHEREUM \/ c = POLYGON)); simpl;
    [|by intros [= <-]].
  destruct (alchemyInstances w !! k) as [a|]; simpl; [|discriminate].
  destruct (coreGetTokenBalances X _ _ _) as [raw|]; simpl; [|discriminate].
  match goal with
  | |- context [foldM ?b [] raw ?w0] =>
      destruct (foldM b [] raw w0) as [[res|e] w'] eqn:Hf
  end; simpl; [|discriminate].
  intros [= <-].
  apply (token_loop_shape X c a) in Hf as (new & -> & Hwf & _). simpl.
  eapply Forall_impl; [exact Hwf|]. simpl. tauto.
Qed.

Lemma zero_total (J : JsNumber) (entries : list PortfolioEntry) :
  num_plus J (num_zero J) (parseFloat J "0.00") = num_zero J ->
  Forall (fun e => e_value e = "0.00") entries ->
  foldl (fun sum token =>
           num_plus J sum (parseFloat J (orElse (Some (e_value token)) "0")))
        (num_zero J) entries
  = num_zero J.
Proof.
  intros Hz. induction 1 as [|e entries He _ IH]; [reflexivity|].
  simpl. rewrite He. simpl. by rewrite Hz.
Qed.

(** X23. The total the wallet screen shows does not depend on what the
    wallet holds.  When both queries of [loadPortfolio] succeed, the
    portfolio is the native token of the selected chain, with the balance
    of the wallet, followed by the tokens in the order the registry
    returned them; every entry is valued [0.00], so the total is the
    rendering of zero.  When a query fails, the portfolio and the total stay
    as they were and the error dialog opens.  Either way the screen is not
    left loading. *)
Theorem total_shown_is_always_zero
    (X : Ext) (J : JsNumber) (snapshot s : WalletScreen) :
  isConnected snapshot = true ->
  num_plus J (num_zero J) (parseFloat J "0.00") = num_zero J ->
  let c := selectedChain snapshot in
  let n := selectedNetwork snapshot in
  let queries :=
    let* tokenBalances := getTokenBalances X c n in
    let* nativeBalance := getBalance X c n in
    ret (tokenBalances, nativeBalance) in
  let s' := loadPortfolio X J snapshot s in
  ws_isLoading s' = false
  /\ (forall tokenBalances nativeBalance,
        result queries (ws_world s) = Ok (tokenBalances, nativeBalance) ->
        portfolio s'
        = {| e_symbol := fst (nativeToken c); e_name := snd (nativeToken c);
             e_balance := nativeBalance; e_value := "0.00";
             e_logoURI := None |} :: map entryOf tokenBalances
        /\ Forall (fun e => e_value e = "0.00") (portfolio s')
        /\ totalValue s' = toFixed J (num_zero J) 2
        /\ dialogs (ws_world s') = dialogs (ws_world s))
  /\ (forall e,
        result queries (ws_world s) = Err e ->
        portfolio s' = portfolio s
        /\ totalValue s' = totalValue s
        /\ last (dialogs (ws_world s')) = Some loadPortfolioFailedDialog).
Proof.
  intros Hc Hz c n queries s'.
  assert (Hvalues : forall tb nb w',
            queries (ws_world s) = (Ok (tb, nb), w') ->
            Forall (fun b => value b = "0.00") tb).
  { intros tb nb w'. subst queries. unfold bind at 1.
    pose proof (getTokenBalances_values X c n (ws_world s)) as Hv.
    unfold result in Hv.
    destruct (getTokenBalances X c n (ws_world s)) as [[tb0|e] w0];
      [|discriminate].
    specialize (Hv tb0 eq_refl). unfold bind, ret.
    destruct (getBalance X c n w0) as [[nb0|e] w1]; [|discriminate].
    by intros [= <- <- <-]. }
  assert (Hdialogs : dialogs (run queries (ws_world s)) = dialogs (ws_world s)).
  { assert (Hk : keeps dialogs queries).
    { subst queries.
      unfold getTokenBalances, getAlchemyInstance, getBalance, getProvider.
      keeps_frame. }
    apply Hk. }
  subst s'. unfold loadPortfolio. rewrite Hc. cbn [negb].
  fold c n. cbv zeta. fold queries. cbn [ws_world set_ws_isLoading].
  unfold result, run in *.
  destruct (queries (ws_world s)) as [[[tb nb]|e] w'] eqn:Hq;
    cbn [fst snd] in *.
  - split; [reflexivity|]. split; [|discriminate].
    intros tokenBalances nativeBalance [= <- <-].
    assert (Hall : Forall (fun e => e_value e = "0.00")
                     ({| e_symbol := fst (nativeToken c);
                         e_name := snd (nativeToken c);
                         e_balance := nb; e_value := "0.00";
                         e_logoURI := None |} :: map entryOf tb)).
    { constructor; [reflexivity|]. apply Forall_map.
      eapply Forall_impl; [exact (Hvalues tb nb w' eq_refl)|]. by intros b Hb. }
    cbn [portfolio totalValue ws_world set_ws_isLoading set_totalValue
         set_portfolio set_ws_world].
    split; [reflexivity|]. split; [exact Hall|].
    split; [|exact Hdialogs].
    by rewrite (zero_total J _ Hz Hall).
  - split; [reflexivity|]. split; [discriminate|].
    intros e0 _.
    cbn [portfolio totalValue ws_world set_ws_isLoading set_ws_world].
    split; [reflexivity|]. split; [reflexivity|].
    unfold alert, emit, bind, update. simpl. apply last_snoc.
Qed.

Lemma total_shown_is_always_zero_witness :
  totalValue (loadPortfolio indexerExt zeroNumbers connectedWalletScreen
                connectedWalletScreen)
  = "0.00"
  /\ map e_symbol
       (portfolio (loadPortfolio indexerExt zeroNumbers connectedWalletScreen
                     connectedWalletScreen))
     = ["ETH"; "Unknown"].
Proof.
  destruct (total_shown_is_always_zero indexerExt zeroNumbers
              connectedWalletScreen connectedWalletScreen eq_refl eq_refl)
    as (_ & H & _).
  destruct (H [ {| token := {| symbol := "Unknown"; name := "Token";
                              decimals := 18; address := "0xTOKEN";
                              tk_chainType := ETHEREUM; logoURI := None |};
                   balance := "5"; value := "0.00" |} ] "0" eq_refl)
    as (Hp & _ & Ht & _).
  split; [exact Ht|]. by rewrite Hp.
Defined.

(** ** When an import fails *)

(** X24. An import throws exactly when its input does not decode, and
    then with the error of its own method: a store that refuses the key
    never makes an import fail.  A mnemonic that does not decode leaves the
    registry and the store as they were, the last thing done being the
    console error. *)
Theorem imports_fail_only_on_decoding (X : Ext) (c : ChainType) (w : World) :
  (forall key e,
     result (importWallet X c key) w = Err e
     <-> newWallet X key = None /\ e = InvalidPrivateKey)
  /\ (forall mnemonic e,
        result (importWalletFromMnemonic X c mnemonic) w = Err e
        <-> fromMnemonic X mnemonic = None /\ e = InvalidMnemonic)
  /\ (forall mnemonic,
        fromMnemonic X mnemonic = None ->
        let w' := run (importWalletFromMnemonic X c mnemonic) w in
        wallets w' = wallets w
        /\ storage w' = storage w
        /\ last (trace w')
           = Some (ConsoleError "Failed to import wallet from mnemonic:")).
Proof.
  split; [|split].
  - intros key e.
    unfold result, importWallet, try_catch, bind, emit, update, lift, ret,
      throw; simpl.
    destruct (newWallet X key) as [wl|]; simpl.
    + match goal with
      | |- context [saveWallet X c ?k ?w1] =>
          destruct (saveWallet_frame X c k w1) as (w2 & -> & _)
      end.
      simpl. split; [discriminate | intros [? _]; discriminate].
    + split; [by intros [= <-] | by intros [_ ->]].
  - intros mnemonic e.
    unfold result, importWalletFromMnemonic, try_catch, bind, emit, update,
      lift, ret, throw; simpl.
    destruct (fromMnemonic X mnemonic) as [wl|]; simpl.
    + match goal with
      | |- context [saveWallet X c ?k ?w1] =>
          destruct (saveWallet_frame X c k w1) as (w2 & -> & _)
      end.
      simpl. split; [discriminate | intros [? _]; discriminate].
    + split; [by intros [= <-] | by intros [_ ->]].
  - intros mnemonic H.
    unfold run, importWalletFromMnemonic, try_catch, bind, emit, update, lift,
      throw.
    rewrite H; simpl. split; [reflexivity|]. split; [reflexivity|].
    apply last_snoc.
Qed.

Lemma imports_fail_only_on_decoding_witness :
  result (importWalletFromMnemonic readOnlyExt POLYGON "test test junk")
    walletWorld
  = Ok "0xABC"
  /\ result (importWalletFromMnemonic readOnlyExt POLYGON "one two three")
       walletWorld
     = Err InvalidMnemonic.
Proof.
  destruct (imports_fail_only_on_decoding readOnlyExt POLYGON walletWorld)
    as (_ & H & _).
  split; [reflexivity|].
  apply (H "one two three" InvalidMnemonic). by split.
Defined.

(** ** The wallet screen across a restart *)

Lemma loadWallets_restores (X : Ext) (w : World) :
  (forall t k, getItemFails X t k = false) ->
  (forall c pk, storage w !! walletKey c = Some pk -> pk <> "" ->
                is_Some (newWallet X pk)) ->
  forall c, wallets (run (loadWallets X) w) c
            = loadedWallet X (storage w) (wallets w) c.
Proof.
  intros Hread Hdec c. rewrite loadWallets_loop. unfold run, try_catch.
  destruct (load_loop_loaded X ChainType_values w Hread Hdec)
    as (w' & -> & _ & Hw). simpl.
  rewrite Hw. destruct (decide (c ∈ ChainType_values)) as [|Hn]; [reflexivity|].
  destruct Hn. apply all_chains.
Qed.

Lemma besidePortfolio_storage (s s' : WalletScreen) :
  besidePortfolio s' = besidePortfolio s ->
  storage (ws_world s') = storage (ws_world s).
Proof.
  unfold besidePortfolio, registryAndStore, tables.
  by intros [= H1 H2 H3 H4 H5 H6 H7 H8].
Qed.

(** What the screen shows once it has mounted. *)
Lemma mounted_shows (X : Ext) (J : JsNumber) (w : World) :
  let s := walletStep X J (initialWalletScreen w) Mounted in
  wallets (ws_world s) = wallets (run (initialize X) w)
  /\ match wallets (run (initialize X) w) ETHEREUM with
     | Some wl =>
         isConnected s = true
         /\ walletAddress s
            = (if decide (wallet_address wl = "") then None
               else Some (wallet_address wl))
     | None => isConnected s = false /\ walletAddress s = None
     end.
Proof.
  intros s.
  destruct (walletStep_frame X J (initialWalletScreen w) Mounted)
    as (Hb & _ & _).
  cbv zeta in Hb. fold s in Hb.
  apply besidePortfolio_eq in Hb as (Hwal & _ & _ & _ & Hic & Hadr).
  rewrite Hwal, Hic, Hadr. clear s Hwal Hic Hadr.
  destruct (initialize_run X w) as (w1 & Hi & _).
  assert (Hstart : (initialize X ;;; hasWallet ETHEREUM) w
                   = hasWallet ETHEREUM (run setupProviders w1)).
  { unfold bind. by rewrite Hi. }
  assert (Hrun : run (initialize X) w = run setupProviders w1).
  { unfold run at 1. by rewrite Hi. }
  rewrite Hrun. clear Hrun Hi.
  unfold respond, initWallet. cbv zeta.
  cbn [ws_world initialWalletScreen selectedChain].
  rewrite Hstart. clear Hstart.
  generalize (run setupProviders w1). intros w2.
  unfold hasWallet, getWalletAddress, bind, emit, update, read, ret.
  cbn [fst snd wallets set_trace].
  destruct (wallets w2 ETHEREUM) as [wl|] eqn:Hw; cbn [fst snd].
  - cbn [ws_world set_ws_world set_isConnected wallets set_trace].
    rewrite Hw.
    destruct (decide (wallet_address wl = "")); cbn [fst snd].
    all: match goal with
         | |- context [loadPortfolio ?X0 ?J0 ?snap ?s0] =>
             destruct (loadPortfolio_frame X0 J0 snap s0) as (_ & _ & Hsame)
         end.
    all: rewrite (Hsame eq_refl); by repeat split.
  - by repeat split.
Qed.

(** X25. What the wallet screen shows survives a restart exactly when the
    key was stored.  After Connect Wallet on the ethereum screen, a new
    process that mounts the screen on the same store is connected again
    and shows the same address, provided the store took the key and gives
    it back and the key decodes to the wallet.  When the store refused the
    key and held none before, the new process finds no wallet and the
    screen comes up not connected: the wallet the screen had shown is
    gone. *)
Theorem shown_wallet_survives_a_restart_if_stored
    (X : Ext) (J : JsNumber) (s : WalletScreen) :
  (forall t k, getItemFails X t k = false) ->
  ws_isLoading s = false ->
  isConnected s = false ->
  selectedChain s = ETHEREUM ->
  let wl := createRandom X (clock (ws_world s)) in
  let stored := setItemFails X (S (clock (ws_world s))) (walletKey ETHEREUM)
                  (privateKey wl) in
  let s1 := walletStep X J s ConnectButton in
  let s2 := walletStep X J (initialWalletScreen (restart (ws_world s1)))
              Mounted in
  (forall c pk, storage (ws_world s1) !! walletKey c = Some pk -> pk <> "" ->
                is_Some (newWallet X pk)) ->
  walletAddress s1 = Some (wallet_address wl)
  /\ (stored = false ->
      privateKey wl <> "" ->
      newWallet X (privateKey wl) = Some wl ->
      wallet_address wl <> "" ->
      wallets (ws_world s2) ETHEREUM = Some wl
      /\ isConnected s2 = true
      /\ walletAddress s2 = Some (wallet_address wl))
  /\ (stored = true ->
      storage (ws_world s) !! walletKey ETHEREUM = None ->
      wallets (ws_world s2) ETHEREUM = None
      /\ isConnected s2 = false
      /\ walletAddress s2 = None).
Proof.
  intros Hread Hl Hc Hch wl stored s1 s2 Hdec.
  (* the first process *)
  destruct (walletStep_frame X J s ConnectButton) as (Hb & _ & _).
  cbv zeta in Hb. fold s1 in Hb. unfold respond in Hb. rewrite Hl, Hc in Hb.
  rewrite (connectWallet_run X J s Hc) in Hb. rewrite Hch in Hb. fold wl in Hb.
  pose proof (besidePortfolio_storage _ _ Hb) as Hsto.
  apply besidePortfolio_eq in Hb as (_ & _ & _ & _ & _ & Hadr).
  cbn [ws_world walletAddress set_ws_isLoading set_isConnected
       set_walletAddress set_ws_world] in Hsto, Hadr.
  split; [exact Hadr|].
  (* the second one *)
  destruct (mounted_shows X J (restart (ws_world s1))) as [Hwal Hshow].
  fold s2 in Hwal, Hshow.
  destruct (initialize_registry X (restart (ws_world s1))) as [Hinit _].
  assert (Hloaded : wallets (run (initialize X) (restart (ws_world s1))) ETHEREUM
                    = loadedWallet X (storage (ws_world s1)) (fun _ => None)
                        ETHEREUM).
  { rewrite Hinit. by rewrite loadWallets_restores. }
  rewrite Hwal. rewrite Hloaded in Hshow |- *.
  unfold loadedWallet in Hshow |- *. rewrite Hsto in Hshow |- *.
  split.
  - intros Hstored Hne Hkey Ha.
    rewrite (createWallet_stores X ETHEREUM (ws_world s) Hstored) in Hshow |- *.
    fold wl in Hshow |- *.
    rewrite decide_False in Hshow |- * by exact Hne.
    rewrite Hkey in Hshow |- *.
    rewrite decide_False in Hshow by exact Ha.
    by destruct Hshow.
  - intros Hstored Hnone.
    assert (Hkept : storage (run (createWallet X ETHEREUM) (ws_world s))
                    = storage (ws_world s)).
    { unfold run, createWallet, bind, emit, update, read, ret. simpl.
      fold wl.
      match goal with
      | |- context [saveWallet X ETHEREUM ?k ?w1] =>
          rewrite (saveWallet_refused X ETHEREUM k w1) by exact Hstored
      end.
      reflexivity. }
    rewrite Hkept, Hnone in Hshow |- *. by destruct Hshow.
Qed.

Lemma shown_wallet_survives_a_restart_if_stored_witness :
  walletAddress
    (walletStep sampleExt zeroNumbers
       (initialWalletScreen
          (restart (ws_world (walletStep sampleExt zeroNumbers
                                (initialWalletScreen startedWorld)
                                ConnectButton))))
       Mounted)
  = Some "0xABC"
  /\ walletAddress
       (walletStep readOnlyExt zeroNumbers
          (initialWalletScreen
             (restart (ws_world (walletStep readOnlyExt zeroNumbers
                                   (initialWalletScreen startedWorld)
                                   ConnectButton))))
          Mounted)
     = None.
Proof.
  split.
  - destruct (shown_wallet_survives_a_restart_if_stored sampleExt zeroNumbers
                (initialWalletScreen startedWorld) (fun _ _ => eq_refl)
                eq_refl eq_refl eq_refl) as (_ & H & _).
    + intros c pk Hs Hne. destruct c; vm_compute in Hs; try discriminate.
      injection Hs as <-. by eexists.
    + by destruct H as (_ & _ & H); [reflexivity | discriminate | reflexivity
                                    | discriminate |].
  - destruct (shown_wallet_survives_a_restart_if_stored readOnlyExt zeroNumbers
                (initialWalletScreen startedWorld) (fun _ _ => eq_refl)
                eq_refl eq_refl eq_refl) as (_ & _ & H).
    + intros c pk Hs Hne. destruct c; vm_compute in Hs; discriminate.
    + by destruct H as (_ & _ & H); [reflexivity | reflexivity |].
Defined.

(** ** The chain buttons *)


